(** * Chunking, indexing and streaming engine of [data_generators.py]

    A shallow embedding of the [DataGenerator] class: the chunk segmenter
    ([__generate_chunks]), the batch materializer ([__generate_xy_batches]),
    the constructor and the three generators, followed by the properties
    established about them.

    Python integers and numpy integer scalars are unbounded [Z] (the width of
    the offset table is fixed by the HDF5 file, not by the program); lists and
    the leading axis of numpy arrays are [list]; the label dictionary is a
    [gmap]; exceptions are an explicit error result.  A feature table is a
    2-D array: the list of its rows together with its number of columns,
    which numpy keeps in the shape also when there is no row.  The shape
    rules of numpy that the program relies on are written out: [np.array]
    refuses rows of different lengths (numpy 1.24 and later), and the
    arithmetic of the normalization follows the broadcasting rule. *)

From stdpp Require Import gmap strings list sorting.
From Stdlib Require Import ZArith.

Local Open Scope Z_scope.

(** ** Python and numpy primitives used by the program *)

Module Py.

(** Exception classes the program can meet.  [ArangeError] stands for the
    exception [np.arange] raises on a zero step (its class depends on the
    operand types: [ZeroDivisionError] for Python integers).  [UserError]
    is any class defined outside the builtins. *)
Inductive exn : Type :=
| ZeroDivisionError
| IndexError
| KeyError
| ValueError
| AttributeError
| ArangeError
| UserError (cls : string).

Inductive result (A : Type) : Type :=
| Ok (a : A)
| Err (e : exn).
Arguments Ok {A} a.
Arguments Err {A} e.

#[global] Instance result_ret : MRet result := fun _ a => Ok a.
#[global] Instance result_bind : MBind result := fun _ _ f m =>
  match m with
  | Ok a => f a
  | Err e => Err e
  end.

Definition is_Ok {A} (r : result A) : Prop := exists a, r = Ok a.

(** [len(l)] *)
Definition len {A} (l : list A) : Z := Z.of_nat (length l).

(** Normalisation of one slice bound against a sequence of length [n]. *)
Definition clamp_index (n i : Z) : Z :=
  if decide (i < 0) then Z.max (i + n) 0 else Z.min i n.

(** [l[b:e]]: negative bounds count from the end, all bounds are clamped,
    an empty range gives the empty sequence. *)
Definition slice {A} (l : list A) (b e : Z) : list A :=
  let n := len l in
  let b' := clamp_index n b in
  let e' := clamp_index n e in
  take (Z.to_nat (e' - b')) (drop (Z.to_nat b') l).

(** [l[i]] on a list or a numpy array: a negative index counts from the
    end, an index outside [-n, n) raises [IndexError]. *)
Definition index {A} (l : list A) (i : Z) : result A :=
  let n := len l in
  if decide (- n <= i < n)
  then from_option Ok (Err IndexError)
         (l !! Z.to_nat (if decide (i < 0) then i + n else i))
  else Err IndexError.

(** [a // b] on Python integers. *)
Definition floordiv (a b : Z) : result Z :=
  if decide (b = 0) then Err ZeroDivisionError else Ok (a / b).

(** [a / b] on Python integers, kept only for its failure: the quotient is
    a float that the program formats into a log line. *)
Definition truediv_check (a b : Z) : result unit :=
  if decide (b = 0) then Err ZeroDivisionError else Ok tt.

(** Ceiling of [a / b]. *)
Definition ceil_div (a b : Z) : Z := - ((- a) / b).

(** [np.arange(start, stop, step)] on integers: [ceil((stop-start)/step)]
    values (none when that is not positive), the stop bound excluded. *)
Definition arange (start stop step : Z) : result (list Z) :=
  if decide (step = 0) then Err ArangeError
  else Ok ((fun k => start + k * step) <$>
             seqZ 0 (ceil_div (stop - start) step)).

(** [np.tile(x, (reps, 1))] on a 2-D array [x]: [reps] copies of [x] one
    after the other along the first axis. *)
Definition tile {A} (x : list A) (reps : Z) : result (list A) :=
  if decide (reps < 0) then Err ValueError
  else Ok (mjoin (replicate (Z.to_nat reps) x)).

End Py.

Import Py.

(** ** Chunk segmenter and batch materializer *)

(** A chunk descriptor [(BEGIN, END, audio_label_ind)]. *)
Definition Chunk (Lbl : Type) : Type := (Z * Z * Lbl)%type.

Section Chunking.
Context {Lbl : Type}.

(** [DataGenerator.__generate_chunks]; [L] is [self.input_frames_number]. *)
Definition generate_chunks (L : Z) (begin end_ : Z) (audio_label_ind : Lbl)
  : result (list (Chunk Lbl)) :=
  if decide (end_ - begin <= L) then Ok [(begin, end_, audio_label_ind)]
  else
    begin_indices ← arange begin (end_ - L) (L / 2);
    Ok ((fun b => (b, b + L, audio_label_ind)) <$> (begin_indices : list Z)).

Context {F : Type}.

(** The row appended to [x_batch] for one descriptor. *)
Definition chunk_rows (L : Z) (x_data : list F) (begin end_ : Z)
  : result (list F) :=
  let x := slice x_data begin end_ in
  if decide (end_ - begin = L) then Ok x
  else
    q ← floordiv L (len x);
    t ← tile x (q + 1);
    Ok (slice t 0 L).

(** The loop over [indices] that fills the lists [x_batch] and
    [y_batch]. *)
Fixpoint xy_loop (L : Z) (x_data : list F)
    (indices : list (Chunk Lbl)) : result (list (list F) * list Lbl) :=
  match indices with
  | [] => Ok ([], [])
  | (begin, end_, y) :: rest =>
      x ← chunk_rows L x_data begin end_;
      xy ← xy_loop L x_data rest;
      Ok (x :: xy.1, y :: xy.2)
  end.

(** [np.array(x_batch)] on the list of rows, each a 2-D array of frames:
    the rows must all have the same number of frames; for a ragged list
    numpy (from 1.24 on) raises ValueError. *)
Definition np_array (rows : list (list F)) : result (list (list F)) :=
  match rows with
  | [] => Ok []
  | r :: rs =>
      if decide (Forall (fun r' => length r' = length r) rs) then Ok rows
      else Err ValueError
  end.

(** [DataGenerator.__generate_xy_batches] *)
Definition generate_xy_batches (L : Z) (x_data : list F)
    (indices : list (Chunk Lbl)) : result (list (list F) * list Lbl) :=
  xy ← xy_loop L x_data indices;
  x_batch ← np_array xy.1;
  Ok (x_batch, xy.2).

End Chunking.

(** ** External collaborators *)

(** Floating-point arithmetic of numpy, kept abstract: element-wise
    subtraction and division, and [np.mean] / [np.std] along axis 0 of a
    2-D array of shape [(n, C)], given by its number of columns [C] and its
    rows.  The result has shape [(C,)], whatever the rows are (also for
    [n = 0], where numpy warns and returns NaNs). *)
Class FloatOps (R : Type) : Type := {
  fsub : R -> R -> R;
  fdiv : R -> R -> R;
  np_mean : nat -> list (list R) -> list R;
  np_std : nat -> list (list R) -> list R;
  np_mean_length : forall C rows, length (np_mean C rows) = C;
  np_std_length : forall C rows, length (np_std C rows) = C
}.

(** [np.random.RandomState]: construction from a seed and the in-place
    [shuffle], which returns the shuffled sequence and the advanced state.
    All that is known of [shuffle] is that it permutes its argument. *)
Class RandomGen (G : Type) : Type := {
  RandomState : Z -> G;
  shuffle : forall {A : Type}, G -> list A -> list A * G;
  shuffle_Permutation :
    forall (A : Type) (g : G) (l : list A), (shuffle g l).1 ≡ₚ l
}.

Module HParams.
(** The fields of [params] the class reads (paths apart). *)
Record t : Type := {
  input_frames_number : Z;
  batch_size : Z;
  eval_audios_number : Z;
  seed : Z;
  holdout_fold : Z
}.
End HParams.

(** The datasets of one HDF5 file ([train.h5] or [test.h5]), strings
    already decoded.  The dataset [feature] has shape
    [(frames, h5_feature_channels)]; [h5_feature] holds its rows. *)
Record H5File (R : Type) : Type := {
  h5_label : list string;
  h5_filename : list string;
  h5_feature : list (list R);
  h5_feature_channels : nat;
  h5_manually_verified : list Z;
  h5_begin_end_ind : list (Z * Z)
}.
Arguments h5_label {R} _.
Arguments h5_filename {R} _.
Arguments h5_feature {R} _.
Arguments h5_feature_channels {R} _.
Arguments h5_manually_verified {R} _.
Arguments h5_begin_end_ind {R} _.

(** ** The engine state *)

(** An array of recording indices: an integer array, or the empty float
    array [np.empty(0)] stored when no validation split is made. *)
Inductive IndexArray : Type :=
| IntArray (l : list Z)
| EmptyFloatArray.

Definition index_list (a : IndexArray) : list Z :=
  match a with
  | IntArray l => l
  | EmptyFloatArray => []
  end.

(** Attributes bound once by [__init__] and never rebound or mutated.
    [x_channels] is [self.x.shape[1]]. *)
Record Loaded (R : Type) : Type := {
  input_frames_number : Z;
  validate : bool;
  batch_size : Z;
  eval_audios_number : Z;
  labels : list string;
  label_index_dict : gmap string Z;
  filenames : list string;
  x : list (list R);
  x_channels : nat;
  y : list Z;
  manually_verified : list Z;
  begin_end_indices : list (Z * Z);
  files_number : Z;
  train_audio_indices_len : Z;
  validation_audio_indices_len : Z;
  mean : list R;
  std : list R;
  train_chunks : list (Chunk Z);
  train_chunks_len : Z
}.
Arguments input_frames_number {R} _.
Arguments validate {R} _.
Arguments batch_size {R} _.
Arguments eval_audios_number {R} _.
Arguments labels {R} _.
Arguments label_index_dict {R} _.
Arguments filenames {R} _.
Arguments x {R} _.
Arguments x_channels {R} _.
Arguments y {R} _.
Arguments manually_verified {R} _.
Arguments begin_end_indices {R} _.
Arguments files_number {R} _.
Arguments train_audio_indices_len {R} _.
Arguments validation_audio_indices_len {R} _.
Arguments mean {R} _.
Arguments std {R} _.
Arguments train_chunks {R} _.
Arguments train_chunks_len {R} _.

(** Attributes bound by [read_test_data]; [x_test_channels] is
    [self.x_test.shape[1]]. *)
Record TestData (R : Type) : Type := {
  filenames_test : list string;
  x_test : list (list R);
  x_test_channels : nat;
  y_test : list Z;
  begin_end_indices_test : list (Z * Z)
}.
Arguments filenames_test {R} _.
Arguments x_test {R} _.
Arguments x_test_channels {R} _.
Arguments y_test {R} _.
Arguments begin_end_indices_test {R} _.

(** The object [self]: the attributes above and those that later calls
    rebind or mutate in place.  [None] is an attribute not yet bound. *)
Record Engine (R G : Type) : Type := {
  loaded : Loaded R;
  train_rand_generator : G;
  validation_rand_generator : G;
  train_audio_indices : list Z;
  validation_audio_indices : IndexArray;
  epoch_len : option Z;
  epoch : option Z;
  test_data : option (TestData R)
}.
Arguments loaded {R G} _.
Arguments train_rand_generator {R G} _.
Arguments validation_rand_generator {R G} _.
Arguments train_audio_indices {R G} _.
Arguments validation_audio_indices {R G} _.
Arguments epoch_len {R G} _.
Arguments epoch {R G} _.
Arguments test_data {R G} _.

Section EngineOps.
Context {R G : Type} `{!FloatOps R} `{!RandomGen G}.

Definition set_train_rand_generator (g : G) (e : Engine R G) : Engine R G :=
  {| loaded := loaded e;
     train_rand_generator := g;
     validation_rand_generator := validation_rand_generator e;
     train_audio_indices := train_audio_indices e;
     validation_audio_indices := validation_audio_indices e;
     epoch_len := epoch_len e;
     epoch := epoch e;
     test_data := test_data e |}.

Definition set_validation_rand_generator (g : G) (e : Engine R G)
  : Engine R G :=
  {| loaded := loaded e;
     train_rand_generator := train_rand_generator e;
     validation_rand_generator := g;
     train_audio_indices := train_audio_indices e;
     validation_audio_indices := validation_audio_indices e;
     epoch_len := epoch_len e;
     epoch := epoch e;
     test_data := test_data e |}.

Definition set_train_audio_indices (a : list Z) (e : Engine R G)
  : Engine R G :=
  {| loaded := loaded e;
     train_rand_generator := train_rand_generator e;
     validation_rand_generator := validation_rand_generator e;
     train_audio_indices := a;
     validation_audio_indices := validation_audio_indices e;
     epoch_len := epoch_len e;
     epoch := epoch e;
     test_data := test_data e |}.

Definition set_validation_audio_indices (a : IndexArray) (e : Engine R G)
  : Engine R G :=
  {| loaded := loaded e;
     train_rand_generator := train_rand_generator e;
     validation_rand_generator := validation_rand_generator e;
     train_audio_indices := train_audio_indices e;
     validation_audio_indices := a;
     epoch_len := epoch_len e;
     epoch := epoch e;
     test_data := test_data e |}.

Definition set_epoch_len (n : option Z) (e : Engine R G) : Engine R G :=
  {| loaded := loaded e;
     train_rand_generator := train_rand_generator e;
     validation_rand_generator := validation_rand_generator e;
     train_audio_indices := train_audio_indices e;
     validation_audio_indices := validation_audio_indices e;
     epoch_len := n;
     epoch := epoch e;
     test_data := test_data e |}.

Definition set_epoch (n : option Z) (e : Engine R G) : Engine R G :=
  {| loaded := loaded e;
     train_rand_generator := train_rand_generator e;
     validation_rand_generator := validation_rand_generator e;
     train_audio_indices := train_audio_indices e;
     validation_audio_indices := validation_audio_indices e;
     epoch_len := epoch_len e;
     epoch := n;
     test_data := test_data e |}.

Definition set_test_data (t : option (TestData R)) (e : Engine R G)
  : Engine R G :=
  {| loaded := loaded e;
     train_rand_generator := train_rand_generator e;
     validation_rand_generator := validation_rand_generator e;
     train_audio_indices := train_audio_indices e;
     validation_audio_indices := validation_audio_indices e;
     epoch_len := epoch_len e;
     epoch := epoch e;
     test_data := t |}.

(** *** Helpers shared by the methods *)

(** A sequence of fallible steps, left to right, stopping at the first
    exception (a list comprehension or a [for] loop that builds a list). *)
Fixpoint for_each {A B : Type} (f : A -> result B) (l : list A)
  : result (list B) :=
  match l with
  | [] => Ok []
  | a :: l' =>
      b ← f a;
      bs ← for_each f l';
      Ok (b :: bs)
  end.

(** [a[idx]] for an integer index array [idx] (numpy fancy indexing). *)
Definition take_indices {A : Type} (a : list A) (idx : list Z)
  : result (list A) :=
  for_each (index a) idx.

(** [d[k]] on a dict. *)
Definition dict_get (d : gmap string Z) (k : string) : result Z :=
  from_option Ok (Err KeyError) (d !! k).

(** [enumerate(l)] *)
Definition enumerate {A : Type} (l : list A) : list (Z * A) :=
  zip (seqZ 0 (len l)) l.

(** [sorted({s for s in labels})]: the set of the strings, in ascending
    order.  Strings are the UTF-8 byte strings of the file; their byte-wise
    lexicographic order is the code-point order in which Python compares
    the decoded [str] values. *)
Definition sorted_set (l : list string) : list string :=
  merge_sort String.le (elements (list_to_set l : gset string)).

(** [{key: i for i, key in enumerate(l)}]: keys are inserted left to
    right, a later insertion of a key replaces the earlier one. *)
Definition index_dict (l : list string) : gmap string Z :=
  foldl (fun d ik => <[ik.2 := ik.1]> d) ∅ (enumerate l).

(** numpy broadcasting of two axes of lengths [a] and [b]: equal lengths
    are kept, an axis of length 1 is stretched to the other, any other
    pair raises ValueError. *)
Definition broadcast_axis (a b : nat) : result nat :=
  if decide (a = b) then Ok a
  else if decide (a = 1%nat) then Ok b
  else if decide (b = 1%nat) then Ok a
  else Err ValueError.

(** An element-wise operation on a frame [u] and a vector [v] whose
    lengths broadcast. *)
Definition broadcast_op (f : R -> R -> R) (u v : list R) : list R :=
  match u, v with
  | [a], _ :: _ :: _ => f a <$> v
  | _ :: _ :: _, [b] => (fun a => f a b) <$> u
  | _, _ => zip_with f u v
  end.

(** The last axis of [(x - mean) / std] for an array [x] whose last axis
    has length [a]: [mean] is broadcast against [x], then [std] against
    the difference. *)
Definition broadcast_axes (a : nat) (mean_ std_ : list R) : result nat :=
  c1 ← broadcast_axis a (length mean_);
  broadcast_axis c1 (length std_).

(** The statistics can be applied to an array whose last axis has length
    [a]. *)
Definition broadcasts (a : nat) (mean_ std_ : list R) : Prop :=
  is_Ok (broadcast_axes a mean_ std_).

(** One frame of [(x_batch - self.mean) / self.std]. *)
Definition normalize_frame (mean_ std_ frame : list R) : list R :=
  broadcast_op fdiv (broadcast_op fsub frame mean_) std_.

(** [(x_batch - self.mean) / self.std].  [x_batch] is the array made by
    [np.array] from chunks cut out of a table with [C] channels: its shape
    is [(B, L, C)], or [(0,)] when the list of chunks is empty.  [mean] and
    [std], of shapes [(len mean,)] and [(len std,)], are broadcast against
    the last axis, and numpy raises ValueError when the lengths do not
    broadcast. *)
Definition normalize (C : nat) (mean_ std_ : list R)
    (x_batch : list (list (list R))) : result (list (list (list R))) :=
  let last_axis := match x_batch with [] => 0%nat | _ :: _ => C end in
  _ ← broadcast_axes last_axis mean_ std_;
  Ok ((fun chunk : list (list R) => normalize_frame mean_ std_ <$> chunk)
      <$> x_batch).

(** What a generator has produced when it stops: the values yielded, and
    the exception that ended it, if one did. *)
Definition Trace (Y : Type) : Type := (list Y * option exn)%type.

(** A [for] loop whose body computes one value and yields it. *)
Fixpoint yield_each {A Y : Type} (body : A -> result Y) (l : list A)
  : Trace Y :=
  match l with
  | [] => ([], None)
  | a :: l' =>
      match body a with
      | Err ex => ([], Some ex)
      | Ok v => let t := yield_each body l' in (v :: t.1, t.2)
      end
  end.

(** [np.concatenate(arrays, axis=0)]: needs at least one array. *)
Definition np_concatenate {A : Type} (arrays : list (list A))
  : result (list A) :=
  match arrays with
  | [] => Err ValueError
  | _ => Ok (mjoin arrays)
  end.

(** *** [DataGenerator.__init__]

    [hdf5] is the content of [train.h5]; [folds] is the [fold] column of
    the validation meta file, read only when [validate] is set (its index
    is the default [0 .. n-1]).  [init_from] is the constructor from the
    list bound to [self.labels] on. *)
Definition init_from (labels_ : list string) (params : HParams.t)
    (validate_ : bool) (hdf5 : H5File R) (folds : list Z)
  : result (Engine R G) :=
  let L := HParams.input_frames_number params in
  let train_rng := RandomState (HParams.seed params) in
  let validation_rng := RandomState 0 in
  let dict := index_dict labels_ in
  y_ ← for_each (dict_get dict) (h5_label hdf5);
  let files_number_ := len (h5_filename hdf5) in
  let train_idx :=
    if validate_
    then fst <$> filter (fun p => p.2 ≠ HParams.holdout_fold params)
                   (enumerate folds)
    else seqZ 0 files_number_ in
  let validation_idx :=
    if validate_
    then IntArray (fst <$> filter (fun p => p.2 = HParams.holdout_fold params)
                             (enumerate folds))
    else EmptyFloatArray in
  let train_len := len train_idx in
  let validation_len := len (index_list validation_idx) in
  _ ← (if validate_ then truediv_check train_len validation_len else Ok tt);
  train_begin_end_indices ← take_indices (h5_begin_end_ind hdf5) train_idx;
  let x_train :=
    (fun be : Z * Z => slice (h5_feature hdf5) be.1 be.2)
    <$> train_begin_end_indices in
  x_train' ← np_concatenate x_train;
  let mean_ := np_mean (h5_feature_channels hdf5) x_train' in
  let std_ := np_std (h5_feature_channels hdf5) x_train' in
  chunks ← for_each
    (fun i =>
       be ← index train_begin_end_indices i;
       aind ← index train_idx i;
       audio_label_ind ← index y_ aind;
       generate_chunks L be.1 be.2 audio_label_ind)
    (seqZ 0 train_len);
  let train_chunks_ := mjoin chunks in
  Ok {| loaded :=
          {| input_frames_number := L;
             validate := validate_;
             batch_size := HParams.batch_size params;
             eval_audios_number := HParams.eval_audios_number params;
             labels := labels_;
             label_index_dict := dict;
             filenames := h5_filename hdf5;
             x := h5_feature hdf5;
             x_channels := h5_feature_channels hdf5;
             y := y_;
             manually_verified := h5_manually_verified hdf5;
             begin_end_indices := h5_begin_end_ind hdf5;
             files_number := files_number_;
             train_audio_indices_len := train_len;
             validation_audio_indices_len := validation_len;
             mean := mean_;
             std := std_;
             train_chunks := train_chunks_;
             train_chunks_len := len train_chunks_ |};
        train_rand_generator := train_rng;
        validation_rand_generator := validation_rng;
        train_audio_indices := train_idx;
        validation_audio_indices := validation_idx;
        epoch_len := None;
        epoch := None;
        test_data := None |}.

Definition init (params : HParams.t) (validate_ : bool) (hdf5 : H5File R)
    (folds : list Z) : result (Engine R G) :=
  init_from (sorted_set (h5_label hdf5)) params validate_ hdf5 folds.

(** The iteration order of a Python set is not fixed: in a run of the
    program the set [{s.decode() for s in labels}] hands its members to
    [sorted] in some order [iteration], each member once. *)
Definition set_iteration (l iteration : list string) : Prop :=
  NoDup iteration /\ forall s, s ∈ iteration <-> s ∈ l.

(** The constructor in a run where the set of labels iterates in the order
    [iteration]. *)
Definition init_iter (iteration : list string) (params : HParams.t)
    (validate_ : bool) (hdf5 : H5File R) (folds : list Z)
  : result (Engine R G) :=
  init_from (merge_sort String.le iteration) params validate_ hdf5 folds.

(** *** [DataGenerator.train_generator]

    The generator is infinite; it is modelled by its prologue, run at the
    first [next], and by the body of its [while True] loop, which produces
    one yielded value per call.  Its local variables are [TrainLocals]. *)
Record TrainLocals : Type := {
  train_chunks_copy : list (Chunk Z);
  batch_begin_ind : Z
}.

Definition train_generator_start (e : Engine R G)
  : result (Engine R G * TrainLocals) :=
  let sh := shuffle (train_rand_generator e) (train_chunks (loaded e)) in
  let e1 := set_train_rand_generator sh.2 e in
  q ← floordiv (train_chunks_len (loaded e1)) (batch_size (loaded e1));
  let e2 := set_epoch (Some 1) (set_epoch_len (Some (q + 1)) e1) in
  Ok (e2, {| train_chunks_copy := sh.1; batch_begin_ind := 0 |}).

(** The top of the loop body: the epoch rollover and the slice taken from
    the shuffled copy. *)
Definition train_select (e : Engine R G) (st : TrainLocals)
  : Engine R G * TrainLocals * list (Chunk Z) :=
  let '(e1, st1) :=
    if decide (batch_begin_ind st >= train_chunks_len (loaded e))
    then
      let sh := shuffle (train_rand_generator e) (train_chunks_copy st) in
      (set_epoch ((fun n => n + 1) <$> epoch e)
         (set_train_rand_generator sh.2 e),
       {| train_chunks_copy := sh.1; batch_begin_ind := 0 |})
    else (e, st) in
  let batch_indices :=
    slice (train_chunks_copy st1) (batch_begin_ind st1)
      (batch_begin_ind st1 + batch_size (loaded e1)) in
  (e1, st1, batch_indices).

(** One turn of the loop, up to and including its [yield]. *)
Definition train_generator_next (e : Engine R G) (st : TrainLocals)
  : result (Engine R G * TrainLocals * (list (list (list R)) * list Z)) :=
  let '(e1, st1, batch_indices) := train_select e st in
  xy ← generate_xy_batches (input_frames_number (loaded e1)) (x (loaded e1))
         batch_indices;
  x_batch ← normalize (x_channels (loaded e1)) (mean (loaded e1))
              (std (loaded e1)) xy.1;
  let st2 := {| train_chunks_copy := train_chunks_copy st1;
                batch_begin_ind :=
                  batch_begin_ind st1 + batch_size (loaded e1) |} in
  Ok (e1, st2, (x_batch, xy.2)).

(** The first [n] values pulled from a running generator, with the state
    reached, or the exception that ended the generator. *)
Fixpoint train_pull (n : nat) (e : Engine R G) (st : TrainLocals)
  : list (list (list (list R)) * list Z) * result (Engine R G * TrainLocals) :=
  match n with
  | O => ([], Ok (e, st))
  | S n' =>
      match train_generator_next e st with
      | Err ex => ([], Err ex)
      | Ok (e1, st1, v) =>
          let r := train_pull n' e1 st1 in (v :: r.1, r.2)
      end
  end.

(** The slices [batch_indices] of the first [n] turns of the loop and the
    state they lead to, leaving materialization aside (it does not touch
    the loop's state). *)
Fixpoint train_batches (n : nat) (e : Engine R G) (st : TrainLocals)
  : list (list (Chunk Z)) * (Engine R G * TrainLocals) :=
  match n with
  | O => ([], (e, st))
  | S n' =>
      let '(e1, st1, batch_indices) := train_select e st in
      let st2 := {| train_chunks_copy := train_chunks_copy st1;
                    batch_begin_ind :=
                      batch_begin_ind st1 + batch_size (loaded e1) |} in
      let r := train_batches n' e1 st2 in
      (batch_indices :: r.1, r.2)
  end.

(** The first [n] values of [self.train_generator()]. *)
Definition train_generator (n : nat) (e : Engine R G)
  : list (list (list (list R)) * list Z) * result (Engine R G * TrainLocals) :=
  match train_generator_start e with
  | Err ex => ([], Err ex)
  | Ok (e1, st) => train_pull n e1 st
  end.

(** What the training generator reads from the engine: the chunk pool, the
    batching parameters, the feature table, the statistics and the state of
    the training random generator. *)
Definition train_view (e : Engine R G) :=
  (train_chunks (loaded e), train_chunks_len (loaded e),
   batch_size (loaded e), input_frames_number (loaded e),
   x (loaded e), x_channels (loaded e), mean (loaded e), std (loaded e),
   train_rand_generator e).

(** How a run of the training generator ended, as far as the training
    stream can tell: the view above and the generator's local variables. *)
Definition train_outcome (r : result (Engine R G * TrainLocals)) :=
  match r with
  | Ok (e, st) => Ok (train_view e, st)
  | Err ex => Err ex
  end.

(** The shape of a yielded training batch: as many labels as chunks, at
    least one and at most [batch_size] chunks, [L] frames per chunk. *)
Definition batch_shape (L bs : Z) (v : list (list (list R)) * list Z)
  : Prop :=
  length v.1 = length v.2
  /\ (1 <= length v.1 <= Z.to_nat bs)%nat
  /\ Forall (fun chunk => len chunk = L) v.1.

(** *** [DataGenerator.validation_generator]

    The local variable [audio_indices] is bound either to one of the two
    arrays stored in [self] (no copy is made) or to the new array produced
    by the fancy indexing of the [manually_verified_only] branch. *)
Inductive ArrayRef : Type :=
| SelfTrain
| SelfValidation
| NewArray (a : IndexArray).

Definition deref (e : Engine R G) (r : ArrayRef) : IndexArray :=
  match r with
  | SelfTrain => IntArray (train_audio_indices e)
  | SelfValidation => validation_audio_indices e
  | NewArray a => a
  end.

(** The content of an array after an in-place permutation of its items. *)
Definition with_items (a : IndexArray) (l : list Z) : IndexArray :=
  match a with
  | IntArray _ => IntArray l
  | EmptyFloatArray => EmptyFloatArray
  end.

(** [self.validation_rand_generator.shuffle(audio_indices)]: the array the
    variable refers to is permuted in place. *)
Definition shuffle_in_place (e : Engine R G) (r : ArrayRef)
  : Engine R G * ArrayRef :=
  let sh := shuffle (validation_rand_generator e) (index_list (deref e r)) in
  let e1 := set_validation_rand_generator sh.2 e in
  match r with
  | SelfTrain => (set_train_audio_indices sh.1 e1, SelfTrain)
  | SelfValidation =>
      (set_validation_audio_indices
         (with_items (validation_audio_indices e) sh.1) e1,
       SelfValidation)
  | NewArray a => (e1, NewArray (with_items a sh.1))
  end.

(** [audio_indices[np.where(self.manually_verified[audio_indices] == 1)[0]]];
    a float array is refused as an index. *)
Definition verified_only (e : Engine R G) (a : IndexArray)
  : result IndexArray :=
  match a with
  | EmptyFloatArray => Err IndexError
  | IntArray l =>
      flags ← take_indices (manually_verified (loaded e)) l;
      Ok (IntArray (fst <$> filter (fun p : Z * Z => p.2 = 1) (zip l flags)))
  end.

(** The body of the loop for one recording. *)
Definition validation_item (e : Engine R G) (aind : Z)
  : result (list (list (list R)) * list Z * Z) :=
  be ← index (begin_end_indices (loaded e)) aind;
  y_ ← index (y (loaded e)) aind;
  chunk_indices ←
    generate_chunks (input_frames_number (loaded e)) be.1 be.2 y_;
  xy ← generate_xy_batches (input_frames_number (loaded e)) (x (loaded e))
         chunk_indices;
  x_batch ← normalize (x_channels (loaded e)) (mean (loaded e))
              (std (loaded e)) xy.1;
  Ok (x_batch, xy.2, y_).

(** The [for] loop with its [break] at [ind == self.eval_audios_number]. *)
Fixpoint validation_loop (e : Engine R G) (items : list (Z * Z))
  : Trace (list (list (list R)) * list Z * Z) :=
  match items with
  | [] => ([], None)
  | (ind, aind) :: rest =>
      if decide (ind = eval_audios_number (loaded e)) then ([], None)
      else
        match validation_item e aind with
        | Err ex => ([], Some ex)
        | Ok v => let t := validation_loop e rest in (v :: t.1, t.2)
        end
  end.

(** The generator run to its end: the engine it leaves and its trace. *)
Definition validation_generator (e : Engine R G) (mode : string)
    (manually_verified_only shuffle_ : bool)
  : Engine R G * Trace (list (list (list R)) * list Z * Z) :=
  let r0 := if decide (mode = "train"%string) then SelfTrain
            else SelfValidation in
  let filtered :=
    if manually_verified_only
    then a ← verified_only e (deref e r0); Ok (NewArray a)
    else Ok r0 in
  match filtered with
  | Err ex => (e, ([], Some ex))
  | Ok r1 =>
      let '(e1, r2) := if shuffle_ then shuffle_in_place e r1 else (e, r1) in
      (e1, validation_loop e1 (enumerate (index_list (deref e1 r2))))
  end.

(** *** [DataGenerator.read_test_data]; [hdf5] is the content of
    [test.h5]. *)
Definition read_test_data (e : Engine R G) (hdf5 : H5File R)
  : result (Engine R G) :=
  y_test_ ← for_each (dict_get (label_index_dict (loaded e))) (h5_label hdf5);
  Ok (set_test_data
        (Some {| filenames_test := h5_filename hdf5;
                 x_test := h5_feature hdf5;
                 x_test_channels := h5_feature_channels hdf5;
                 y_test := y_test_;
                 begin_end_indices_test := h5_begin_end_ind hdf5 |}) e).

(** *** [DataGenerator.test_generator] *)
Definition test_item (e : Engine R G) (t : TestData R) (item : Z * string)
  : result (list (list (list R)) * string * Z) :=
  be ← index (begin_end_indices_test t) item.1;
  chunk_indices ←
    generate_chunks (input_frames_number (loaded e)) be.1 be.2 tt;
  xy ← generate_xy_batches (input_frames_number (loaded e)) (x_test t)
         chunk_indices;
  x_batch ← normalize (x_test_channels t) (mean (loaded e))
              (std (loaded e)) xy.1;
  y_ ← index (y_test t) item.1;
  Ok (x_batch, item.2, y_).

Definition test_generator (e : Engine R G)
  : Trace (list (list (list R)) * string * Z) :=
  match test_data e with
  | None => ([], Some AttributeError)
  | Some t => yield_each (test_item e t) (enumerate (filenames_test t))
  end.

(** *** Calls of the evaluation methods

    [other_calls e e']: the engine [e'] is what [e] has become after any
    number of validation generators run to their end (whether they end
    normally or with an exception) and of successful calls of
    [read_test_data], in any order.  (The test generator binds no
    attribute and mutates none.) *)
Inductive other_calls (e : Engine R G) : Engine R G -> Prop :=
| other_calls_none : other_calls e e
| other_calls_validation e1 mode manually_verified_only shuffle_ :
    other_calls e e1 ->
    other_calls e
      (validation_generator e1 mode manually_verified_only shuffle_).1
| other_calls_read_test_data e1 hdf5 e2 :
    other_calls e e1 ->
    read_test_data e1 hdf5 = Ok e2 ->
    other_calls e e2.

End EngineOps.

(** ** A small executable instance

    Exact integer arithmetic in place of floats and a generator whose
    [shuffle] reverses its argument: enough to run the model on concrete
    tables. *)
Module Toy.

(** The sum of column [j]. *)
Definition col_sum (rows : list (list Z)) (j : nat) : Z :=
  foldr Z.add 0 ((fun r => nth j r 0) <$> rows).

Definition toy_mean (C : nat) (rows : list (list Z)) : list Z :=
  (fun j => col_sum rows j / len rows) <$> seq 0 C.

Definition toy_std (C : nat) (rows : list (list Z)) : list Z :=
  let m := toy_mean C rows in
  (fun j =>
     Z.sqrt (col_sum ((fun r : list Z =>
                         (fun a => (a - nth j m 0) * (a - nth j m 0)) <$> r)
                      <$> rows) j
             / len rows))
  <$> seq 0 C.

#[global] Instance float_ops : FloatOps Z := {|
  fsub := Z.sub;
  fdiv := Z.div;
  np_mean := toy_mean;
  np_std := toy_std;
  np_mean_length := fun C rows =>
    eq_trans (length_fmap _ (seq 0 C)) (length_seq C 0);
  np_std_length := fun C rows =>
    eq_trans (length_fmap _ (seq 0 C)) (length_seq C 0)
|}.

#[global] Instance random_gen : RandomGen Z := {|
  RandomState := fun seed => seed;
  shuffle := fun A g l => (reverse l, g + 1);
  shuffle_Permutation := fun A g l => reverse_Permutation l
|}.

Definition params : HParams.t := {|
  HParams.input_frames_number := 4;
  HParams.batch_size := 2;
  HParams.eval_audios_number := 10;
  HParams.seed := 42;
  HParams.holdout_fold := 1
|}.

(** The same parameters with another evaluation limit. *)
Definition params_eval1 : HParams.t := {|
  HParams.input_frames_number := 4;
  HParams.batch_size := 2;
  HParams.eval_audios_number := 1;
  HParams.seed := 42;
  HParams.holdout_fold := 1
|}.

(** Three recordings over a table of twelve one-channel frames. *)
Definition train_h5 : H5File Z := {|
  h5_label := ["dog"; "cat"; "dog"]%string;
  h5_filename := ["a.wav"; "b.wav"; "c.wav"]%string;
  h5_feature := (fun v => [v]) <$> seqZ 0 12;
  h5_feature_channels := 1;
  h5_manually_verified := [1; 0; 1];
  h5_begin_end_ind := [(0, 3); (3, 4); (4, 12)]
|}.

(** The training file with a flag array that misses the last recording. *)
Definition short_flags_h5 : H5File Z := {|
  h5_label := ["dog"; "cat"; "dog"]%string;
  h5_filename := ["a.wav"; "b.wav"; "c.wav"]%string;
  h5_feature := (fun v => [v]) <$> seqZ 0 12;
  h5_feature_channels := 1;
  h5_manually_verified := [1; 0];
  h5_begin_end_ind := [(0, 3); (3, 4); (4, 12)]
|}.

Definition test_h5 : H5File Z := {|
  h5_label := ["cat"; "dog"]%string;
  h5_filename := ["t0.wav"; "t1.wav"]%string;
  h5_feature := (fun _ => [5]) <$> seqZ 0 9;
  h5_feature_channels := 1;
  h5_manually_verified := [];
  h5_begin_end_ind := [(0, 3); (3, 9)]
|}.

End Toy.

(** * Properties *)

(** ** Python primitives *)

Lemma ceil_div_lt (a b k : Z) :
  0 < b -> (k < ceil_div a b <-> k * b < a).
Proof.
  intros Hb. unfold ceil_div.
  pose proof (Z.div_mod (- a) b ltac:(lia)) as Hdm.
  pose proof (Z.mod_pos_bound (- a) b Hb) as Hm.
  split; intros H; nia.
Qed.

Lemma slice_inside {A : Type} (l : list A) (b e : Z) :
  0 <= b -> b <= e -> e <= len l ->
  slice l b e = take (Z.to_nat (e - b)) (drop (Z.to_nat b) l).
Proof.
  intros Hb Hbe He. unfold slice, clamp_index.
  repeat case_decide; try lia.
  rewrite !Z.min_l by lia. reflexivity.
Qed.

Lemma length_slice_inside {A : Type} (l : list A) (b e : Z) :
  0 <= b -> b <= e -> e <= len l -> len (slice l b e) = e - b.
Proof.
  intros Hb Hbe He. rewrite slice_inside by done.
  unfold len in *. rewrite length_take, length_drop. lia.
Qed.

Lemma slice_empty {A : Type} (l : list A) (b : Z) : slice l b b = [].
Proof. unfold slice. rewrite Z.sub_diag. reflexivity. Qed.

Lemma slice_nil {A : Type} (b e : Z) : slice (@nil A) b e = [].
Proof. unfold slice. rewrite drop_nil. apply take_nil. Qed.

(** ** Chunk segmenter *)

(** The first branch of the segmenter. *)
Lemma generate_chunks_le {Lbl : Type} (L begin end_ : Z) (lab : Lbl) :
  end_ - begin <= L ->
  generate_chunks L begin end_ lab = Ok [(begin, end_, lab)].
Proof.
  intros H. unfold generate_chunks. case_decide; [reflexivity | lia].
Qed.

(** C9: a range no longer than [L] is returned as the single descriptor
    [(begin, end, label)]. *)
Theorem generate_chunks_short {Lbl : Type} (L begin end_ : Z) (lab : Lbl) :
  0 <= end_ - begin <= L ->
  generate_chunks L begin end_ lab = Ok [(begin, end_, lab)].
Proof. intros [_ H]. apply generate_chunks_le, H. Qed.

Lemma generate_chunks_short_witness :
  generate_chunks 4 0 3 7 = Ok [(0, 3, 7)].
Proof. apply (generate_chunks_short 4 0 3 7). lia. Defined.

(** The second branch of the segmenter: the starts are
    [begin + k * (L // 2)] for the [k >= 0] whose start is strictly below
    [end - L]. *)
Lemma generate_chunks_gt {Lbl : Type} (L begin end_ : Z) (lab : Lbl) :
  2 <= L -> end_ - begin > L ->
  let n := ceil_div (end_ - L - begin) (L / 2) in
  generate_chunks L begin end_ lab =
    Ok ((fun k => (begin + k * (L / 2), begin + k * (L / 2) + L, lab))
          <$> seqZ 0 n)
  /\ 1 <= n
  /\ (forall k, 0 <= k -> (k < n <-> begin + k * (L / 2) < end_ - L)).
Proof.
  intros HL Hlong n.
  assert (Hh : 0 < L / 2) by (apply Z.div_str_pos; lia).
  assert (Hn : forall k, k < n <-> k * (L / 2) < end_ - L - begin)
    by (intros k; apply ceil_div_lt; exact Hh).
  split; [| split].
  - unfold generate_chunks, arange.
    case_decide; [lia |]. case_decide; [lia |]. simpl.
    f_equal. rewrite <- list_fmap_compose. reflexivity.
  - assert (0 < n) by (apply Hn; lia). lia.
  - intros k _. rewrite Hn. lia.
Qed.

(** C1, as the code has it: for a range longer than [L] (with [L >= 2])
    the starts are [begin + k * (L // 2)] for exactly those [k >= 0] whose
    start lies strictly below [end - L]; the bound itself is excluded.
    For [L = 4] and the range [0, 10) the result is (0,4), (2,6), (4,8). *)
Theorem generate_chunks_long {Lbl : Type} (L begin end_ : Z) (lab : Lbl) :
  2 <= L -> end_ - begin > L ->
  let n := ceil_div (end_ - L - begin) (L / 2) in
  generate_chunks L begin end_ lab =
    Ok ((fun k => (begin + k * (L / 2), begin + k * (L / 2) + L, lab))
          <$> seqZ 0 n)
  /\ 1 <= n
  /\ (forall k, 0 <= k -> (k < n <-> begin + k * (L / 2) < end_ - L))
  /\ generate_chunks 4 0 10 lab = Ok [(0, 4, lab); (2, 6, lab); (4, 8, lab)].
Proof.
  intros HL Hlong n.
  destruct (generate_chunks_gt L begin end_ lab HL Hlong) as (Hgc & Hn & Hk).
  split_and!; [exact Hgc | exact Hn | exact Hk | reflexivity].
Qed.

Lemma generate_chunks_long_witness :
  generate_chunks 4 0 10 tt =
    Ok ((fun k => (0 + k * (4 / 2), 0 + k * (4 / 2) + 4, tt))
          <$> seqZ 0 (ceil_div (10 - 4 - 0) (4 / 2)))
  /\ (2 < ceil_div (10 - 4 - 0) (4 / 2) <-> 0 + 2 * (4 / 2) < 10 - 4)
  /\ (3 < ceil_div (10 - 4 - 0) (4 / 2) <-> 0 + 3 * (4 / 2) < 10 - 4).
Proof.
  destruct (generate_chunks_long 4 0 10 tt) as (Hgc & _ & Hk & _);
    [lia | lia |].
  split; [exact Hgc |]. split; apply Hk; lia.
Defined.

(** C1 as stated fails: the window starting at [end - L = 6] is not
    produced for [L = 4] and the range [0, 10). *)
Lemma generate_chunks_excludes_bound :
  generate_chunks 4 0 10 tt
  <> Ok [(0, 4, tt); (2, 6, tt); (4, 8, tt); (6, 10, tt)].
Proof. vm_compute. discriminate. Qed.

(** ** Batch materializer *)

Lemma length_tile {A : Type} (n : nat) (x : list A) :
  length (mjoin (replicate n x)) = (n * length x)%nat.
Proof.
  induction n as [| n IH]; simpl; [reflexivity |].
  rewrite length_app, IH. reflexivity.
Qed.

(** The row built for a descriptor that lies inside the table and has at
    least one frame. *)
Lemma chunk_rows_inside {F : Type} (L : Z) (x_data : list F) (b e : Z) :
  0 <= L -> 0 <= b -> 1 <= e - b -> e <= len x_data ->
  let x := slice x_data b e in
  let reps := L / (e - b) + 1 in
  exists row,
    chunk_rows L x_data b e = Ok row
    /\ len row = L
    /\ (e - b = L -> row = x)
    /\ (e - b <> L ->
        L <= reps * (e - b)
        /\ row = take (Z.to_nat L) (mjoin (replicate (Z.to_nat reps) x))).
Proof.
  intros HL Hb Hbe He x reps.
  assert (Hx : len x = e - b) by (apply length_slice_inside; lia).
  unfold chunk_rows. fold x. case_decide as Heq.
  - exists x. split; [reflexivity |]. split; [lia |].
    split; [done | intros; lia].
  - unfold floordiv. rewrite Hx. case_decide; [lia |]. simpl.
    unfold tile. fold reps.
    assert (Hq : 0 <= L / (e - b)) by (apply Z.div_pos; lia).
    case_decide; [lia |]. simpl.
    assert (Hreps : L <= reps * (e - b)).
    { pose proof (Z.mul_succ_div_gt L (e - b) ltac:(lia)). lia. }
    set (t := mjoin (replicate (Z.to_nat reps) x)).
    assert (Ht : len t = reps * (e - b)).
    { unfold len, t. rewrite length_tile. unfold len in Hx. lia. }
    assert (Hs : slice t 0 L = take (Z.to_nat L) t).
    { rewrite slice_inside by lia. rewrite Z.sub_0_r. reflexivity. }
    exists (take (Z.to_nat L) t). rewrite Hs.
    split; [reflexivity |]. split; [| split; [intros; lia | done]].
    unfold len in *. rewrite length_take. lia.
Qed.

(** [np.array] takes the rows as they are when they have one length, and
    only then. *)
Lemma np_array_Ok {F : Type} (rows : list (list F)) (n : nat) :
  Forall (fun r => length r = n) rows -> np_array rows = Ok rows.
Proof.
  intros Hall. destruct rows as [| r rs]; [reflexivity |].
  unfold np_array. apply Forall_cons in Hall as [Hr Hrs].
  case_decide as Hd; [reflexivity |].
  exfalso. apply Hd. eapply Forall_impl; [exact Hrs |].
  simpl. intros r' Hr'. congruence.
Qed.

Lemma np_array_inv {F : Type} (rows r : list (list F)) :
  np_array rows = Ok r ->
  r = rows /\ forall r1 r2, r1 ∈ rows -> r2 ∈ rows -> length r1 = length r2.
Proof.
  destruct rows as [| r0 rs]; simpl.
  - intros H. injection H as <-. split; [reflexivity |].
    intros r1 r2 H1. apply elem_of_nil in H1. contradiction.
  - case_decide as Hd; [| discriminate]. intros H. injection H as <-.
    split; [reflexivity |].
    assert (Hall : forall r', r' ∈ r0 :: rs -> length r' = length r0).
    { intros r' Hr'. apply elem_of_cons in Hr' as [-> | Hr']; [reflexivity |].
      rewrite Forall_forall in Hd. apply Hd. exact Hr'. }
    intros r1 r2 H1 H2. rewrite (Hall r1 H1), (Hall r2 H2). reflexivity.
Qed.

Lemma np_array_ragged {F : Type} (rows : list (list F)) (r1 r2 : list F) :
  r1 ∈ rows -> r2 ∈ rows -> length r1 <> length r2 ->
  np_array rows = Err ValueError.
Proof.
  intros H1 H2 Hne. destruct (np_array rows) as [r | ex] eqn:Hnp.
  - destruct (np_array_inv _ _ Hnp) as [_ Hall].
    exfalso. apply Hne. apply Hall; assumption.
  - destruct rows as [| r0 rs]; [discriminate |].
    simpl in Hnp. case_decide; [discriminate |]. congruence.
Qed.

(** The method returns what its loop has built, once [np.array] has
    accepted the rows. *)
Lemma generate_xy_batches_loop {Lbl F : Type} (L : Z) (x_data : list F)
    (indices : list (Chunk Lbl)) xy :
  generate_xy_batches L x_data indices = Ok xy ->
  xy_loop L x_data indices = Ok xy
  /\ forall r1 r2, r1 ∈ xy.1 -> r2 ∈ xy.1 -> length r1 = length r2.
Proof.
  unfold generate_xy_batches. intros H.
  destruct (xy_loop L x_data indices) as [[xs ys] | ex]; [| discriminate].
  simpl in H. destruct (np_array xs) as [r | ex] eqn:Hnp; [| discriminate].
  simpl in H. injection H as <-.
  destruct (np_array_inv _ _ Hnp) as [-> Hall]. split; [reflexivity |].
  exact Hall.
Qed.

Lemma generate_xy_batches_of_loop {Lbl F : Type} (L : Z) (x_data : list F)
    (indices : list (Chunk Lbl)) xy (n : nat) :
  xy_loop L x_data indices = Ok xy ->
  Forall (fun r => length r = n) xy.1 ->
  generate_xy_batches L x_data indices = Ok xy.
Proof.
  intros Hloop Hall. unfold generate_xy_batches. rewrite Hloop. simpl.
  rewrite (np_array_Ok _ n Hall). destruct xy. reflexivity.
Qed.

Lemma generate_xy_batches_loop_Err {Lbl F : Type} (L : Z) (x_data : list F)
    (indices : list (Chunk Lbl)) ex :
  xy_loop L x_data indices = Err ex ->
  generate_xy_batches L x_data indices = Err ex.
Proof. intros H. unfold generate_xy_batches. rewrite H. reflexivity. Qed.

(** The loop on descriptors that have at least one frame and lie inside
    the table. *)
Lemma xy_loop_inside {Lbl F : Type} (L : Z) (x_data : list F)
    (indices : list (Chunk Lbl)) :
  0 <= L ->
  (forall b e lab, (b, e, lab) ∈ indices ->
     0 <= b /\ 1 <= e - b /\ e <= len x_data) ->
  exists x_batch,
    xy_loop L x_data indices = Ok (x_batch, indices.*2)
    /\ Forall2
         (fun (row : list F) (c : Chunk Lbl) =>
            let x := slice x_data c.1.1 c.1.2 in
            let d := c.1.2 - c.1.1 in
            len row = L
            /\ (d = L -> row = x)
            /\ (d <> L ->
                L <= (L / d + 1) * d
                /\ row = take (Z.to_nat L)
                           (mjoin (replicate (Z.to_nat (L / d + 1)) x))))
         x_batch indices.
Proof.
  intros HL. induction indices as [| [[b e] lab] rest IH]; intros Hin.
  - exists []. split; [reflexivity | constructor].
  - destruct (Hin b e lab) as (Hb & Hbe & He);
      [apply elem_of_cons; left; reflexivity |].
    destruct (chunk_rows_inside L x_data b e HL Hb Hbe He)
      as (row & Hrow & Hlen & Heq & Hne).
    destruct IH as (xs & Hxs & Hall).
    { intros b' e' lab' H'. apply (Hin b' e' lab').
      apply elem_of_cons. right. exact H'. }
    exists (row :: xs). split.
    + simpl. rewrite Hrow. simpl. rewrite Hxs. reflexivity.
    + constructor; [| exact Hall]. simpl. auto.
Qed.

(** Materialization of descriptors that have at least one frame and lie
    inside the table. *)
Lemma generate_xy_batches_inside {Lbl F : Type} (L : Z) (x_data : list F)
    (indices : list (Chunk Lbl)) :
  0 <= L ->
  (forall b e lab, (b, e, lab) ∈ indices ->
     0 <= b /\ 1 <= e - b /\ e <= len x_data) ->
  exists x_batch,
    generate_xy_batches L x_data indices = Ok (x_batch, indices.*2)
    /\ Forall2
         (fun (row : list F) (c : Chunk Lbl) =>
            let x := slice x_data c.1.1 c.1.2 in
            let d := c.1.2 - c.1.1 in
            len row = L
            /\ (d = L -> row = x)
            /\ (d <> L ->
                L <= (L / d + 1) * d
                /\ row = take (Z.to_nat L)
                           (mjoin (replicate (Z.to_nat (L / d + 1)) x))))
         x_batch indices.
Proof.
  intros HL Hin.
  destruct (xy_loop_inside L x_data indices HL Hin) as (xs & Hxs & Hall).
  exists xs. split; [| exact Hall].
  apply (generate_xy_batches_of_loop _ _ _ _ (Z.to_nat L)); [exact Hxs |].
  simpl. apply Forall_forall. intros row Hrow.
  apply list_elem_of_lookup in Hrow as [i Hi].
  destruct (Forall2_lookup_l _ _ _ _ _ Hall Hi) as (c & _ & Hlen & _).
  unfold len in Hlen. lia.
Qed.

(** C2: when every descriptor has at least one frame and lies inside the
    table, materialization succeeds, the labels come out in order, and every
    row has exactly [L] frames: the slice itself when its length is [L],
    otherwise the first [L] frames of the slice repeated
    [L // (end - begin) + 1] times, which is at least [L] frames. *)
Theorem generate_xy_batches_rows {Lbl F : Type} (L : Z) (x_data : list F)
    (indices : list (Chunk Lbl)) :
  0 <= L ->
  (forall b e lab, (b, e, lab) ∈ indices ->
     0 <= b /\ 1 <= e - b /\ e <= len x_data) ->
  exists x_batch,
    generate_xy_batches L x_data indices = Ok (x_batch, indices.*2)
    /\ Forall2
         (fun (row : list F) (c : Chunk Lbl) =>
            let x := slice x_data c.1.1 c.1.2 in
            let d := c.1.2 - c.1.1 in
            len row = L
            /\ (d = L -> row = x)
            /\ (d <> L ->
                L <= (L / d + 1) * d
                /\ row = take (Z.to_nat L)
                           (mjoin (replicate (Z.to_nat (L / d + 1)) x))))
         x_batch indices.
Proof. apply generate_xy_batches_inside. Qed.

Lemma generate_xy_batches_rows_witness :
  exists x_batch,
    generate_xy_batches 4 [10; 11; 12; 13; 14] [(0, 3, 7); (1, 5, 8)]
    = Ok (x_batch, [7; 8])
    /\ Forall2
         (fun (row : list Z) (c : Chunk Z) =>
            let x := slice [10; 11; 12; 13; 14] c.1.1 c.1.2 in
            let d := c.1.2 - c.1.1 in
            len row = 4
            /\ (d = 4 -> row = x)
            /\ (d <> 4 ->
                4 <= (4 / d + 1) * d
                /\ row = take (Z.to_nat 4)
                           (mjoin (replicate (Z.to_nat (4 / d + 1)) x))))
         x_batch [(0, 3, 7); (1, 5, 8)].
Proof.
  apply (generate_xy_batches_rows 4 [10; 11; 12; 13; 14]
           [(0, 3, 7); (1, 5, 8)]).
  - lia.
  - intros b e lab H.
    apply list_elem_of_In in H.
    destruct H as [H | [H | []]]; inversion H; subst; vm_compute;
      repeat split; discriminate.
Defined.

(** With [L >= 1] the only exception a row can raise is the division by
    zero of [L // len(x)]. *)
Lemma chunk_rows_Err {F : Type} (L : Z) (x_data : list F) (b e : Z) ex :
  1 <= L -> chunk_rows L x_data b e = Err ex -> ex = ZeroDivisionError.
Proof.
  intros HL. unfold chunk_rows, floordiv, tile.
  case_decide; [discriminate |].
  case_decide; simpl; [congruence |].
  case_decide; simpl; [| discriminate].
  pose proof (Z.div_pos L (len (slice x_data b e))) as Hq.
  unfold len in *. lia.
Qed.

Lemma chunk_rows_zero_frames {F : Type} (L : Z) (x_data : list F) (b : Z) :
  L <> 0 -> chunk_rows L x_data b b = Err ZeroDivisionError.
Proof.
  intros HL. unfold chunk_rows. rewrite slice_empty, Z.sub_diag.
  case_decide; [lia | reflexivity].
Qed.

(** C5, as the code has it: with [L >= 1], a batch that holds a descriptor
    with [end == begin] is not materialized; the call raises
    [ZeroDivisionError]. *)
Theorem generate_xy_batches_zero_frames {Lbl F : Type} (L : Z)
    (x_data : list F) (indices : list (Chunk Lbl)) (b : Z) (lab : Lbl) :
  1 <= L -> (b, b, lab) ∈ indices ->
  generate_xy_batches L x_data indices = Err ZeroDivisionError.
Proof.
  intros HL Hin. apply generate_xy_batches_loop_Err.
  induction indices as [| [[b' e'] lab'] rest IH].
  - apply elem_of_nil in Hin. contradiction.
  - simpl. destruct (chunk_rows L x_data b' e') as [row | ex] eqn:Hrow.
    + apply elem_of_cons in Hin as [Heq | Hin].
      * inversion Heq; subst.
        rewrite chunk_rows_zero_frames in Hrow by lia. discriminate.
      * simpl. rewrite (IH Hin). reflexivity.
    + apply chunk_rows_Err in Hrow; [| exact HL]. subst. reflexivity.
Qed.

Lemma generate_xy_batches_zero_frames_witness :
  generate_xy_batches 4 [10; 11; 12] [(0, 3, 7); (1, 1, 8)]
  = Err ZeroDivisionError.
Proof.
  apply (generate_xy_batches_zero_frames 4 [10; 11; 12]
           [(0, 3, 7); (1, 1, 8)] 1 8).
  - lia.
  - apply list_elem_of_In. right. left. reflexivity.
Defined.

(** C5 as stated fails: a zero-frame descriptor makes materialization
    raise instead of producing a chunk of [L] frames. *)
Lemma generate_xy_batches_zero_frames_fails :
  ~ is_Ok (generate_xy_batches 4 [10; 11; 12] [(1, 1, 8)]).
Proof. intros [a Ha]. vm_compute in Ha. discriminate. Qed.

(** ** Label vocabulary *)

Lemma enumerate_snoc {A : Type} (l : list A) (a : A) :
  enumerate (l ++ [a]) = enumerate l ++ [(len l, a)].
Proof.
  unfold enumerate, len. rewrite length_app, Nat.add_1_r, seqZ_S.
  rewrite Z.add_0_l.
  apply (zip_with_app pair (seqZ 0 (Z.of_nat (length l)))
           [Z.of_nat (length l)] l [a]).
  rewrite length_seqZ. lia.
Qed.

Lemma index_dict_snoc (l : list string) (a : string) :
  index_dict (l ++ [a]) = <[a := len l]> (index_dict l).
Proof.
  unfold index_dict. rewrite enumerate_snoc, foldl_snoc. reflexivity.
Qed.

(** On distinct keys the dictionary is the inverse of list indexing. *)
Lemma index_dict_lookup (l : list string) (s : string) (i : Z) :
  NoDup l ->
  index_dict l !! s = Some i <-> 0 <= i /\ l !! Z.to_nat i = Some s.
Proof.
  induction l as [| a l IH] using rev_ind; intros Hnd.
  - unfold index_dict. simpl. rewrite lookup_empty. split.
    + discriminate.
    + intros [_ H]. rewrite lookup_nil in H. discriminate.
  - apply NoDup_app in Hnd as (Hnd & Hnot & _).
    assert (Ha : a ∉ l).
    { intros Hin. apply (Hnot a Hin). apply list_elem_of_singleton.
      reflexivity. }
    rewrite index_dict_snoc. destruct (decide (a = s)) as [-> | Hne].
    + rewrite lookup_insert_eq. split.
      * intros [= <-]. unfold len. split; [lia |].
        rewrite Nat2Z.id. apply list_lookup_middle. reflexivity.
      * intros [Hi Hl]. f_equal. unfold len.
        destruct (decide (Z.to_nat i < length l)%nat) as [Hlt | Hge].
        -- rewrite lookup_app_l in Hl by exact Hlt.
           exfalso. apply Ha. eapply list_elem_of_lookup_2. exact Hl.
        -- apply lookup_lt_Some in Hl.
           rewrite length_app in Hl. simpl in Hl. lia.
    + rewrite lookup_insert_ne by exact Hne. rewrite (IH Hnd).
      split; intros [Hi Hl]; (split; [exact Hi |]).
      * apply lookup_app_l_Some. exact Hl.
      * apply lookup_app_Some in Hl as [Hl | [_ Hl]]; [exact Hl |].
        apply list_lookup_singleton_Some in Hl as [_ Hl]. congruence.
Qed.

Lemma sorted_set_elem_of (l : list string) (s : string) :
  s ∈ sorted_set l <-> s ∈ l.
Proof.
  unfold sorted_set. rewrite merge_sort_Permutation.
  rewrite elem_of_elements, elem_of_list_to_set. reflexivity.
Qed.

Lemma sorted_set_NoDup (l : list string) : NoDup (sorted_set l).
Proof.
  unfold sorted_set. rewrite merge_sort_Permutation. apply NoDup_elements.
Qed.

Lemma sorted_set_sorted (l : list string) :
  StronglySorted String.le (sorted_set l).
Proof. unfold sorted_set. apply StronglySorted_merge_sort; apply _. Qed.

(** [sorted] returns one list, in whatever order the set hands over its
    members. *)
Lemma sorted_iteration (l iteration : list string) :
  set_iteration l iteration ->
  merge_sort String.le iteration = sorted_set l.
Proof.
  intros [Hnd Hel]. unfold sorted_set.
  apply (StronglySorted_unique String.le).
  - apply StronglySorted_merge_sort; apply _.
  - apply StronglySorted_merge_sort; apply _.
  - rewrite !merge_sort_Permutation.
    apply NoDup_Permutation; [exact Hnd | apply NoDup_elements |].
    intros s. rewrite Hel, elem_of_elements, elem_of_list_to_set.
    reflexivity.
Qed.

Lemma for_each_Forall2 {A B : Type} (f : A -> result B) (l : list A)
    (bs : list B) :
  for_each f l = Ok bs <-> Forall2 (fun a b => f a = Ok b) l bs.
Proof.
  revert bs. induction l as [| a l IH]; intros bs; simpl.
  - split.
    + intros [= <-]. constructor.
    + intros H. inversion H. reflexivity.
  - split.
    + destruct (f a) as [b | ex] eqn:Hfa; simpl; [| discriminate].
      destruct (for_each f l) as [bs' | ex] eqn:Hl; simpl; [| discriminate].
      intros [= <-]. constructor; [exact Hfa |]. apply IH. reflexivity.
    + intros H. inversion H as [| a' b l' bs' Hfa Hrest]; subst.
      rewrite Hfa. simpl. apply IH in Hrest. rewrite Hrest. reflexivity.
Qed.

Lemma for_each_is_Ok {A B : Type} (f : A -> result B) (l : list A) :
  is_Ok (for_each f l) <-> forall a, a ∈ l -> is_Ok (f a).
Proof.
  induction l as [| a l IH]; simpl.
  - split; [| intros _; eexists; reflexivity].
    intros _ a Ha. apply elem_of_nil in Ha. contradiction.
  - split.
    + intros [bs Hbs].
      destruct (f a) as [b | ex] eqn:Hfa; simpl in Hbs; [| discriminate].
      destruct (for_each f l) as [bs' | ex] eqn:Hl; simpl in Hbs;
        [| discriminate].
      intros a' Ha'. apply elem_of_cons in Ha' as [-> | Ha'].
      * eexists. exact Hfa.
      * apply IH; [eexists; reflexivity | exact Ha'].
    + intros H. destruct (H a) as [b Hb]; [apply elem_of_cons; by left |].
      destruct IH as [_ IH]. destruct IH as [bs Hbs].
      { intros a' Ha'. apply H. apply elem_of_cons. by right. }
      rewrite Hb. simpl. rewrite Hbs. eexists. reflexivity.
Qed.

(** Looking a label up in the dictionary of a vocabulary. *)
Lemma dict_get_sorted_set (raw : list string) (s : string) (v : Z) :
  dict_get (index_dict (sorted_set raw)) s = Ok v <->
  0 <= v < len (sorted_set raw) /\ sorted_set raw !! Z.to_nat v = Some s.
Proof.
  assert (Hlk : index_dict (sorted_set raw) !! s = Some v <->
                0 <= v /\ sorted_set raw !! Z.to_nat v = Some s)
    by (apply index_dict_lookup, sorted_set_NoDup).
  unfold dict_get.
  destruct (index_dict (sorted_set raw) !! s) as [i |]; simpl.
  - split.
    + intros [= <-]. destruct Hlk as [Hlk _].
      destruct (Hlk eq_refl) as [Hi Hl]. split; [| exact Hl].
      apply lookup_lt_Some in Hl. unfold len. lia.
    + intros [[Hv _] Hl]. destruct Hlk as [_ Hlk].
      injection (Hlk (conj Hv Hl)) as ->. reflexivity.
  - split; [discriminate |].
    intros [[Hv _] Hl]. destruct Hlk as [_ Hlk].
    discriminate (Hlk (conj Hv Hl)).
Qed.

Lemma dict_get_is_Ok (raw : list string) (s : string) :
  is_Ok (dict_get (index_dict (sorted_set raw)) s) <-> s ∈ raw.
Proof.
  rewrite <- sorted_set_elem_of. split.
  - intros [v Hv]. apply dict_get_sorted_set in Hv as [_ Hl].
    eapply list_elem_of_lookup_2. exact Hl.
  - intros Hin. apply list_elem_of_lookup_1 in Hin as [i Hi].
    exists (Z.of_nat i). apply dict_get_sorted_set.
    rewrite Nat2Z.id. split; [| exact Hi].
    apply lookup_lt_Some in Hi. unfold len. lia.
Qed.

(** ** The constructor *)

(** Case analysis on the first fallible step of a computation that is
    known to have returned. *)
Ltac result_inv H :=
  repeat match type of H with
  | context [mbind _ ?m] =>
      let E := fresh "E" in
      destruct m eqn:E; unfold mbind at 1, result_bind at 1 in H;
      cbv beta iota in H; [| discriminate H]
  end.

Section EngineProps.
Context {R G : Type} `{!FloatOps R} `{!RandomGen G}.

(** What a successful construction has stored. *)
Lemma init_Ok (params : HParams.t) (validate_ : bool) (hdf5 : H5File R)
    (folds : list Z) (e : Engine R G) :
  init params validate_ hdf5 folds = Ok e ->
  labels (loaded e) = sorted_set (h5_label hdf5)
  /\ label_index_dict (loaded e) = index_dict (sorted_set (h5_label hdf5))
  /\ for_each (dict_get (index_dict (sorted_set (h5_label hdf5))))
       (h5_label hdf5) = Ok (y (loaded e))
  /\ x (loaded e) = h5_feature hdf5
  /\ input_frames_number (loaded e) = HParams.input_frames_number params
  /\ batch_size (loaded e) = HParams.batch_size params
  /\ train_rand_generator e = RandomState (HParams.seed params)
  /\ validation_rand_generator e = RandomState 0
  /\ train_chunks_len (loaded e) = len (train_chunks (loaded e))
  /\ (validate_ = true -> validation_audio_indices_len (loaded e) <> 0)
  /\ test_data e = None
  /\ exists train_begin_end_indices,
       take_indices (h5_begin_end_ind hdf5) (train_audio_indices e)
       = Ok train_begin_end_indices
       /\ let x_train :=
            mjoin ((fun be : Z * Z => slice (h5_feature hdf5) be.1 be.2)
                   <$> train_begin_end_indices) in
          mean (loaded e) = np_mean (h5_feature_channels hdf5) x_train
          /\ std (loaded e) = np_std (h5_feature_channels hdf5) x_train.
Proof.
  intros H. unfold init, init_from in H. result_inv H.
  injection H as <-.
  split_and!; try reflexivity; try eassumption.
  - intros ->. unfold truediv_check in *. simpl.
    case_decide; [discriminate | assumption].
  - eexists. split; [eassumption |].
    match goal with
    | E : np_concatenate ?a = Ok ?l |- _ =>
        assert (l = mjoin a) as ->
          by (unfold np_concatenate in E; destruct a;
              [discriminate E | injection E as <-; reflexivity])
    end.
    split; reflexivity.
Qed.

(** The statistics have as many entries as the feature table has
    channels. *)
Lemma init_channels (params : HParams.t) (validate_ : bool) (hdf5 : H5File R)
    (folds : list Z) (e : Engine R G) :
  init params validate_ hdf5 folds = Ok e ->
  x_channels (loaded e) = h5_feature_channels hdf5
  /\ length (mean (loaded e)) = x_channels (loaded e)
  /\ length (std (loaded e)) = x_channels (loaded e).
Proof.
  intros H. unfold init, init_from in H. result_inv H.
  injection H as <-. simpl.
  split; [reflexivity |]. split; [apply np_mean_length | apply np_std_length].
Qed.

(** Every training label is a key of the dictionary, so the label array
    is always built. *)
Lemma train_labels_indexed (raw : list string) :
  is_Ok (for_each (dict_get (index_dict (sorted_set raw))) raw).
Proof. apply for_each_is_Ok. intros s Hs. apply dict_get_is_Ok, Hs. Qed.

(** C10: the vocabulary is the sorted list of the distinct training labels,
    the dictionary sends the i-th label to [i], the entries of [y] are
    indices into the vocabulary, and [y_test] is built exactly when every
    test label is in the vocabulary, with entries in the same range. *)
Theorem label_vocabulary (params : HParams.t) (validate_ : bool)
    (hdf5 : H5File R) (folds : list Z) (e : Engine R G) :
  init params validate_ hdf5 folds = Ok e ->
  let voc := labels (loaded e) in
  let d := label_index_dict (loaded e) in
  StronglySorted String.le voc
  /\ NoDup voc
  /\ (forall s, s ∈ voc <-> s ∈ h5_label hdf5)
  /\ (forall s i, d !! s = Some i <-> 0 <= i /\ voc !! Z.to_nat i = Some s)
  /\ Forall2 (fun s v => 0 <= v < len voc /\ voc !! Z.to_nat v = Some s)
       (h5_label hdf5) (y (loaded e))
  /\ forall test : H5File R,
       (is_Ok (read_test_data e test) <->
        forall s, s ∈ h5_label test -> s ∈ voc)
       /\ forall e', read_test_data e test = Ok e' ->
            exists t, test_data e' = Some t
              /\ Forall2
                   (fun s v => 0 <= v < len voc /\ voc !! Z.to_nat v = Some s)
                   (h5_label test) (y_test t).
Proof.
  intros Hinit voc d.
  destruct (init_Ok _ _ _ _ _ Hinit) as (Hvoc & Hd & Hy & _).
  subst voc d. rewrite Hvoc, Hd.
  split; [apply sorted_set_sorted |].
  split; [apply sorted_set_NoDup |].
  split; [apply sorted_set_elem_of |].
  split; [intros s i; apply index_dict_lookup, sorted_set_NoDup |].
  split.
  { apply for_each_Forall2 in Hy.
    eapply Forall2_impl; [exact Hy |].
    intros s v Hv. apply dict_get_sorted_set, Hv. }
  intros test. unfold read_test_data. rewrite Hd. split.
  - split.
    + intros [e' He'] s Hs. result_inv He'.
      assert (Hok : is_Ok (for_each
                (dict_get (index_dict (sorted_set (h5_label hdf5))))
                (h5_label test))) by (eexists; exact E).
      rewrite for_each_is_Ok in Hok.
      apply sorted_set_elem_of, dict_get_is_Ok, Hok, Hs.
    + intros Hall.
      assert (Hok : is_Ok (for_each
                (dict_get (index_dict (sorted_set (h5_label hdf5))))
                (h5_label test))).
      { apply for_each_is_Ok. intros s Hs.
        apply dict_get_is_Ok, sorted_set_elem_of, Hall, Hs. }
      destruct Hok as [ys ->]. eexists. reflexivity.
  - intros e' He'. result_inv He'. injection He' as <-.
    eexists. split; [reflexivity |]. simpl.
    apply for_each_Forall2 in E.
    eapply Forall2_impl; [exact E |].
    intros s v Hv. apply dict_get_sorted_set, Hv.
Qed.

(** C8, as the code has it: when the split is requested and no recording is
    in the holdout fold, construction raises [ZeroDivisionError] (from the
    train/validation ratio) and no engine is returned. *)
Theorem init_empty_holdout (params : HParams.t) (hdf5 : H5File R)
    (folds : list Z) :
  (forall f, f ∈ folds -> f <> HParams.holdout_fold params) ->
  init params true hdf5 folds = Err ZeroDivisionError.
Proof.
  intros Hnone. unfold init, init_from.
  destruct (train_labels_indexed (h5_label hdf5)) as [ys ->].
  unfold mbind at 1, result_bind at 1. cbv beta iota.
  assert (Hval : filter (fun p : Z * Z => p.2 = HParams.holdout_fold params)
                   (enumerate folds) = []).
  { apply elem_of_nil_inv. intros [i f] Hin.
    apply list_elem_of_filter in Hin as [Heq Hin].
    apply elem_of_zip_r in Hin. exact (Hnone f Hin Heq). }
  rewrite Hval. reflexivity.
Qed.

End EngineProps.

Lemma label_vocabulary_witness :
  exists e : Engine Z Z,
    init Toy.params false Toy.train_h5 [] = Ok e
    /\ labels (loaded e) = ["cat"; "dog"]%string
    /\ Forall2
         (fun s v => 0 <= v < len (labels (loaded e))
                     /\ labels (loaded e) !! Z.to_nat v = Some s)
         (h5_label Toy.train_h5) (y (loaded e)).
Proof.
  destruct (init (R := Z) (G := Z) Toy.params false Toy.train_h5 [])
    as [e | ex] eqn:Hinit; [| vm_compute in Hinit; discriminate].
  exists e. split; [reflexivity |]. split.
  - vm_compute in Hinit. injection Hinit as <-. reflexivity.
  - apply (label_vocabulary Toy.params false Toy.train_h5 [] e Hinit).
Defined.

Lemma init_empty_holdout_witness :
  init (R := Z) (G := Z) Toy.params true Toy.train_h5 [0; 0; 0]
  = Err ZeroDivisionError.
Proof.
  apply (init_empty_holdout Toy.params Toy.train_h5 [0; 0; 0]).
  intros f Hf. apply list_elem_of_In in Hf.
  destruct Hf as [<- | [<- | [<- | []]]]; discriminate.
Defined.

(** C8 as stated fails: the exception raised is not a configuration
    error class. *)
Lemma init_empty_holdout_not_ConfigurationError :
  init (R := Z) (G := Z) Toy.params true Toy.train_h5 [0; 0; 0]
  <> Err (UserError "ConfigurationError").
Proof. vm_compute. discriminate. Qed.

(** ** Finite generators *)

Lemma yield_each_lookup {A Y : Type} (body : A -> result Y) (l : list A)
    (k : nat) (v : Y) :
  (yield_each body l).1 !! k = Some v ->
  exists a, l !! k = Some a /\ body a = Ok v.
Proof.
  revert k. induction l as [| a l IH]; intros k; simpl.
  - rewrite lookup_nil. discriminate.
  - destruct (body a) as [v' | ex] eqn:Hb; simpl.
    + destruct k as [| k]; simpl.
      * intros [= <-]. exists a. split; [reflexivity | exact Hb].
      * apply IH.
    + rewrite lookup_nil. discriminate.
Qed.

Lemma yield_each_complete {A Y : Type} (body : A -> result Y) (l : list A) :
  (yield_each body l).2 = None ->
  length (yield_each body l).1 = length l.
Proof.
  induction l as [| a l IH]; simpl; [reflexivity |].
  destruct (body a) as [v | ex]; simpl; [| discriminate].
  intros H. f_equal. apply IH, H.
Qed.

Lemma yield_each_all_Ok {A Y : Type} (body : A -> result Y) (l : list A) :
  (forall a, a ∈ l -> is_Ok (body a)) -> (yield_each body l).2 = None.
Proof.
  induction l as [| a l IH]; intros Hall; simpl; [reflexivity |].
  destruct (Hall a) as [v ->]; [apply elem_of_cons; by left |]. simpl.
  apply IH. intros a' Ha'. apply Hall. apply elem_of_cons. by right.
Qed.

Lemma enumerate_lookup {A : Type} (l : list A) (k : nat) (p : Z * A) :
  enumerate l !! k = Some p -> p.1 = Z.of_nat k /\ l !! k = Some p.2.
Proof.
  unfold enumerate. intros H.
  apply lookup_zip_with_Some in H as (i & a & -> & Hi & Ha).
  apply lookup_seqZ in Hi as [-> _]. simpl. split; [lia | exact Ha].
Qed.

Lemma index_of_nat {A : Type} (l : list A) (k : nat) (a : A) :
  index l (Z.of_nat k) = Ok a -> l !! k = Some a.
Proof.
  unfold index. case_decide; [| discriminate].
  case_decide; [lia |]. rewrite Nat2Z.id.
  destruct (l !! k); simpl; [congruence | discriminate].
Qed.

Lemma elem_of_slice {A : Type} (l : list A) (b e : Z) (a : A) :
  a ∈ slice l b e -> a ∈ l.
Proof.
  unfold slice. intros H.
  apply elem_of_take in H as (i & Hi & _).
  rewrite lookup_drop in Hi. eapply list_elem_of_lookup_2. exact Hi.
Qed.

(** Every frame of a materialized row is a frame of the table. *)
Lemma chunk_rows_frames {F : Type} (L : Z) (x_data : list F) (b e : Z)
    (row : list F) (fr : F) :
  chunk_rows L x_data b e = Ok row -> fr ∈ row -> fr ∈ x_data.
Proof.
  unfold chunk_rows, floordiv, tile. case_decide.
  - intros [= <-]. apply elem_of_slice.
  - case_decide; simpl; [discriminate |].
    case_decide; simpl; [discriminate |].
    intros [= <-] Hin. apply elem_of_slice in Hin.
    apply list_elem_of_join in Hin as (x' & Hin & Hrep).
    apply elem_of_replicate_inv in Hrep. subst x'.
    eapply elem_of_slice. exact Hin.
Qed.

Lemma xy_loop_frames {Lbl F : Type} (L : Z) (x_data : list F)
    (indices : list (Chunk Lbl)) xy (row : list F) (fr : F) :
  xy_loop L x_data indices = Ok xy ->
  row ∈ xy.1 -> fr ∈ row -> fr ∈ x_data.
Proof.
  revert xy. induction indices as [| [[b e] lab] rest IH]; intros xy; simpl.
  - intros [= <-]. simpl. intros H. apply elem_of_nil in H. contradiction.
  - intros H. result_inv H. injection H as <-. simpl.
    intros Hrow Hfr. apply elem_of_cons in Hrow as [-> | Hrow].
    + eapply chunk_rows_frames; eassumption.
    + eapply IH; [reflexivity | exact Hrow | exact Hfr].
Qed.

Lemma generate_xy_batches_frames {Lbl F : Type} (L : Z) (x_data : list F)
    (indices : list (Chunk Lbl)) xy (row : list F) (fr : F) :
  generate_xy_batches L x_data indices = Ok xy ->
  row ∈ xy.1 -> fr ∈ row -> fr ∈ x_data.
Proof.
  intros H. apply generate_xy_batches_loop in H as [H _].
  eapply xy_loop_frames. exact H.
Qed.

Lemma xy_loop_labels {Lbl F : Type} (L : Z) (x_data : list F)
    (indices : list (Chunk Lbl)) xy :
  xy_loop L x_data indices = Ok xy ->
  xy.2 = indices.*2 /\ length xy.1 = length indices.
Proof.
  revert xy. induction indices as [| [[b e] lab] rest IH]; intros xy; simpl.
  - intros [= <-]. split; reflexivity.
  - intros H. result_inv H. injection H as <-. simpl.
    destruct (IH _ eq_refl) as [-> ->]. split; reflexivity.
Qed.

Lemma generate_xy_batches_labels {Lbl F : Type} (L : Z) (x_data : list F)
    (indices : list (Chunk Lbl)) xy :
  generate_xy_batches L x_data indices = Ok xy ->
  xy.2 = indices.*2 /\ length xy.1 = length indices.
Proof.
  intros H. apply generate_xy_batches_loop in H as [H _].
  eapply xy_loop_labels. exact H.
Qed.

Lemma generate_xy_batches_shape {Lbl F : Type} (L : Z) (x_data : list F)
    (indices : list (Chunk Lbl)) xy :
  0 <= L ->
  (forall b e lab, (b, e, lab) ∈ indices ->
     0 <= b /\ 1 <= e - b /\ e <= len x_data) ->
  generate_xy_batches L x_data indices = Ok xy ->
  length xy.1 = length indices /\ Forall (fun row => len row = L) xy.1.
Proof.
  intros HL Hin Hxy.
  destruct (generate_xy_batches_inside L x_data indices HL Hin)
    as (xb & Hxb & Hall).
  rewrite Hxy in Hxb. injection Hxb as ->. simpl.
  split; [exact (Forall2_length _ _ _ Hall) |].
  clear Hxy Hin. induction Hall as [| row c xb' cs Hrow _ IH];
    constructor; [apply Hrow | exact IH].
Qed.

Section Generators.
Context {R G : Type} `{!FloatOps R} `{!RandomGen G}.

(** On vectors of one length the broadcast operation is element-wise. *)
Lemma broadcast_op_same (f : R -> R -> R) (u v : list R) :
  length u = length v -> broadcast_op f u v = zip_with f u v.
Proof.
  intros Hlen.
  destruct u as [| a [| a' u]], v as [| b [| b' v]];
    try reflexivity; discriminate.
Qed.

Lemma broadcast_axis_same (a : nat) : broadcast_axis a a = Ok a.
Proof. unfold broadcast_axis. case_decide; [reflexivity | congruence]. Qed.

(** A frame with as many channels as the statistics: channel [j] becomes
    [(v - mean[j]) / std[j]]. *)
Lemma normalize_frame_same (mean_ std_ frame : list R) :
  length frame = length mean_ -> length std_ = length mean_ ->
  normalize_frame mean_ std_ frame
  = zip_with fdiv (zip_with fsub frame mean_) std_.
Proof.
  intros Hf Hs. unfold normalize_frame.
  rewrite (broadcast_op_same fsub) by exact Hf.
  apply broadcast_op_same. rewrite length_zip_with. lia.
Qed.

(** A frame whose channels all hold [c]. *)
Lemma normalize_frame_constant (mean_ std_ : list R) (c : R) :
  length std_ = length mean_ ->
  normalize_frame mean_ std_ (replicate (length mean_) c)
  = zip_with (fun m s => fdiv (fsub c m) s) mean_ std_.
Proof.
  intros Hs. rewrite normalize_frame_same
    by (rewrite ?length_replicate; congruence).
  clear Hs. revert std_. induction mean_ as [| m ms IH]; intros std_;
    [reflexivity |].
  destruct std_ as [| s0 ss]; [reflexivity |].
  simpl. f_equal. apply IH.
Qed.

(** A normalized batch is the batch it was made from, frame by frame. *)
Lemma normalize_inv (C : nat) (mean_ std_ : list R)
    (x_batch r : list (list (list R))) :
  normalize C mean_ std_ x_batch = Ok r ->
  r = (fun chunk : list (list R) => normalize_frame mean_ std_ <$> chunk)
      <$> x_batch.
Proof.
  unfold normalize. cbv zeta. intros H. result_inv H.
  injection H as <-. reflexivity.
Qed.

(** Statistics with as many entries as a non-empty batch has channels
    are always applied. *)
Lemma normalize_agree (C : nat) (mean_ std_ : list R)
    (x_batch : list (list (list R))) :
  x_batch <> [] -> length mean_ = C -> length std_ = C ->
  normalize C mean_ std_ x_batch
  = Ok ((fun chunk : list (list R) => normalize_frame mean_ std_ <$> chunk)
        <$> x_batch).
Proof.
  intros Hne Hm Hs. unfold normalize, broadcast_axes.
  destruct x_batch; [done |].
  cbv zeta. rewrite Hm, broadcast_axis_same. simpl.
  rewrite Hs, broadcast_axis_same. reflexivity.
Qed.

(** Normalization succeeds exactly when the statistics broadcast against
    the last axis of the batch. *)
Lemma normalize_broadcasts (C : nat) (mean_ std_ : list R)
    (x_batch : list (list (list R))) :
  broadcasts (match x_batch with [] => 0%nat | _ :: _ => C end) mean_ std_ ->
  normalize C mean_ std_ x_batch
  = Ok ((fun chunk : list (list R) => normalize_frame mean_ std_ <$> chunk)
        <$> x_batch).
Proof. intros [c Hc]. unfold normalize. cbv zeta. rewrite Hc. reflexivity. Qed.

(** Statistics that do not broadcast make the normalization raise
    ValueError. *)
Lemma not_broadcasts (a : nat) (mean_ std_ : list R) :
  ~ broadcasts a mean_ std_ -> broadcast_axes a mean_ std_ = Err ValueError.
Proof.
  intros Hn. destruct (broadcast_axes a mean_ std_) as [c | ex] eqn:Hb.
  - exfalso. apply Hn. exists c. exact Hb.
  - unfold broadcast_axes, broadcast_axis in Hb.
    repeat (case_decide; simpl in Hb); congruence.
Qed.

Lemma normalize_not_broadcasts (C : nat) (mean_ std_ : list R)
    (x_batch : list (list (list R))) :
  ~ broadcasts (match x_batch with [] => 0%nat | _ :: _ => C end)
      mean_ std_ ->
  normalize C mean_ std_ x_batch = Err ValueError.
Proof.
  intros Hn. unfold normalize. cbv zeta.
  rewrite (not_broadcasts _ _ _ Hn). reflexivity.
Qed.

Lemma broadcasts_same (C : nat) (mean_ std_ : list R) :
  length mean_ = C -> length std_ = C -> broadcasts C mean_ std_.
Proof.
  intros Hm Hs. unfold broadcasts, broadcast_axes.
  rewrite Hm, broadcast_axis_same. simpl.
  rewrite Hs, broadcast_axis_same. eexists. reflexivity.
Qed.

(** A normalized batch has the chunks and frames of the batch it was made
    from. *)
Lemma normalize_shape (C : nat) (mean_ std_ : list R)
    (x_batch r : list (list (list R))) (L : Z) :
  normalize C mean_ std_ x_batch = Ok r ->
  Forall (fun row => len row = L) x_batch ->
  length r = length x_batch /\ Forall (fun row => len row = L) r.
Proof.
  intros Hr Hall. apply normalize_inv in Hr. subst r.
  split; [apply length_fmap |].
  apply Forall_fmap. eapply Forall_impl; [exact Hall |].
  intros row Hrow. simpl. unfold len in *. rewrite length_fmap. exact Hrow.
Qed.

(** Channel counts that do not broadcast raise ValueError. *)
Lemma normalize_mismatch (C : nat) (mean_ std_ : list R)
    (x_batch : list (list (list R))) :
  x_batch <> [] -> C <> length mean_ -> C <> 1%nat ->
  length mean_ <> 1%nat ->
  normalize C mean_ std_ x_batch = Err ValueError.
Proof.
  intros Hne H1 H2 H3. unfold normalize, broadcast_axes.
  destruct x_batch; [done |].
  cbv zeta. unfold broadcast_axis at 2. repeat (case_decide; [done |]).
  reflexivity.
Qed.

(** With [L >= 2], a non-empty range inside a table of [n] frames is
    always segmented, into at least one descriptor, and every descriptor is
    again a non-empty range inside the table, of at most [L] frames. *)
Lemma generate_chunks_inside {Lbl : Type} (L b e n : Z) (lab : Lbl) :
  2 <= L -> 0 <= b -> 1 <= e - b -> e <= n ->
  exists chunks,
    generate_chunks L b e lab = Ok chunks
    /\ chunks <> []
    /\ forall b' e' lab', (b', e', lab') ∈ chunks ->
         0 <= b' /\ 1 <= e' - b' /\ e' <= n /\ e' - b' <= L.
Proof.
  intros HL Hb Hbe He.
  destruct (decide (e - b <= L)) as [Hshort | Hlong].
  - exists [(b, e, lab)].
    split; [apply generate_chunks_le; lia |]. split; [discriminate |].
    intros b' e' lab' Hin. apply list_elem_of_singleton in Hin.
    injection Hin as -> -> ->. lia.
  - destruct (generate_chunks_gt L b e lab HL ltac:(lia))
      as (Hgc & Hn & Hk).
    eexists. split; [exact Hgc |]. split.
    + rewrite seqZ_cons by lia. discriminate.
    + intros b' e' lab' Hin.
      apply list_elem_of_fmap in Hin as (k & Heq & Hin).
      injection Heq as -> -> ->.
      apply elem_of_seqZ in Hin. destruct Hin as [Hk0 Hkn].
      assert (Hlt : b + k * (L / 2) < e - L) by (apply Hk; lia).
      assert (0 <= L / 2) by (apply Z.div_pos; lia).
      nia.
Qed.

Lemma index_nat_Ok {A : Type} (l : list A) (k : nat) (a : A) :
  l !! k = Some a -> index l (Z.of_nat k) = Ok a.
Proof.
  intros H. pose proof (lookup_lt_Some _ _ _ H) as Hlt.
  unfold index, len. case_decide; [| lia]. case_decide; [lia |].
  rewrite Nat2Z.id, H. reflexivity.
Qed.

(** The parts of a value the test generator has yielded. *)
Lemma test_item_Ok (e : Engine R G) (t : TestData R) (k : nat)
    (filename : string) v :
  test_item e t (Z.of_nat k, filename) = Ok v ->
  exists be chunk_indices xy,
    begin_end_indices_test t !! k = Some be
    /\ y_test t !! k = Some v.2
    /\ v.1.2 = filename
    /\ generate_chunks (input_frames_number (loaded e)) be.1 be.2 tt
       = Ok chunk_indices
    /\ generate_xy_batches (input_frames_number (loaded e)) (x_test t)
         chunk_indices = Ok xy
    /\ normalize (x_test_channels t) (mean (loaded e)) (std (loaded e)) xy.1
       = Ok v.1.1.
Proof.
  unfold test_item. simpl. intros H. result_inv H. injection H as <-.
  simpl. eexists _, _, _.
  split; [eapply index_of_nat; eassumption |].
  split; [eapply index_of_nat; eassumption |].
  split_and!; try reflexivity; eassumption.
Qed.

(** Sufficient conditions for one recording to be yielded. *)
Lemma test_item_is_Ok (e : Engine R G) (t : TestData R) (k : nat)
    (filename : string) :
  2 <= input_frames_number (loaded e) ->
  (exists b e', begin_end_indices_test t !! k = Some (b, e')
     /\ 0 <= b /\ 1 <= e' - b /\ e' <= len (x_test t)) ->
  is_Some (y_test t !! k) ->
  length (mean (loaded e)) = x_test_channels t ->
  length (std (loaded e)) = x_test_channels t ->
  is_Ok (test_item e t (Z.of_nat k, filename)).
Proof.
  intros HL (b & e' & Hbe & Hb & Hlen & He) [lab Hlab] Hm Hs.
  unfold test_item. simpl.
  rewrite (index_nat_Ok _ _ _ Hbe). simpl.
  destruct (generate_chunks_inside (input_frames_number (loaded e)) b e'
              (len (x_test t)) tt HL Hb Hlen He) as (chunks & -> & Hne & Hin).
  simpl.
  destruct (generate_xy_batches_inside (input_frames_number (loaded e))
              (x_test t) chunks ltac:(lia)) as (xb & Hxb & _).
  { intros b' e'' lab' H'. destruct (Hin _ _ _ H'). lia. }
  rewrite Hxb. simpl.
  rewrite normalize_agree; [| | exact Hm | exact Hs].
  - simpl. rewrite (index_nat_Ok _ _ _ Hlab). simpl. eexists. reflexivity.
  - apply generate_xy_batches_labels in Hxb as [_ Hl]. simpl in Hl.
    intros ->. destruct chunks; [done | discriminate].
Qed.

(** C6: after construction and [read_test_data], the k-th value of the
    test generator is built from the k-th test recording (its file name, its
    label, the chunks of its whole range) and is normalized with the mean
    and std computed at construction from the frames of the training
    recordings.  When no exception ends the generator every recording has
    been yielded.  On well-formed test data ([L >= 2], one offset pair and
    one label per file name, every pair a non-empty range of the table) no
    exception does when the test table has as many channels as the training
    table, and the first recording raises ValueError when the two numbers
    of channels do not broadcast.  On a well-formed test table with the
    channels of the training table, all of whose values equal [c], every
    yielded batch consists of at least one chunk of [L] frames, and every
    frame holds, channel by channel, [(c - mean) / std] for the training
    statistics. *)
Theorem test_generator_training_statistics (params : HParams.t)
    (validate_ : bool) (hdf5 : H5File R) (folds : list Z)
    (e0 e : Engine R G) (test : H5File R) :
  init params validate_ hdf5 folds = Ok e0 ->
  read_test_data e0 test = Ok e ->
  exists train_begin_end_indices,
    take_indices (h5_begin_end_ind hdf5) (train_audio_indices e)
    = Ok train_begin_end_indices
    /\ let x_train :=
         mjoin ((fun be : Z * Z => slice (h5_feature hdf5) be.1 be.2)
                <$> train_begin_end_indices) in
       let C := h5_feature_channels hdf5 in
       let mean_ := np_mean C x_train in
       let std_ := np_std C x_train in
       let L := HParams.input_frames_number params in
       let Ct := h5_feature_channels test in
       let well_formed :=
         2 <= L
         /\ length (h5_begin_end_ind test) = length (h5_filename test)
         /\ length (h5_label test) = length (h5_filename test)
         /\ forall b e', (b, e') ∈ h5_begin_end_ind test ->
              0 <= b /\ 1 <= e' - b /\ e' <= len (h5_feature test) in
       let tr := test_generator e in
       (forall k v, tr.1 !! k = Some v ->
          exists be chunk_indices xy lab,
            h5_filename test !! k = Some v.1.2
            /\ h5_begin_end_ind test !! k = Some be
            /\ h5_label test !! k = Some lab
            /\ label_index_dict (loaded e) !! lab = Some v.2
            /\ generate_chunks L be.1 be.2 tt = Ok chunk_indices
            /\ generate_xy_batches L (h5_feature test) chunk_indices = Ok xy
            /\ normalize Ct mean_ std_ xy.1 = Ok v.1.1)
       /\ (tr.2 = None -> length tr.1 = length (h5_filename test))
       /\ (well_formed -> Ct = C -> tr.2 = None)
       /\ (well_formed -> h5_filename test <> [] ->
           Ct <> C -> Ct <> 1%nat -> C <> 1%nat ->
           tr = ([], Some ValueError))
       /\ (forall c,
             well_formed -> Ct = C ->
             (forall fr, fr ∈ h5_feature test -> fr = replicate C c) ->
             forall k v, tr.1 !! k = Some v ->
               exists n,
                 (1 <= n)%nat
                 /\ v.1.1
                    = replicate n
                        (replicate (Z.to_nat L)
                           (zip_with (fun m s => fdiv (fsub c m) s)
                              mean_ std_))).
Proof.
  intros Hinit Hread.
  destruct (init_Ok _ _ _ _ _ Hinit)
    as (_ & _ & _ & _ & HL & _ & _ & _ & _ & _ & _ & tbe & Htbe & Hmean & Hstd).
  destruct (init_channels _ _ _ _ _ Hinit) as (HC & Hml & Hsl).
  rewrite HC in Hml, Hsl.
  unfold read_test_data in Hread. result_inv Hread.
  injection Hread as <-.
  rename E into Hy. apply for_each_Forall2 in Hy.
  exists tbe. split; [exact Htbe |]. cbv zeta.
  unfold test_generator. simpl.
  change (loaded (set_test_data _ e0)) with (loaded e0).
  rewrite <- Hmean, <- Hstd, <- HL.
  set (t := {| filenames_test := h5_filename test;
               x_test := h5_feature test;
               x_test_channels := h5_feature_channels test;
               y_test := a;
               begin_end_indices_test := h5_begin_end_ind test |}).
  set (e := set_test_data (Some t) e0).
  assert (Hitem : forall k v,
    (yield_each (test_item e t) (enumerate (h5_filename test))).1 !! k
    = Some v ->
    exists be chunk_indices xy lab,
      h5_filename test !! k = Some v.1.2
      /\ h5_begin_end_ind test !! k = Some be
      /\ h5_label test !! k = Some lab
      /\ label_index_dict (loaded e0) !! lab = Some v.2
      /\ generate_chunks (input_frames_number (loaded e0)) be.1 be.2 tt
         = Ok chunk_indices
      /\ generate_xy_batches (input_frames_number (loaded e0))
           (h5_feature test) chunk_indices = Ok xy
      /\ normalize (h5_feature_channels test) (mean (loaded e0))
           (std (loaded e0)) xy.1 = Ok v.1.1).
  { intros k v Hk.
    apply yield_each_lookup in Hk as ([i fn] & Hen & Hit).
    apply enumerate_lookup in Hen as [Hi Hfn]. simpl in Hi, Hfn. subst i.
    apply test_item_Ok in Hit
      as (be & chunks & xy & Hbe & Hlab & Hname & Hgc & Hxy & Hv).
    simpl in Hbe, Hlab, Hxy, Hv.
    destruct (Forall2_lookup_r _ _ _ _ _ Hy Hlab) as (lab & Hl & Hd).
    exists be, chunks, xy, lab. rewrite Hname.
    split_and!; try assumption.
    unfold dict_get in Hd.
    destruct (label_index_dict (loaded e0) !! lab); simpl in Hd;
      [congruence | discriminate]. }
  assert (Hbatch : forall b e',
    2 <= input_frames_number (loaded e0) ->
    0 <= b /\ 1 <= e' - b /\ e' <= len (h5_feature test) ->
    exists chunks xb,
      generate_chunks (input_frames_number (loaded e0)) b e' tt = Ok chunks
      /\ generate_xy_batches (input_frames_number (loaded e0))
           (h5_feature test) chunks = Ok (xb, chunks.*2)
      /\ (1 <= length xb)%nat
      /\ Forall (fun row => len row = input_frames_number (loaded e0)) xb).
  { intros b e' HL2 (Hb & Hlen & He).
    destruct (generate_chunks_inside (input_frames_number (loaded e0)) b e'
                (len (h5_feature test)) tt HL2 Hb Hlen He)
      as (chunks & Hgc & Hne & Hin).
    destruct (generate_xy_batches_inside (input_frames_number (loaded e0))
                (h5_feature test) chunks ltac:(lia)) as (xb & Hxb & Hrows).
    { intros b' e'' lab' H'. destruct (Hin _ _ _ H'). lia. }
    exists chunks, xb. split_and!; try assumption.
    - rewrite (Forall2_length _ _ _ Hrows).
      destruct chunks; [done | simpl; lia].
    - apply Forall_forall. intros row Hrow.
      apply list_elem_of_lookup in Hrow as [i Hi].
      destruct (Forall2_lookup_l _ _ _ _ _ Hrows Hi) as (c & _ & Hr & _).
      exact Hr. }
  split_and!.
  - exact Hitem.
  - intros Hnone. rewrite (yield_each_complete _ _ Hnone).
    unfold enumerate, len. rewrite length_zip_with, length_seqZ. lia.
  - intros (HL2 & Hlbe & Hllab & Hin) HCt. apply yield_each_all_Ok.
    intros [i fn] Hen.
    apply list_elem_of_lookup_1 in Hen as [k Hen].
    apply enumerate_lookup in Hen as [Hi Hfn]. simpl in Hi, Hfn. subst i.
    pose proof (lookup_lt_Some _ _ _ Hfn) as Hlt.
    apply test_item_is_Ok; [exact HL2 | | | |].
    + destruct (lookup_lt_is_Some_2 (h5_begin_end_ind test) k)
        as [[b e'] Hbe]; [lia |].
      exists b, e'. split; [exact Hbe |].
      apply Hin. eapply list_elem_of_lookup_2. exact Hbe.
    + simpl. apply lookup_lt_is_Some_2.
      rewrite <- (Forall2_length _ _ _ Hy). lia.
    + simpl. congruence.
    + simpl. congruence.
  - intros (HL2 & Hlbe & Hllab & Hin) Hne HCt H1 H2.
    destruct (h5_filename test) as [| fn rest] eqn:Hfns; [done |].
    destruct (h5_begin_end_ind test) as [| [b e'] bes] eqn:Hbes;
      [discriminate |].
    destruct (Hbatch b e' HL2) as (chunks & xb & Hgc & Hxb & Hlen & _).
    { apply Hin. apply elem_of_cons. by left. }
    assert (Herr : test_item e t (0, fn) = Err ValueError).
    { subst e t. unfold test_item. simpl.
      rewrite Hgc. simpl. rewrite Hxb. simpl.
      rewrite normalize_mismatch; [reflexivity | | | exact H1 |].
      - intros ->. simpl in Hlen. lia.
      - rewrite Hml. exact HCt.
      - rewrite Hml. exact H2. }
    unfold enumerate, len. simpl length.
    rewrite seqZ_cons by lia. simpl. rewrite Herr. reflexivity.
  - intros c (HL2 & Hlbe & Hllab & Hin) HCt Hconst k v Hk.
    destruct (Hitem k v Hk)
      as ([b e'] & chunks & xy & lab & _ & Hbe & _ & _ & Hgc & Hxy & Hv).
    simpl in Hgc.
    destruct (Hbatch b e' HL2) as (chunks' & xb & Hgc' & Hxb & Hlen & Hrows).
    { apply Hin. eapply list_elem_of_lookup_2. exact Hbe. }
    rewrite Hgc in Hgc'. injection Hgc' as <-.
    rewrite Hxy in Hxb. injection Hxb as ->. simpl in Hv.
    apply normalize_inv in Hv. rewrite Hv.
    assert (Hfr : forall row fr, row ∈ xb -> fr ∈ row ->
              fr = replicate (h5_feature_channels hdf5) c).
    { intros row fr Hrow Hfr. apply Hconst.
      eapply generate_xy_batches_frames;
        [exact Hxy | exact Hrow | exact Hfr]. }
    exists (length xb). split; [exact Hlen |].
    assert (Hall : xb = replicate (length xb)
              (replicate (Z.to_nat (input_frames_number (loaded e0)))
                 (replicate (h5_feature_channels hdf5) c))).
    { symmetry. apply replicate_as_Forall. split; [reflexivity |].
      apply Forall_forall. intros row Hrow.
      apply replicate_as_Forall. split.
      - rewrite Forall_forall in Hrows. specialize (Hrows row Hrow).
        unfold len in Hrows. lia.
      - apply Forall_forall. intros fr Hfr'. symmetry.
        eapply Hfr; eassumption. }
    rewrite Hall at 1. rewrite fmap_replicate, fmap_replicate.
    do 2 f_equal. rewrite <- Hml at 1. apply normalize_frame_constant. congruence.
Qed.

End Generators.

Lemma test_generator_training_statistics_witness :
  exists e0 e : Engine Z Z,
    init Toy.params false Toy.train_h5 [] = Ok e0
    /\ read_test_data e0 Toy.test_h5 = Ok e
    /\ (test_generator e).2 = None
    /\ forall k v, (test_generator e).1 !! k = Some v ->
         exists n, (1 <= n)%nat /\ v.1.1 = replicate n (replicate 4 [0]).
Proof.
  destruct (init (R := Z) (G := Z) Toy.params false Toy.train_h5 [])
    as [e0 | ex] eqn:Hinit; [| vm_compute in Hinit; discriminate].
  destruct (read_test_data e0 Toy.test_h5) as [e | ex] eqn:Hread.
  - exists e0, e. split; [reflexivity |]. split; [exact Hread |].
    destruct (test_generator_training_statistics Toy.params false
                Toy.train_h5 [] e0 e Toy.test_h5 Hinit Hread)
      as (tbe & Htbe & _ & _ & Hnone & _ & Hconst).
    assert (Hwf : 2 <= HParams.input_frames_number Toy.params
              /\ length (h5_begin_end_ind Toy.test_h5)
                 = length (h5_filename Toy.test_h5)
              /\ length (h5_label Toy.test_h5)
                 = length (h5_filename Toy.test_h5)
              /\ forall b e', (b, e') ∈ h5_begin_end_ind Toy.test_h5 ->
                   0 <= b /\ 1 <= e' - b
                   /\ e' <= len (h5_feature Toy.test_h5)).
    { split; [simpl; lia |]. split; [reflexivity |]. split; [reflexivity |].
      intros b e' Hin. apply list_elem_of_In in Hin.
      destruct Hin as [Hin | [Hin | []]]; injection Hin as <- <-;
        vm_compute; repeat split; discriminate. }
    split; [apply Hnone; [exact Hwf | reflexivity] |].
    intros k v Hk.
    destruct (Hconst 5 Hwf eq_refl) with (k := k) (v := v)
      as (n & Hn & Hv); [| exact Hk |].
    + intros fr Hfr. apply list_elem_of_In in Hfr. vm_compute in Hfr.
      repeat (destruct Hfr as [<- | Hfr]; [reflexivity |]). destruct Hfr.
    + exists n. split; [exact Hn |]. rewrite Hv.
      vm_compute in Hinit. injection Hinit as <-.
      vm_compute in Hread. injection Hread as <-.
      vm_compute in Htbe. injection Htbe as <-.
      vm_compute. reflexivity.
  - exfalso. vm_compute in Hinit. injection Hinit as <-.
    vm_compute in Hread. discriminate.
Defined.

(** ** Validation generator and the stored index arrays *)

Section Validation.
Context {R G : Type} `{!FloatOps R} `{!RandomGen G}.

(** No call of the validation generator rebinds the attributes set by the
    constructor: the feature table, the offsets, the labels and the
    normalization statistics stay as they were. *)
Lemma validation_generator_loaded (e : Engine R G) (mode : string)
    (manually_verified_only shuffle_ : bool) :
  loaded (validation_generator e mode manually_verified_only shuffle_).1
  = loaded e.
Proof.
  unfold validation_generator.
  destruct manually_verified_only; simpl.
  - destruct (verified_only e _) as [a | ex]; simpl; [| reflexivity].
    destruct shuffle_; reflexivity.
  - destruct shuffle_; [| reflexivity].
    case_decide; reflexivity.
Qed.

(** The index arrays are left alone when nothing is shuffled, and when the
    shuffle is applied to the new array of the verified-only branch. *)
Lemma validation_generator_indices_kept (e : Engine R G) (mode : string)
    (manually_verified_only shuffle_ : bool) :
  manually_verified_only = true \/ shuffle_ = false ->
  let e' := (validation_generator e mode manually_verified_only shuffle_).1 in
  train_audio_indices e' = train_audio_indices e
  /\ validation_audio_indices e' = validation_audio_indices e.
Proof.
  unfold validation_generator. intros [-> | ->]; simpl.
  - destruct (verified_only e _) as [a | ex]; simpl; [| by split].
    destruct shuffle_; by split.
  - destruct manually_verified_only; simpl.
    + destruct (verified_only e _) as [a | ex]; by split.
    + by split.
Qed.

(** C4 fails on the code: with [manually_verified_only = False] and
    [shuffle = True] the array stored in the engine for the chosen mode is
    itself shuffled; after the call it holds the permutation drawn from the
    evaluation generator. *)
Theorem validation_generator_shuffles_stored_indices (e : Engine R G)
    (mode : string) :
  let e' := (validation_generator e mode false true).1 in
  if decide (mode = "train"%string)
  then train_audio_indices e'
       = (shuffle (validation_rand_generator e) (train_audio_indices e)).1
  else validation_audio_indices e'
       = with_items (validation_audio_indices e)
           (shuffle (validation_rand_generator e)
              (index_list (validation_audio_indices e))).1.
Proof.
  unfold validation_generator. simpl. case_decide; reflexivity.
Qed.

End Validation.

(** The failing input of C4 on the small instance: the training index
    array [0, 1, 2] is left as [2, 1, 0] by one pass of the generator. *)
Example validation_generator_mutates_train_indices :
  exists e : Engine Z Z,
    init Toy.params false Toy.train_h5 [] = Ok e
    /\ train_audio_indices e = [0; 1; 2]
    /\ train_audio_indices (validation_generator e "train" false true).1
       = [2; 1; 0].
Proof.
  destruct (init (R := Z) (G := Z) Toy.params false Toy.train_h5 [])
    as [e | ex] eqn:Hinit; vm_compute in Hinit; [| discriminate].
  injection Hinit as <-. eexists. split; [reflexivity |].
  split; reflexivity.
Qed.

(** ** Training generator *)

Section Training.
Context {R G : Type} `{!FloatOps R} `{!RandomGen G}.

(** One turn of the loop depends on the engine through [train_view]
    only. *)
Lemma train_generator_next_view (e1 e2 : Engine R G) (st : TrainLocals) :
  train_view e1 = train_view e2 ->
  match train_generator_next e1 st, train_generator_next e2 st with
  | Ok (e1', st1, v1), Ok (e2', st2, v2) =>
      train_view e1' = train_view e2' /\ st1 = st2 /\ v1 = v2
  | Err ex1, Err ex2 => ex1 = ex2
  | _, _ => False
  end.
Proof.
  destruct e1 as [ld1 tg1 vg1 ti1 vi1 el1 ep1 td1].
  destruct e2 as [ld2 tg2 vg2 ti2 vi2 el2 ep2 td2].
  destruct ld1, ld2. unfold train_view. simpl. intros Hv.
  injection Hv as -> -> -> -> -> -> -> -> ->.
  unfold train_generator_next, train_select. simpl.
  case_decide; simpl.
  - destruct (generate_xy_batches _ _ _) as [xy | ex]; simpl; auto.
    destruct (normalize _ _ _ _) as [xb | ex]; simpl; auto.
  - destruct (generate_xy_batches _ _ _) as [xy | ex]; simpl; auto.
    destruct (normalize _ _ _ _) as [xb | ex]; simpl; auto.
Qed.

Lemma train_pull_view (n : nat) (e1 e2 : Engine R G) (st : TrainLocals) :
  train_view e1 = train_view e2 ->
  (train_pull n e1 st).1 = (train_pull n e2 st).1
  /\ train_outcome (train_pull n e1 st).2
     = train_outcome (train_pull n e2 st).2.
Proof.
  revert e1 e2 st. induction n as [| n IH]; intros e1 e2 st Hv; simpl.
  - rewrite Hv. split; reflexivity.
  - pose proof (train_generator_next_view e1 e2 st Hv) as Hnext.
    destruct (train_generator_next e1 st) as [[[e1' st1] v1] | ex1];
      destruct (train_generator_next e2 st) as [[[e2' st2] v2] | ex2];
      try contradiction.
    + destruct Hnext as (Hv' & -> & ->).
      destruct (IH e1' e2' st2 Hv') as [Hys Hout]. simpl.
      rewrite Hys, Hout. split; reflexivity.
    + subst. split; reflexivity.
Qed.

Lemma train_generator_start_view (e1 e2 : Engine R G) :
  train_view e1 = train_view e2 ->
  match train_generator_start e1, train_generator_start e2 with
  | Ok (e1', st1), Ok (e2', st2) => train_view e1' = train_view e2' /\ st1 = st2
  | Err ex1, Err ex2 => ex1 = ex2
  | _, _ => False
  end.
Proof.
  destruct e1 as [ld1 tg1 vg1 ti1 vi1 el1 ep1 td1].
  destruct e2 as [ld2 tg2 vg2 ti2 vi2 el2 ep2 td2].
  destruct ld1, ld2. unfold train_view. simpl. intros Hv.
  injection Hv as -> -> -> -> -> -> -> -> ->.
  unfold train_generator_start, floordiv. simpl.
  case_decide; simpl; auto.
Qed.

(** The training stream of an engine is determined by its [train_view]. *)
Lemma train_generator_view (n : nat) (e1 e2 : Engine R G) :
  train_view e1 = train_view e2 ->
  (train_generator n e1).1 = (train_generator n e2).1
  /\ train_outcome (train_generator n e1).2
     = train_outcome (train_generator n e2).2.
Proof.
  intros Hv. unfold train_generator.
  pose proof (train_generator_start_view e1 e2 Hv) as Hstart.
  destruct (train_generator_start e1) as [[e1' st1] | ex1];
    destruct (train_generator_start e2) as [[e2' st2] | ex2];
    try contradiction.
  - destruct Hstart as [Hv' ->]. apply train_pull_view, Hv'.
  - subst. split; reflexivity.
Qed.

(** The evaluation generator does not disturb the training stream. *)
Lemma validation_generator_train_view (e : Engine R G) (mode : string)
    (manually_verified_only shuffle_ : bool) :
  train_view (validation_generator e mode manually_verified_only shuffle_).1
  = train_view e.
Proof.
  unfold train_view. rewrite validation_generator_loaded. f_equal.
  unfold validation_generator.
  destruct manually_verified_only; simpl.
  - destruct (verified_only e _) as [a | ex]; simpl; [| reflexivity].
    destruct shuffle_; reflexivity.
  - destruct shuffle_; [| reflexivity].
    case_decide; reflexivity.
Qed.

(** Engines built over the same data from parameters that agree on the
    seed, the chunk length, the batch size and the holdout fold offer the
    same view to the training generator. *)
Lemma init_train_view (p1 p2 : HParams.t) (validate_ : bool)
    (hdf5 : H5File R) (folds : list Z) (e1 e2 : Engine R G) :
  HParams.seed p1 = HParams.seed p2 ->
  HParams.input_frames_number p1 = HParams.input_frames_number p2 ->
  HParams.batch_size p1 = HParams.batch_size p2 ->
  HParams.holdout_fold p1 = HParams.holdout_fold p2 ->
  init p1 validate_ hdf5 folds = Ok e1 ->
  init p2 validate_ hdf5 folds = Ok e2 ->
  train_view e1 = train_view e2.
Proof.
  destruct p1 as [L1 bs1 ev1 sd1 hf1], p2 as [L2 bs2 ev2 sd2 hf2]. simpl.
  intros <- <- <- <- H1 H2. unfold init, init_from in H1, H2. simpl in H1, H2.
  repeat match type of H1 with
  | context [mbind _ ?m] =>
      let E := fresh "E" in
      destruct m eqn:E;
      unfold mbind at 1, result_bind at 1 in H1;
      unfold mbind at 1, result_bind at 1 in H2;
      cbv beta iota in H1, H2; [| discriminate H1]
  end.
  injection H1 as <-. injection H2 as <-. reflexivity.
Qed.

Lemma index_elem_of {A : Type} (l : list A) (i : Z) (a : A) :
  index l i = Ok a -> a ∈ l.
Proof.
  unfold index. case_decide; [| discriminate].
  destruct (l !! _) as [a' |] eqn:Hl; simpl; [| discriminate].
  intros [= <-]. eapply list_elem_of_lookup_2. exact Hl.
Qed.

Lemma take_indices_elem_of {A : Type} (l : list A) (idx : list Z)
    (r : list A) (a : A) :
  take_indices l idx = Ok r -> a ∈ r -> a ∈ l.
Proof.
  unfold take_indices. intros H Ha. apply for_each_Forall2 in H.
  apply list_elem_of_lookup_1 in Ha as [k Hk].
  destruct (Forall2_lookup_r _ _ _ _ _ H Hk) as (i & _ & Hi).
  eapply index_elem_of. exact Hi.
Qed.

(** The pool built by the constructor: with [L >= 2] and offsets that are
    non-empty ranges of the feature table, every descriptor is a non-empty
    range of the table of at most [L] frames. *)
Lemma init_train_chunks_inside (params : HParams.t) (validate_ : bool)
    (hdf5 : H5File R) (folds : list Z) (e : Engine R G) :
  init params validate_ hdf5 folds = Ok e ->
  2 <= HParams.input_frames_number params ->
  (forall b e', (b, e') ∈ h5_begin_end_ind hdf5 ->
     0 <= b /\ 1 <= e' - b /\ e' <= len (h5_feature hdf5)) ->
  forall b e' lab, (b, e', lab) ∈ train_chunks (loaded e) ->
    0 <= b /\ 1 <= e' - b /\ e' <= len (x (loaded e))
    /\ e' - b <= input_frames_number (loaded e).
Proof.
  intros H HL Hoff. unfold init, init_from in H. result_inv H.
  injection H as <-. cbn [loaded train_chunks x input_frames_number].
  intros b e' lab Hin.
  apply list_elem_of_join in Hin as (cs & Hin & Hcs).
  match goal with
  | E : for_each _ (seqZ 0 _) = Ok _ |- _ =>
      apply for_each_Forall2 in E; rename E into Hall
  end.
  apply list_elem_of_lookup_1 in Hcs as [k Hk].
  destruct (Forall2_lookup_r _ _ _ _ _ Hall Hk) as (i & _ & Hi).
  result_inv Hi.
  lazymatch type of Hi with
  | generate_chunks _ (fst ?be) (snd ?be) ?lab0 = Ok _ =>
      assert (Hbe : be ∈ h5_begin_end_ind hdf5)
        by (eapply take_indices_elem_of;
            [eassumption | eapply index_elem_of; eassumption]);
      destruct be as [b0 e0];
      destruct (Hoff _ _ Hbe) as (Hb0 & Hlen0 & He0);
      destruct (generate_chunks_inside (HParams.input_frames_number params)
                  b0 e0 (len (h5_feature hdf5)) lab0 HL Hb0 Hlen0 He0)
        as (cs' & Hcs' & _ & Hprop)
  end.
  simpl in Hi. rewrite Hcs' in Hi. injection Hi as <-.
  apply (Hprop b e' lab Hin).
Qed.

(** *** Epochs *)

Lemma slice_nonneg {A : Type} (l : list A) (b e : Z) :
  0 <= b -> b <= e ->
  slice l b e = take (Z.to_nat (e - b)) (drop (Z.to_nat b) l).
Proof.
  intros Hb Hbe. unfold slice, clamp_index, len.
  repeat case_decide; try lia.
  destruct (decide (e <= Z.of_nat (length l))) as [He | He].
  - rewrite !Z.min_l by lia. reflexivity.
  - destruct (decide (b <= Z.of_nat (length l))) as [Hbl | Hbl].
    + rewrite (Z.min_l b) by lia. rewrite (Z.min_r e) by lia.
      rewrite !take_ge; [reflexivity | |]; rewrite length_drop; lia.
    + rewrite !Z.min_r by lia. rewrite Z.sub_diag.
      rewrite (drop_ge l (Z.to_nat b)) by lia. rewrite take_nil.
      reflexivity.
Qed.

(** The slice taken when the cursor is inside the pool: no reshuffle. *)
Lemma train_select_inside (e : Engine R G) (st : TrainLocals) :
  batch_begin_ind st < train_chunks_len (loaded e) ->
  train_select e st
  = (e, st, slice (train_chunks_copy st) (batch_begin_ind st)
              (batch_begin_ind st + batch_size (loaded e))).
Proof. intros H. unfold train_select. case_decide; [lia | reflexivity]. Qed.

(** The slice taken when the cursor has reached the end of the pool: the
    copy is reshuffled and the slice is the head of the new order. *)
Lemma train_select_rollover (e : Engine R G) (st : TrainLocals) :
  batch_begin_ind st >= train_chunks_len (loaded e) ->
  let sh := shuffle (train_rand_generator e) (train_chunks_copy st) in
  train_select e st
  = (set_epoch ((fun n => n + 1) <$> epoch e)
       (set_train_rand_generator sh.2 e),
     {| train_chunks_copy := sh.1; batch_begin_ind := 0 |},
     slice sh.1 0 (0 + batch_size (loaded e))).
Proof. intros H. unfold train_select. case_decide; [reflexivity | lia]. Qed.

(** [n] turns of the loop that all start inside the pool. *)
Lemma train_batches_inside (n : nat) (e : Engine R G)
    (p : list (Chunk Z)) (j : Z) :
  let bs := batch_size (loaded e) in
  1 <= bs -> 0 <= j ->
  (n <> O -> (j + Z.of_nat n - 1) * bs < train_chunks_len (loaded e)) ->
  train_batches n e {| train_chunks_copy := p; batch_begin_ind := j * bs |}
  = ((fun i => slice p (i * bs) (i * bs + bs)) <$> seqZ j (Z.of_nat n),
     (e, {| train_chunks_copy := p;
            batch_begin_ind := (j + Z.of_nat n) * bs |})).
Proof.
  intros bs Hbs. revert j. induction n as [| n IH]; intros j Hj Hlast.
  - simpl. rewrite Z.add_0_r. reflexivity.
  - assert (Hl := Hlast ltac:(lia)).
    replace (j + Z.of_nat (S n) - 1) with (j + Z.of_nat n) in Hl by lia.
    assert (Hn : n <> O ->
              (j + 1 + Z.of_nat n - 1) * bs < train_chunks_len (loaded e)).
    { intros _. replace (j + 1 + Z.of_nat n - 1) with (j + Z.of_nat n) by lia.
      exact Hl. }
    cbn [train_batches].
    rewrite train_select_inside by (cbn; fold bs; nia).
    cbn [train_chunks_copy batch_begin_ind]. fold bs.
    replace (j * bs + bs) with ((j + 1) * bs) by lia.
    rewrite (IH (j + 1) ltac:(lia) Hn). cbn [fst snd].
    rewrite (seqZ_cons j (Z.of_nat (S n))) by lia.
    rewrite fmap_cons.
    replace (Z.pred (Z.of_nat (S n))) with (Z.of_nat n) by lia.
    replace (Z.succ j) with (j + 1) by lia.
    replace (j + 1 + Z.of_nat n) with (j + Z.of_nat (S n)) by lia.
    replace ((j + 1) * bs) with (j * bs + bs) by lia.
    reflexivity.
Qed.

(** Consecutive slices of width [bs] put end to end are one long slice. *)
Lemma slices_join {A : Type} (p : list A) (bs : Z) (n : nat) (j : Z) :
  1 <= bs -> 0 <= j ->
  mjoin ((fun i => slice p (i * bs) (i * bs + bs)) <$> seqZ j (Z.of_nat n))
  = take (Z.to_nat (Z.of_nat n * bs)) (drop (Z.to_nat (j * bs)) p).
Proof.
  intros Hbs. revert j. induction n as [| n IH]; intros j Hj.
  - reflexivity.
  - rewrite (seqZ_cons j (Z.of_nat (S n))) by lia.
    rewrite fmap_cons.
    change (mjoin (?c :: ?cs)) with (c ++ mjoin cs).
    replace (Z.pred (Z.of_nat (S n))) with (Z.of_nat n) by lia.
    replace (Z.succ j) with (j + 1) by lia.
    rewrite (IH (j + 1)) by lia.
    rewrite slice_nonneg by nia.
    replace (j * bs + bs - j * bs) with bs by lia.
    replace (Z.to_nat ((j + 1) * bs))
      with (Z.to_nat (j * bs) + Z.to_nat bs)%nat by nia.
    rewrite <- drop_drop, take_take_drop. f_equal. nia.
Qed.

Lemma train_select_loaded (e : Engine R G) (st : TrainLocals) :
  loaded (train_select e st).1.1 = loaded e.
Proof. unfold train_select. case_decide; reflexivity. Qed.

(** The values yielded are the materialized, normalized slices of
    [train_batches], in order; a run that was not ended by an exception has
    yielded all of them and reached the same state. *)
Lemma train_pull_batches (n : nat) (e : Engine R G) (st : TrainLocals) :
  Forall2
    (fun v b =>
       exists xy,
         generate_xy_batches (input_frames_number (loaded e)) (x (loaded e)) b
         = Ok xy
         /\ normalize (x_channels (loaded e)) (mean (loaded e))
              (std (loaded e)) xy.1 = Ok v.1
         /\ v.2 = xy.2)
    (train_pull n e st).1
    (take (length (train_pull n e st).1) (train_batches n e st).1)
  /\ (forall s, (train_pull n e st).2 = Ok s ->
        length (train_pull n e st).1 = n /\ s = (train_batches n e st).2).
Proof.
  revert e st. induction n as [| n IH]; intros e st.
  - simpl. split; [constructor |]. intros s [= <-]. split; reflexivity.
  - cbn [train_pull train_batches]. unfold train_generator_next.
    pose proof (train_select_loaded e st) as Hld.
    destruct (train_select e st) as [[e1 st1] b]. simpl in Hld.
    rewrite Hld.
    destruct (generate_xy_batches _ _ b) as [xy | ex] eqn:Hxy; simpl;
      [| split; [constructor | discriminate]].
    destruct (normalize _ _ _ xy.1) as [xb | ex] eqn:Hxb; simpl;
      [| split; [constructor | discriminate]].
    destruct (IH e1 {| train_chunks_copy := train_chunks_copy st1;
                       batch_begin_ind :=
                         batch_begin_ind st1 + batch_size (loaded e) |})
      as [Hall Hok].
    rewrite Hld in Hall. split.
    + constructor; [| exact Hall].
      exists xy. split; [exact Hxy |]. split; [exact Hxb | reflexivity].
    + intros s Hs. destruct (Hok s Hs) as [Hlen ->].
      split; [f_equal; exact Hlen | reflexivity].
Qed.

(** What one turn of the training loop selects. *)
Lemma train_select_facts (e : Engine R G) (st : TrainLocals) :
  let N := train_chunks_len (loaded e) in
  let bs := batch_size (loaded e) in
  let r := train_select e st in
  1 <= bs -> N = len (train_chunks_copy st) -> 0 <= batch_begin_ind st ->
  loaded r.1.1 = loaded e
  /\ validation_rand_generator r.1.1 = validation_rand_generator e
  /\ train_audio_indices r.1.1 = train_audio_indices e
  /\ validation_audio_indices r.1.1 = validation_audio_indices e
  /\ test_data r.1.1 = test_data e
  /\ epoch_len r.1.1 = epoch_len e
  /\ train_chunks_copy r.1.2 ≡ₚ train_chunks_copy st
  /\ 0 <= batch_begin_ind r.1.2
  /\ (forall c, c ∈ r.2 -> c ∈ train_chunks_copy r.1.2)
  /\ (length r.2 <= Z.to_nat bs)%nat
  /\ (1 <= N -> (1 <= length r.2)%nat).
Proof.
  intros N bs r Hbs HN Hc. subst r. unfold train_select. fold N bs.
  case_decide as Hroll; cbn [fst snd train_chunks_copy batch_begin_ind
    loaded validation_rand_generator train_audio_indices
    validation_audio_indices test_data epoch_len set_epoch
    set_train_rand_generator].
  - set (sh := shuffle (train_rand_generator e) (train_chunks_copy st)).
    pose proof (shuffle_Permutation _ (train_rand_generator e)
                  (train_chunks_copy st)) as Hp. fold sh in Hp.
    pose proof (Permutation_length Hp) as Hl.
    split_and!; try reflexivity; try lia.
    + exact Hp.
    + intros c. apply elem_of_slice.
    + rewrite slice_nonneg by lia. rewrite length_take. lia.
    + intros HN1. rewrite slice_nonneg by lia. rewrite drop_0.
      rewrite length_take. unfold len in HN. lia.
  - split_and!; try reflexivity; try lia.
    + intros c. apply elem_of_slice.
    + rewrite slice_nonneg by lia. rewrite length_take. lia.
    + intros HN1. rewrite slice_nonneg by lia.
      rewrite length_take, length_drop. unfold len in HN. lia.
Qed.

Lemma train_pull_shape (n : nat) (e : Engine R G) (st : TrainLocals) :
  let N := train_chunks_len (loaded e) in
  let bs := batch_size (loaded e) in
  let L := input_frames_number (loaded e) in
  0 <= L -> 1 <= bs -> 1 <= N ->
  N = len (train_chunks_copy st) -> 0 <= batch_begin_ind st ->
  (forall b e' lab, (b, e', lab) ∈ train_chunks_copy st ->
     0 <= b /\ 1 <= e' - b /\ e' <= len (x (loaded e))) ->
  broadcasts (x_channels (loaded e)) (mean (loaded e)) (std (loaded e)) ->
  is_Ok (train_pull n e st).2
  /\ length (train_pull n e st).1 = n
  /\ Forall (batch_shape L bs) (train_pull n e st).1.
Proof.
  cbv zeta. revert e st.
  induction n as [| n IH]; intros e st HL Hbs HN1 HN Hc Hin Hbc.
  - simpl. split; [eexists; reflexivity |]. split; [reflexivity | constructor].
  - cbn [train_pull]. unfold train_generator_next.
    pose proof (train_select_facts e st Hbs HN Hc)
      as (Hld & _ & _ & _ & _ & _ & Hp & Hc1 & Hsub & Hle & Hge).
    destruct (train_select e st) as [[e1 st1] b]. simpl in *.
    rewrite Hld.
    assert (Hin1 : forall b0 e' lab, (b0, e', lab) ∈ train_chunks_copy st1 ->
              0 <= b0 /\ 1 <= e' - b0 /\ e' <= len (x (loaded e))).
    { intros b0 e' lab H'. apply (Hin b0 e' lab). rewrite <- Hp. exact H'. }
    assert (Hinb : forall b0 e' lab, (b0, e', lab) ∈ b ->
              0 <= b0 /\ 1 <= e' - b0 /\ e' <= len (x (loaded e))).
    { intros b0 e' lab H'. apply (Hin1 b0 e' lab), Hsub, H'. }
    destruct (generate_xy_batches _ _ b) as [xy | ex] eqn:Hxy.
    2:{ exfalso.
        destruct (generate_xy_batches_inside (input_frames_number (loaded e))
                    (x (loaded e)) b HL Hinb) as (xb & Hxb & _).
        rewrite Hxy in Hxb. discriminate. }
    cbn [mbind result_bind].
    pose proof (generate_xy_batches_shape _ _ _ _ HL Hinb Hxy) as [Hrows Hall].
    pose proof (generate_xy_batches_labels _ _ _ _ Hxy) as [Hlab _].
    specialize (Hge HN1).
    assert (Hnorm : normalize (x_channels (loaded e)) (mean (loaded e))
                      (std (loaded e)) xy.1
                    = Ok ((fun chunk : list (list R) =>
                             normalize_frame (mean (loaded e)) (std (loaded e))
                             <$> chunk) <$> xy.1)).
    { apply normalize_broadcasts.
      destruct xy.1; [simpl in Hrows; lia | exact Hbc]. }
    destruct (normalize_shape _ _ _ _ _ _ Hnorm Hall) as [Hnl Hnall].
    rewrite Hnorm. cbn [mbind result_bind].
    destruct (IH e1 {| train_chunks_copy := train_chunks_copy st1;
                       batch_begin_ind :=
                         batch_begin_ind st1 + batch_size (loaded e) |})
      as (Hok & Hlen & Hshape); rewrite ?Hld; simpl; try assumption; try lia.
    { unfold len. rewrite (Permutation_length Hp). exact HN. }
    split; [exact Hok |]. split; [simpl; f_equal; exact Hlen |].
    simpl. constructor; [| rewrite Hld in Hshape; exact Hshape].
    unfold batch_shape. simpl. rewrite Hnl, Hrows, Hlab, length_fmap.
    split; [reflexivity |]. split; [| exact Hnall].
    lia.
Qed.

(** With an empty pool every batch is the empty array, of shape [(0,)]. *)
Lemma train_pull_empty (n : nat) (e : Engine R G) (st : TrainLocals) :
  train_chunks_len (loaded e) = 0 -> train_chunks_copy st = [] ->
  0 <= batch_begin_ind st -> 0 <= batch_size (loaded e) ->
  broadcasts 0 (mean (loaded e)) (std (loaded e)) ->
  is_Ok (train_pull n e st).2 /\ length (train_pull n e st).1 = n.
Proof.
  revert e st. induction n as [| n IH]; intros e st HN Hcopy Hc Hbs Hbc.
  - simpl. split; [eexists |]; reflexivity.
  - cbn [train_pull]. unfold train_generator_next, train_select.
    rewrite HN, Hcopy. case_decide; [| lia].
    pose proof (shuffle_Permutation _ (train_rand_generator e)
                  (@nil (Chunk Z))) as Hp.
    apply Permutation_nil_r in Hp.
    cbn [train_chunks_copy batch_begin_ind]. rewrite Hp.
    change (loaded (set_epoch ?a (set_train_rand_generator ?g e)))
      with (loaded e).
    rewrite slice_nil.
    change (generate_xy_batches ?L ?x [])
      with (@Ok (list (list (list R)) * list Z) ([], [])).
    cbn [mbind result_bind fst snd].
    rewrite (normalize_broadcasts _ _ _ [] Hbc).
    cbn [mbind result_bind fmap list_fmap].
    match goal with
    | |- context [train_pull n ?e1 ?st1] =>
        assert (Hnext : is_Ok (train_pull n e1 st1).2
                        /\ length (train_pull n e1 st1).1 = n)
          by (apply IH; simpl; first [assumption | reflexivity | lia])
    end.
    destruct Hnext as [Hok Hlen].
    split; [exact Hok | simpl; f_equal; exact Hlen].
Qed.

(** When the statistics do not broadcast against the batches, the first
    turn of the loop raises ValueError at the normalization. *)
Lemma train_pull_mismatch (n : nat) (e : Engine R G) (st : TrainLocals) :
  let N := train_chunks_len (loaded e) in
  0 <= input_frames_number (loaded e) -> 1 <= batch_size (loaded e) ->
  N = len (train_chunks_copy st) -> 0 <= batch_begin_ind st ->
  (forall b e' lab, (b, e', lab) ∈ train_chunks_copy st ->
     0 <= b /\ 1 <= e' - b /\ e' <= len (x (loaded e))) ->
  ~ broadcasts (if decide (N = 0) then 0%nat else x_channels (loaded e))
      (mean (loaded e)) (std (loaded e)) ->
  train_pull (S n) e st = ([], Err ValueError).
Proof.
  intros N HL Hbs HN Hc Hin Hbc. subst N.
  cbn [train_pull]. unfold train_generator_next.
  pose proof (train_select_facts e st Hbs HN Hc)
    as (Hld & _ & _ & _ & _ & _ & Hp & _ & Hsub & _ & Hge).
  destruct (train_select e st) as [[e1 st1] b]. simpl in *.
  rewrite Hld.
  destruct (generate_xy_batches_inside (input_frames_number (loaded e))
              (x (loaded e)) b HL) as (xb & Hxb & Hrows).
  { intros b0 e' lab H'. apply (Hin b0 e' lab). rewrite <- Hp.
    apply Hsub, H'. }
  rewrite Hxb. cbn [mbind result_bind fst].
  rewrite normalize_not_broadcasts; [reflexivity |].
  pose proof (Forall2_length _ _ _ Hrows) as Hlen.
  case_decide as H0.
  - assert (Hb : b = []).
    { assert (Hcopy : train_chunks_copy st = []).
      { rewrite H0 in HN. unfold len in HN.
        destruct (train_chunks_copy st); [reflexivity | simpl in HN; lia]. }
      rewrite Hcopy in Hp. apply Permutation_nil_r in Hp.
      destruct b as [| c b]; [reflexivity |].
      exfalso. assert (Hcin : c ∈ train_chunks_copy st1)
        by (apply Hsub, elem_of_cons; by left).
      rewrite Hp in Hcin. apply elem_of_nil in Hcin. exact Hcin. }
    subst b. destruct xb; [exact Hbc | discriminate].
  - assert (1 <= length b)%nat by (apply Hge; unfold len in HN; lia).
    destruct xb; [simpl in Hlen; lia | exact Hbc].
Qed.

(** When every descriptor of the pool is a non-empty range inside the
    feature table and the statistics broadcast against the batches, no
    turn of the loop raises. *)
Lemma train_pull_total (n : nat) (e : Engine R G) (st : TrainLocals) :
  let N := train_chunks_len (loaded e) in
  0 <= input_frames_number (loaded e) -> 1 <= batch_size (loaded e) ->
  N = len (train_chunks_copy st) -> 0 <= batch_begin_ind st ->
  (forall b e' lab, (b, e', lab) ∈ train_chunks_copy st ->
     0 <= b /\ 1 <= e' - b /\ e' <= len (x (loaded e))) ->
  broadcasts (if decide (N = 0) then 0%nat else x_channels (loaded e))
    (mean (loaded e)) (std (loaded e)) ->
  is_Ok (train_pull n e st).2 /\ length (train_pull n e st).1 = n.
Proof.
  intros N HL Hbs HN Hc Hin Hbc. subst N. case_decide as H0.
  - apply train_pull_empty; try assumption; try lia.
    rewrite H0 in HN. unfold len in HN.
    destruct (train_chunks_copy st); [reflexivity | simpl in HN; lia].
  - destruct (train_pull_shape n e st) as (Hok & Hlen & _);
      try assumption; [| split; assumption].
    unfold len in HN. lia.
Qed.

(** One epoch, from a state whose cursor is at the start of the copy or
    past its end: the slices taken are the consecutive windows of width
    [batch_size] of the epoch's order [p], which is the reshuffled copy when
    the cursor was past the end. *)
Lemma train_batches_epoch (e : Engine R G) (st : TrainLocals) :
  let N := train_chunks_len (loaded e) in
  let bs := batch_size (loaded e) in
  1 <= bs -> N = len (train_chunks_copy st) ->
  batch_begin_ind st = 0 \/ batch_begin_ind st >= N ->
  let rollover := bool_decide (batch_begin_ind st >= N) in
  let sh := shuffle (train_rand_generator e) (train_chunks_copy st) in
  let p := if rollover then sh.1 else train_chunks_copy st in
  let e' := if rollover
            then set_epoch ((fun n => n + 1) <$> epoch e)
                   (set_train_rand_generator sh.2 e)
            else e in
  let m := Z.max 1 (ceil_div N bs) in
  train_batches (Z.to_nat m) e st
  = ((fun i => slice p (i * bs) (i * bs + bs)) <$> seqZ 0 m,
     (e', {| train_chunks_copy := p; batch_begin_ind := m * bs |})).
Proof.
  intros N bs Hbs HN Hcur. cbv zeta.
  set (m := Z.max 1 (ceil_div N bs)).
  assert (Hceil : forall k, k < ceil_div N bs <-> k * bs < N)
    by (intros k; apply ceil_div_lt; lia).
  assert (Hm1 : 1 < m -> (m - 1) * bs < N).
  { intros H1. apply Hceil. unfold m in *. lia. }
  case_bool_decide as Hge.
  - set (sh := shuffle (train_rand_generator e) (train_chunks_copy st)).
    set (e' := set_epoch _ _).
    replace (Z.to_nat m) with (S (Z.to_nat (m - 1))) by lia.
    cbn [train_batches].
    rewrite train_select_rollover by exact Hge. fold sh. fold e'.
    cbn [train_chunks_copy batch_begin_ind].
    change (loaded e') with (loaded e). fold bs.
    replace (0 + bs) with (1 * bs) by lia.
    pose proof (train_batches_inside (Z.to_nat (m - 1)) e' sh.1 1) as Hin.
    change (loaded e') with (loaded e) in Hin. fold bs N in Hin.
    cbv zeta in Hin.
    rewrite Hin; [| lia | lia |].
    + cbn [fst snd]. rewrite (seqZ_cons 0 m) by lia. rewrite fmap_cons.
      replace (Z.of_nat (Z.to_nat (m - 1))) with (Z.pred m) by lia.
      replace (Z.succ 0) with 1 by lia.
      replace (1 + Z.pred m) with m by lia.
      replace (0 * bs) with 0 by lia. replace (0 + bs) with (1 * bs) by lia.
      reflexivity.
    + intros Hne.
      replace (1 + Z.of_nat (Z.to_nat (m - 1)) - 1) with (m - 1) by lia.
      apply Hm1. lia.
  - assert (Hc0 : batch_begin_ind st = 0) by lia.
    assert (Hpos : 0 < N) by lia.
    assert (Hc : 0 < ceil_div N bs) by (apply Hceil; lia).
    destruct st as [copy cur]. simpl in *. subst cur.
    pose proof (train_batches_inside (Z.to_nat m) e copy 0) as Hin.
    fold bs N in Hin. cbv zeta in Hin.
    replace (0 * bs) with 0 in Hin by lia.
    rewrite Hin; [| lia | lia |].
    + replace (Z.of_nat (Z.to_nat m)) with m by lia.
      replace (0 + m) with m by lia. reflexivity.
    + intros _.
      replace (0 + Z.of_nat (Z.to_nat m) - 1) with (m - 1) by lia.
      destruct (decide (1 < m)) as [H1 | H1]; [apply Hm1, H1 |].
      replace (m - 1) with 0 by lia. lia.
Qed.

(** The number of slices of an epoch against [epoch_len]: they agree
    unless the batch size divides the pool size, where [epoch_len] counts
    one more. *)
Lemma ceil_div_floor (N bs : Z) :
  1 <= bs -> 0 <= N ->
  (N mod bs = 0 -> ceil_div N bs = N / bs)
  /\ (N mod bs <> 0 -> ceil_div N bs = N / bs + 1).
Proof.
  intros Hbs HN.
  assert (Hc : forall k, k < ceil_div N bs <-> k * bs < N)
    by (intros k; apply ceil_div_lt; lia).
  pose proof (Z.div_mod N bs ltac:(lia)) as Hdm.
  pose proof (Z.mod_pos_bound N bs ltac:(lia)) as Hm.
  split; intros Hmod.
  - assert (~ N / bs < ceil_div N bs) by (rewrite Hc; nia).
    assert (N / bs - 1 < ceil_div N bs) by (apply Hc; nia). lia.
  - assert (N / bs < ceil_div N bs) by (apply Hc; nia).
    assert (~ N / bs + 1 < ceil_div N bs) by (rewrite Hc; nia). lia.
Qed.

(** A successful construction over well-formed offsets has built a pool
    with at least one descriptor. *)
Lemma init_train_chunks_nonempty (params : HParams.t) (validate_ : bool)
    (hdf5 : H5File R) (folds : list Z) (e : Engine R G) :
  init params validate_ hdf5 folds = Ok e ->
  2 <= HParams.input_frames_number params ->
  (forall b e', (b, e') ∈ h5_begin_end_ind hdf5 ->
     0 <= b /\ 1 <= e' - b /\ e' <= len (h5_feature hdf5)) ->
  train_chunks (loaded e) <> [].
Proof.
  intros H HL Hoff. unfold init, init_from in H. result_inv H.
  injection H as <-. cbn [loaded train_chunks].
  match goal with
  | Ht : take_indices _ ?idx = Ok ?tbe,
    Hc : np_concatenate _ = Ok _,
    Hf : for_each _ (seqZ 0 (len ?idx)) = Ok ?chunks |- _ =>
      rename Ht into Htake; rename Hc into Hcat; rename Hf into Hloop;
      set (train_idx := idx) in *
  end.
  assert (Hlen : length train_idx = length a1).
  { pose proof Htake as Ht. unfold take_indices in Ht.
    apply for_each_Forall2 in Ht. exact (Forall2_length _ _ _ Ht). }
  assert (Hpos : 0 < len train_idx).
  { unfold len. destruct a1; [simpl in Hcat; discriminate Hcat |].
    simpl in Hlen. lia. }
  rewrite (seqZ_cons 0 (len train_idx)) in Hloop by exact Hpos.
  cbn [for_each] in Hloop. result_inv Hloop. injection Hloop as <-.
  change (mjoin (?c :: ?cs)) with (c ++ mjoin cs).
  match goal with
  | Hb : mbind _ (index _ 0) = Ok _ |- _ => result_inv Hb
  end.
  lazymatch goal with
  | Hg : generate_chunks _ (fst ?be) (snd ?be) ?lab0 = Ok ?c0 |- _ =>
      assert (Hbe : be ∈ h5_begin_end_ind hdf5)
        by (eapply take_indices_elem_of;
            [exact Htake | eapply index_elem_of; eassumption]);
      destruct be as [b0 e0];
      destruct (Hoff _ _ Hbe) as (Hb0 & Hlen0 & He0);
      destruct (generate_chunks_inside (HParams.input_frames_number params)
                  b0 e0 (len (h5_feature hdf5)) lab0 HL Hb0 Hlen0 He0)
        as (cs' & Hcs' & Hne' & _);
      simpl in Hg; rewrite Hcs' in Hg; injection Hg as <-
  end.
  destruct cs' as [| c cs']; [contradiction | discriminate].
Qed.

(** The training stream of a newly constructed engine over well-formed
    data. *)
Lemma init_train_generator_shape (params : HParams.t) (validate_ : bool)
    (hdf5 : H5File R) (folds : list Z) (e0 : Engine R G) (n : nat) :
  init params validate_ hdf5 folds = Ok e0 ->
  2 <= HParams.input_frames_number params ->
  1 <= HParams.batch_size params ->
  (forall b e', (b, e') ∈ h5_begin_end_ind hdf5 ->
     0 <= b /\ 1 <= e' - b /\ e' <= len (h5_feature hdf5)) ->
  is_Ok (train_generator n e0).2
  /\ length (train_generator n e0).1 = n
  /\ Forall (batch_shape (HParams.input_frames_number params)
               (HParams.batch_size params))
       (train_generator n e0).1.
Proof.
  intros Hinit HL Hbs Hoff.
  pose proof (init_train_chunks_inside _ _ _ _ _ Hinit HL Hoff) as Hin.
  pose proof (init_train_chunks_nonempty _ _ _ _ _ Hinit HL Hoff) as Hne.
  destruct (init_Ok _ _ _ _ _ Hinit)
    as (_ & _ & _ & _ & HeL & Hebs & _ & _ & HN & _).
  unfold train_generator, train_generator_start, floordiv.
  change (loaded (set_train_rand_generator ?g e0)) with (loaded e0).
  rewrite Hebs. case_decide; [lia |]. cbn [mbind result_bind].
  set (sh := shuffle (train_rand_generator e0) (train_chunks (loaded e0))).
  pose proof (shuffle_Permutation _ (train_rand_generator e0)
                (train_chunks (loaded e0))) as Hp. fold sh in Hp.
  set (e1 := set_epoch _ _).
  pose proof (train_pull_shape n e1
                {| train_chunks_copy := sh.1; batch_begin_ind := 0 |}) as Hs.
  change (loaded e1) with (loaded e0) in Hs. cbv zeta in Hs.
  rewrite HeL, Hebs in Hs. apply Hs; try lia.
  - rewrite HN. unfold len.
    destruct (train_chunks (loaded e0)); [contradiction | simpl; lia].
  - simpl. rewrite HN. unfold len. rewrite (Permutation_length Hp).
    reflexivity.
  - simpl. lia.
  - simpl. intros b e' lab H'.
    destruct (Hin b e' lab) as (? & ? & ? & _); [rewrite <- Hp; exact H' |].
    auto.
  - destruct (init_channels _ _ _ _ _ Hinit) as (_ & Hm & Hsd).
    apply broadcasts_same; assumption.
Qed.

(** C3: with [batch_size >= 1], the prologue sets
    [epoch_len = pool_size // batch_size + 1] and leaves the cursor at the
    start of a shuffled copy of the pool.  From every state at an epoch
    boundary (cursor at the start, or past the end of the copy) the next
    [m = max 1 (ceil (pool_size / batch_size))] slices are the consecutive
    windows of width [batch_size] of one order [p] of the pool (the
    reshuffled copy when the cursor was past the end): all but the last
    have [batch_size] descriptors, put end to end they are [p], and the
    state reached is again at an epoch boundary, so no slice spans two
    epochs.  The values yielded are the materialized slices, row for row,
    and none is missing when the pool's descriptors are non-empty ranges
    of the feature table and the statistics broadcast against the batches
    (arrays with the channels of the table, or the empty array when the
    pool is empty); when they do not, the first turn of the loop raises
    ValueError at the normalization. *)
Theorem train_generator_epochs (e0 : Engine R G) :
  let N := train_chunks_len (loaded e0) in
  let bs := batch_size (loaded e0) in
  1 <= bs -> N = len (train_chunks (loaded e0)) ->
  (exists e1 st1,
     train_generator_start e0 = Ok (e1, st1)
     /\ epoch_len e1 = Some (N / bs + 1)
     /\ epoch e1 = Some 1
     /\ loaded e1 = loaded e0
     /\ batch_begin_ind st1 = 0
     /\ train_chunks_copy st1 ≡ₚ train_chunks (loaded e0))
  /\ forall (e : Engine R G) (st : TrainLocals),
       loaded e = loaded e0 ->
       train_chunks_copy st ≡ₚ train_chunks (loaded e0) ->
       batch_begin_ind st = 0 \/ batch_begin_ind st >= N ->
       let rollover := bool_decide (batch_begin_ind st >= N) in
       let sh := shuffle (train_rand_generator e) (train_chunks_copy st) in
       let p := if rollover then sh.1 else train_chunks_copy st in
       let e' := if rollover
                 then set_epoch ((fun n => n + 1) <$> epoch e)
                        (set_train_rand_generator sh.2 e)
                 else e in
       let m := Z.max 1 (ceil_div N bs) in
       let bss := (train_batches (Z.to_nat m) e st).1 in
       p ≡ₚ train_chunks (loaded e0)
       /\ (train_batches (Z.to_nat m) e st).2
          = (e', {| train_chunks_copy := p; batch_begin_ind := m * bs |})
       /\ loaded e' = loaded e0
       /\ m * bs >= N
       /\ length bss = Z.to_nat m
       /\ mjoin bss = p
       /\ (forall k b, bss !! k = Some b ->
             b = slice p (Z.of_nat k * bs) (Z.of_nat k * bs + bs)
             /\ (Z.of_nat k < m - 1 -> len b = bs)
             /\ len b <= bs)
       /\ (forall n,
             Forall2 (fun v b => v.2 = b.*2 /\ length v.1 = length b)
               (train_pull n e st).1
               (take (length (train_pull n e st).1)
                  (train_batches n e st).1))
       /\ (0 <= input_frames_number (loaded e0) ->
           (forall b e'' lab, (b, e'', lab) ∈ train_chunks (loaded e0) ->
              0 <= b /\ 1 <= e'' - b /\ e'' <= len (x (loaded e0))) ->
           (broadcasts
              (if decide (N = 0) then 0%nat else x_channels (loaded e0))
              (mean (loaded e0)) (std (loaded e0)) ->
            forall n, length (train_pull n e st).1 = n)
           /\ (~ broadcasts
                  (if decide (N = 0) then 0%nat else x_channels (loaded e0))
                  (mean (loaded e0)) (std (loaded e0)) ->
               forall n, train_pull (S n) e st = ([], Err ValueError))).
Proof.
  intros N bs Hbs HN. split.
  - unfold train_generator_start, floordiv. simpl. fold bs N.
    case_decide; [lia |]. simpl. eexists _, _. split; [reflexivity |].
    simpl. split_and!; try reflexivity. apply shuffle_Permutation.
  - intros e st Hld Hperm Hcur. cbv zeta.
    assert (Hlen : N = len (train_chunks_copy st)).
    { rewrite HN. unfold len. rewrite (Permutation_length Hperm).
      reflexivity. }
    pose proof (train_batches_epoch e st) as Hep.
    rewrite Hld in Hep. fold N bs in Hep. cbv zeta in Hep.
    specialize (Hep Hbs Hlen Hcur). rewrite Hep. cbn [fst snd].
    set (m := Z.max 1 (ceil_div N bs)) in *.
    set (sh := shuffle (train_rand_generator e) (train_chunks_copy st)) in *.
    set (p := if bool_decide (batch_begin_ind st >= N) then sh.1
              else train_chunks_copy st) in *.
    assert (Hp : p ≡ₚ train_chunks (loaded e0)).
    { subst p. case_bool_decide; [| exact Hperm].
      subst sh. rewrite shuffle_Permutation. exact Hperm. }
    assert (HpN : len p = N).
    { rewrite HN. unfold len. rewrite (Permutation_length Hp). reflexivity. }
    assert (Hceil : forall k, k < ceil_div N bs <-> k * bs < N)
      by (intros k; apply ceil_div_lt; lia).
    assert (Hm1 : 1 < m -> (m - 1) * bs < N).
    { intros H1. apply Hceil. unfold m in *. lia. }
    assert (HmN : m * bs >= N).
    { assert (~ m < ceil_div N bs) as Hn by (unfold m; lia).
      rewrite Hceil in Hn. lia. }
    split_and!.
    + exact Hp.
    + reflexivity.
    + case_bool_decide; exact Hld.
    + exact HmN.
    + rewrite length_fmap, length_seqZ. reflexivity.
    + replace m with (Z.of_nat (Z.to_nat m)) at 1 by (unfold m; lia).
      rewrite slices_join by lia.
      replace (Z.to_nat (0 * bs)) with O by lia. rewrite drop_0.
      apply take_ge. unfold len in HpN. lia.
    + intros k b Hk.
      apply list_lookup_fmap_Some_1 in Hk as (i & -> & Hi).
      apply lookup_seqZ in Hi as [-> Hkm]. rewrite Z.add_0_l.
      split; [reflexivity |]. split.
      * intros Hk1. assert (1 < m) as H1 by lia. specialize (Hm1 H1).
        rewrite length_slice_inside; [lia | nia | lia |].
        rewrite HpN. nia.
      * rewrite slice_nonneg by nia. unfold len. rewrite length_take. lia.
    + intros n. destruct (train_pull_batches n e st) as [Hall _].
      eapply Forall2_impl; [exact Hall |].
      intros v b (xy & Hxy & Hnorm & ->).
      apply generate_xy_batches_labels in Hxy as [Hlab Hrows].
      split; [exact Hlab |]. apply normalize_inv in Hnorm.
      rewrite Hnorm, length_fmap. exact Hrows.
    + intros HL Hin.
      assert (Hc0 : 0 <= batch_begin_ind st) by (unfold len in Hlen; lia).
      assert (Hin' : forall b e'' lab, (b, e'', lab) ∈ train_chunks_copy st ->
                0 <= b /\ 1 <= e'' - b /\ e'' <= len (x (loaded e0))).
      { intros b e'' lab H'. apply (Hin b e'' lab).
        rewrite <- Hperm. exact H'. }
      split; intros Hbc n.
      * pose proof (train_pull_total n e st) as Htot.
        rewrite Hld in Htot. fold N bs in Htot. cbv zeta in Htot.
        apply Htot; assumption.
      * pose proof (train_pull_mismatch n e st) as Hmis.
        rewrite Hld in Hmis. fold N bs in Hmis. cbv zeta in Hmis.
        apply Hmis; assumption.
Qed.

(** *** The training stream across runs *)

(** The order in which the label set iterates does not reach the
    engine. *)
Lemma init_iter_init (iteration : list string) (params : HParams.t)
    (validate_ : bool) (hdf5 : H5File R) (folds : list Z) :
  set_iteration (h5_label hdf5) iteration ->
  init_iter (R := R) (G := G) iteration params validate_ hdf5 folds
  = init params validate_ hdf5 folds.
Proof.
  intros H. unfold init_iter, init. rewrite (sorted_iteration _ _ H).
  reflexivity.
Qed.

(** Evaluation calls leave alone what the training generator reads. *)
Lemma other_calls_train_view (e e' : Engine R G) :
  other_calls e e' -> train_view e' = train_view e.
Proof.
  induction 1 as [| e1 mode mvo sh _ IH | e1 hdf5 e2 _ IH Hread].
  - reflexivity.
  - rewrite validation_generator_train_view. exact IH.
  - unfold read_test_data in Hread. result_inv Hread.
    injection Hread as <-. exact IH.
Qed.

(** C7: the training stream is a function of the seed and the training
    data, [np.random.RandomState] being a function of its seed.  Take two
    engines constructed in two runs over the same file, in each of which the
    set of labels may iterate in an order of its own, from parameters that
    agree on the seed, the chunk length, the batch size and the holdout fold
    (the evaluation limit may differ), and let each go through any
    evaluation calls before training starts.  Their training generators
    yield the same sequence of (features, labels) batches, and after any
    number of batches hold the same shuffled copy of the pool at the same
    position (or have stopped with the same exception).  The copy they start
    from is the pool shuffled by [RandomState(seed)], and on well-formed
    data (as for C3, with [L >= 2]) the first [n] batches are there, for
    every [n], each with 1 to [batch_size] chunks of [L] frames. *)
Theorem train_generator_deterministic (p1 p2 : HParams.t) (validate_ : bool)
    (hdf5 : H5File R) (folds : list Z) (iteration1 iteration2 : list string)
    (e1 e2 e1' e2' : Engine R G) (n : nat) :
  HParams.seed p1 = HParams.seed p2 ->
  HParams.input_frames_number p1 = HParams.input_frames_number p2 ->
  HParams.batch_size p1 = HParams.batch_size p2 ->
  HParams.holdout_fold p1 = HParams.holdout_fold p2 ->
  set_iteration (h5_label hdf5) iteration1 ->
  set_iteration (h5_label hdf5) iteration2 ->
  init_iter iteration1 p1 validate_ hdf5 folds = Ok e1 ->
  init_iter iteration2 p2 validate_ hdf5 folds = Ok e2 ->
  other_calls e1 e1' ->
  other_calls e2 e2' ->
  (train_generator n e1').1 = (train_generator n e2').1
  /\ train_outcome (train_generator n e1').2
     = train_outcome (train_generator n e2').2
  /\ (forall e st,
        train_generator_start e1' = Ok (e, st) ->
        train_chunks_copy st
        = (shuffle (RandomState (HParams.seed p1))
             (train_chunks (loaded e1))).1)
  /\ (2 <= HParams.input_frames_number p1 ->
      1 <= HParams.batch_size p1 ->
      (forall b e', (b, e') ∈ h5_begin_end_ind hdf5 ->
         0 <= b /\ 1 <= e' - b /\ e' <= len (h5_feature hdf5)) ->
      length (train_generator n e1').1 = n
      /\ Forall (batch_shape (HParams.input_frames_number p1)
                   (HParams.batch_size p1))
           (train_generator n e1').1).
Proof.
  intros Hs HL Hb Hh Hit1 Hit2 H1 H2 Hc1 Hc2.
  rewrite (init_iter_init _ _ _ _ _ Hit1) in H1.
  rewrite (init_iter_init _ _ _ _ _ Hit2) in H2.
  pose proof (other_calls_train_view _ _ Hc1) as Hv1.
  pose proof (other_calls_train_view _ _ Hc2) as Hv2.
  assert (Hv : train_view e1' = train_view e2').
  { rewrite Hv1, Hv2. eapply init_train_view; eassumption. }
  destruct (train_generator_view n e1' e2' Hv) as [Hys Hout].
  split; [exact Hys |]. split; [exact Hout |]. split.
  - intros e st Hstart.
    destruct (init_Ok _ _ _ _ _ H1)
      as (_ & _ & _ & _ & _ & _ & Hrng & _).
    unfold train_view in Hv1.
    injection Hv1 as Hpool _ _ _ _ _ _ _ Hg.
    unfold train_generator_start in Hstart. result_inv Hstart.
    injection Hstart as _ <-. simpl. rewrite Hg, Hpool, Hrng. reflexivity.
  - intros HL2 Hbs Hoff.
    destruct (train_generator_view n e1' e1 Hv1) as [Hys1 _].
    rewrite Hys1.
    destruct (init_train_generator_shape _ _ _ _ _ n H1 HL2 Hbs Hoff)
      as (_ & Hlen & Hshape).
    split; assumption.
Qed.

End Training.

Lemma train_generator_deterministic_witness :
  exists e1 e2 : Engine Z Z,
    init_iter ["dog"; "cat"]%string Toy.params false Toy.train_h5 [] = Ok e1
    /\ init_iter ["cat"; "dog"]%string Toy.params_eval1 false Toy.train_h5 []
       = Ok e2
    /\ (train_generator 5 (validation_generator e1 "train" false true).1).1
       = (train_generator 5 e2).1
    /\ length (train_generator 5
                 (validation_generator e1 "train" false true).1).1 = 5%nat.
Proof.
  destruct (init_iter (R := Z) (G := Z) ["dog"; "cat"]%string Toy.params
              false Toy.train_h5 [])
    as [e1 | ex] eqn:H1; [| vm_compute in H1; discriminate].
  destruct (init_iter (R := Z) (G := Z) ["cat"; "dog"]%string
              Toy.params_eval1 false Toy.train_h5 [])
    as [e2 | ex] eqn:H2; [| vm_compute in H2; discriminate].
  exists e1, e2. split; [reflexivity |]. split; [reflexivity |].
  assert (Hit : forall l : list string,
            l = ["dog"; "cat"]%string \/ l = ["cat"; "dog"]%string ->
            set_iteration (h5_label Toy.train_h5) l).
  { intros l Hl. split.
    - destruct Hl as [-> | ->]; repeat constructor;
        rewrite ?elem_of_cons, ?elem_of_nil; intros H;
        repeat destruct H as [H | H]; try discriminate; assumption.
    - intros s. simpl.
      destruct Hl as [-> | ->]; rewrite !elem_of_cons, !elem_of_nil; tauto. }
  destruct (train_generator_deterministic Toy.params Toy.params_eval1 false
              Toy.train_h5 [] ["dog"; "cat"]%string ["cat"; "dog"]%string
              e1 e2 (validation_generator e1 "train" false true).1 e2 5)
    as (Hys & _ & _ & Hlen); try reflexivity; try assumption.
  - apply Hit. by left.
  - apply Hit. by right.
  - apply other_calls_validation, other_calls_none.
  - apply other_calls_none.
  - split; [exact Hys |]. apply Hlen.
    + simpl. lia.
    + simpl. lia.
    + intros b e' Hin. apply list_elem_of_In in Hin.
      repeat (destruct Hin as [Hin | Hin];
              [injection Hin as <- <-; vm_compute; repeat split; discriminate
              |]).
      destruct Hin.
Defined.

Lemma train_generator_epochs_witness :
  exists e0 e1 : Engine Z Z,
    init Toy.params false Toy.train_h5 [] = Ok e0
    /\ exists st1,
         train_generator_start e0 = Ok (e1, st1)
         /\ epoch_len e1 = Some 3
         /\ train_chunks_copy st1 ≡ₚ train_chunks (loaded e0).
Proof.
  destruct (init (R := Z) (G := Z) Toy.params false Toy.train_h5 [])
    as [e0 | ex] eqn:Hinit; [| vm_compute in Hinit; discriminate].
  assert (Hbs : batch_size (loaded e0) = 2)
    by (vm_compute in Hinit; injection Hinit as <-; reflexivity).
  assert (HN : train_chunks_len (loaded e0) = 4)
    by (vm_compute in Hinit; injection Hinit as <-; reflexivity).
  destruct (train_generator_epochs e0) as [(e1 & st1 & Hs & Hel & _ & _ & _ & Hp) _].
  - rewrite Hbs. lia.
  - destruct (init_Ok _ _ _ _ _ Hinit) as (_ & _ & _ & _ & _ & _ & _ & _ & H & _).
    exact H.
  - exists e0, e1. split; [reflexivity |]. exists st1.
    split; [exact Hs |]. split; [| exact Hp].
    rewrite Hel, Hbs, HN. reflexivity.
Defined.

(** * Further properties of the methods *)

(** ** Segmenter: coverage, labels and the degenerate step *)

(** Every descriptor carries the label the segmenter was given. *)
Lemma generate_chunks_labels {Lbl : Type} (L begin end_ : Z) (lab : Lbl)
    (cs : list (Chunk Lbl)) :
  generate_chunks L begin end_ lab = Ok cs ->
  cs.*2 = replicate (length cs) lab.
Proof.
  unfold generate_chunks, arange. case_decide.
  - intros [= <-]. reflexivity.
  - case_decide; simpl; [discriminate |]. intros [= <-].
    rewrite <- !list_fmap_compose, !length_fmap.
    generalize (seqZ 0 (ceil_div (end_ - L - begin) (L / 2))).
    intros l. induction l as [| k l IH]; simpl; [reflexivity |].
    f_equal. exact IH.
Qed.

(** For a range longer than [L] the frames covered by the descriptors are
    those of [begin, end - t) for a tail [t] of 1 to [L // 2] frames: there
    is no gap between windows, and the last frame of the recording is in no
    window. *)
Theorem generate_chunks_coverage {Lbl : Type} (L begin end_ : Z) (lab : Lbl) :
  2 <= L -> end_ - begin > L ->
  exists cs t,
    generate_chunks L begin end_ lab = Ok cs
    /\ 1 <= t <= L / 2
    /\ forall f,
         (exists b e l, (b, e, l) ∈ cs /\ b <= f < e)
         <-> begin <= f < end_ - t.
Proof.
  intros HL Hlong.
  destruct (generate_chunks_gt L begin end_ lab HL Hlong) as (Hgc & Hn & Hk).
  set (n := ceil_div (end_ - L - begin) (L / 2)) in *.
  set (h := L / 2) in *.
  assert (Hh : 1 <= h) by (unfold h; apply Z.div_le_lower_bound; lia).
  assert (HhL : h <= L) by (unfold h; apply Z.div_le_upper_bound; lia).
  assert (Hlast : begin + (n - 1) * h < end_ - L) by (apply Hk; lia).
  assert (Hnext : ~ begin + n * h < end_ - L) by (rewrite <- Hk; lia).
  eexists _, (end_ - (begin + (n - 1) * h + L)).
  split; [exact Hgc |]. split; [nia |].
  intros f. split.
  - intros (b & e & l & Hin & Hf).
    apply list_elem_of_fmap in Hin as (k & Heq & Hin).
    injection Heq as -> -> ->. apply elem_of_seqZ in Hin.
    assert (k <= n - 1) by lia. nia.
  - intros Hf.
    set (k := Z.min ((f - begin) / h) (n - 1)).
    pose proof (Z.div_mod (f - begin) h ltac:(lia)) as Hdm.
    pose proof (Z.mod_pos_bound (f - begin) h ltac:(lia)) as Hm.
    assert (Hq : 0 <= (f - begin) / h) by (apply Z.div_pos; lia).
    exists (begin + k * h), (begin + k * h + L), lab. split.
    + apply list_elem_of_fmap. exists k. split; [reflexivity |].
      apply elem_of_seqZ. unfold k. lia.
    + unfold k. destruct (Z.min_spec ((f - begin) / h) (n - 1))
        as [[Hlt ->] | [Hge ->]]; nia.
Qed.

Lemma generate_chunks_coverage_witness :
  exists cs t,
    generate_chunks 4 0 10 tt = Ok cs
    /\ 1 <= t <= 4 / 2
    /\ forall f,
         (exists b e l, (b, e, l) ∈ cs /\ b <= f < e) <-> 0 <= f < 10 - t.
Proof. apply (generate_chunks_coverage 4 0 10 tt); lia. Defined.

(** With [L] equal to 0 or 1 the step [L // 2] is zero and every range
    longer than [L] makes the segmenter raise. *)
Theorem generate_chunks_zero_step {Lbl : Type} (L begin end_ : Z) (lab : Lbl) :
  0 <= L < 2 -> end_ - begin > L ->
  generate_chunks L begin end_ lab = Err ArangeError.
Proof.
  intros HL Hlong. unfold generate_chunks, arange.
  case_decide; [lia |].
  assert (L / 2 = 0) as -> by (apply Z.div_small; lia).
  reflexivity.
Qed.

Lemma generate_chunks_zero_step_witness :
  generate_chunks 1 0 3 tt = Err ArangeError.
Proof. apply (generate_chunks_zero_step 1 0 3 tt); lia. Defined.

(** ** Materializer: content of the rows *)

(** The rows built by the loop, descriptor by descriptor. *)
Lemma xy_loop_Forall2 {Lbl F : Type} (L : Z) (x_data : list F)
    (indices : list (Chunk Lbl)) xy :
  xy_loop L x_data indices = Ok xy ->
  Forall2 (fun row c => chunk_rows L x_data c.1.1 c.1.2 = Ok row)
    xy.1 indices.
Proof.
  revert xy. induction indices as [| [[b e] lab] rest IH]; intros xy; simpl.
  - intros [= <-]. constructor.
  - intros H. result_inv H. injection H as <-. simpl.
    constructor; [assumption |]. apply IH. reflexivity.
Qed.

(** The rows of a materialized batch, descriptor by descriptor. *)
Lemma generate_xy_batches_Forall2 {Lbl F : Type} (L : Z) (x_data : list F)
    (indices : list (Chunk Lbl)) xy :
  generate_xy_batches L x_data indices = Ok xy ->
  Forall2 (fun row c => chunk_rows L x_data c.1.1 c.1.2 = Ok row)
    xy.1 indices.
Proof.
  intros H. apply generate_xy_batches_loop in H as [H _].
  apply xy_loop_Forall2, H.
Qed.

(** The loop ends normally when every row can be built. *)
Lemma xy_loop_is_Ok {Lbl F : Type} (L : Z) (x_data : list F)
    (indices : list (Chunk Lbl)) :
  (forall c, c ∈ indices -> is_Ok (chunk_rows L x_data c.1.1 c.1.2)) ->
  is_Ok (xy_loop L x_data indices).
Proof.
  induction indices as [| [[b e] lab] rest IH]; intros Hall; simpl.
  - eexists. reflexivity.
  - destruct (Hall (b, e, lab)) as [row Hrow]; [apply elem_of_cons; by left |].
    simpl in Hrow. rewrite Hrow. simpl.
    destruct IH as [xy Hxy].
    { intros c Hc. apply Hall. apply elem_of_cons. by right. }
    rewrite Hxy. simpl. eexists. reflexivity.
Qed.

(** A frame of [reps] copies of [x] put end to end. *)
Lemma lookup_tile {A : Type} (n : nat) (x : list A) (j : nat) :
  (j < n * length x)%nat ->
  mjoin (replicate n x) !! j = x !! (j mod length x)%nat.
Proof.
  revert j. induction n as [| n IH]; intros j Hj; [lia |].
  change (mjoin (replicate (S n) x)) with (x ++ mjoin (replicate n x)).
  destruct (decide (j < length x)%nat) as [Hlt | Hge].
  - rewrite lookup_app_l by exact Hlt. rewrite Nat.mod_small by exact Hlt.
    reflexivity.
  - rewrite lookup_app_r by lia. rewrite IH by lia. f_equal.
    replace j with (j - length x + 1 * length x)%nat at 2 by lia.
    rewrite Nat.Div0.mod_add. reflexivity.
Qed.

(** A short recording is repeated cyclically: frame [j] of the row built
    for a descriptor inside the table is frame [begin + j mod (end - begin)]
    of the table, for every [j < L] (whatever the length of the range). *)
Theorem generate_xy_batches_cyclic {Lbl F : Type} (L : Z) (x_data : list F)
    (indices : list (Chunk Lbl)) xy (i : nat) (b e : Z) (lab : Lbl)
    (row : list F) (j : Z) :
  generate_xy_batches L x_data indices = Ok xy ->
  indices !! i = Some (b, e, lab) ->
  xy.1 !! i = Some row ->
  0 <= b -> 1 <= e - b -> e <= len x_data ->
  0 <= j < L ->
  row !! Z.to_nat j = x_data !! Z.to_nat (b + j mod (e - b)).
Proof.
  intros Hxy Hi Hrow Hb Hbe He Hj.
  apply generate_xy_batches_Forall2 in Hxy.
  destruct (Forall2_lookup_l _ _ _ _ _ Hxy Hrow) as (c & Hc & Hcr).
  pose proof (eq_trans (eq_sym Hc) Hi) as [= ->]. simpl in Hcr.
  destruct (chunk_rows_inside L x_data b e ltac:(lia) Hb Hbe He)
    as (row' & Hrow' & Hlen & Heq & Hne).
  rewrite Hcr in Hrow'. injection Hrow' as <-.
  assert (Hx : slice x_data b e
               = take (Z.to_nat (e - b)) (drop (Z.to_nat b) x_data))
    by (apply slice_inside; lia).
  assert (Hxl : length (slice x_data b e) = Z.to_nat (e - b)).
  { pose proof (length_slice_inside x_data b e Hb ltac:(lia) He) as Hl.
    unfold len in Hl. lia. }
  pose proof (Z.mod_pos_bound j (e - b) ltac:(lia)) as Hm.
  assert (Hslice : forall k : Z, 0 <= k < e - b ->
            slice x_data b e !! Z.to_nat k = x_data !! Z.to_nat (b + k)).
  { intros k Hk. rewrite Hx. rewrite lookup_take_lt by lia.
    rewrite lookup_drop. f_equal. lia. }
  destruct (decide (e - b = L)) as [HeqL | HneL].
  - rewrite (Heq HeqL). rewrite Z.mod_small by lia. apply Hslice. lia.
  - destruct (Hne HneL) as [Hreps ->].
    rewrite lookup_take_lt by lia.
    rewrite lookup_tile.
    + rewrite Hxl.
      replace (Z.to_nat j mod Z.to_nat (e - b))%nat
        with (Z.to_nat (j mod (e - b))).
      * apply Hslice. lia.
      * apply Nat2Z.inj. rewrite Nat2Z.inj_mod, !Z2Nat.id by lia.
        reflexivity.
    + rewrite Hxl. nia.
Qed.

Lemma generate_xy_batches_cyclic_witness :
  [10; 11; 12; 10] !! Z.to_nat 3
  = [10; 11; 12; 13; 14] !! Z.to_nat (0 + 3 mod (3 - 0)).
Proof.
  apply (generate_xy_batches_cyclic 4 [10; 11; 12; 13; 14] [(0, 3, 7)]
           ([[10; 11; 12; 10]], [7]) O 0 3 7 [10; 11; 12; 10] 3);
    try reflexivity; try lia.
  vm_compute. discriminate.
Defined.

(** No padding at the end of the table: a descriptor of length [L] that
    runs past the last frame gets the frames from [begin] to the end of the
    table, fewer than [L].  Alone in a batch the row is returned as it is;
    in a batch with a descriptor that lies inside the table, whose row has
    [L] frames, the rows have different lengths and [np.array] raises
    ValueError. *)
Theorem generate_xy_batches_past_end {Lbl F : Type} (L : Z) (x_data : list F)
    (b e : Z) (lab : Lbl) :
  1 <= L -> e - b = L -> 0 <= b -> len x_data < e ->
  let row := drop (Z.to_nat b) x_data in
  len row < L
  /\ generate_xy_batches L x_data [(b, e, lab)] = Ok ([row], [lab])
  /\ forall (indices : list (Chunk Lbl)) b' e' lab',
       (b, e, lab) ∈ indices -> (b', e', lab') ∈ indices ->
       0 <= b' -> 1 <= e' - b' -> e' <= len x_data ->
       (forall c, c ∈ indices -> is_Ok (chunk_rows L x_data c.1.1 c.1.2)) ->
       generate_xy_batches L x_data indices = Err ValueError.
Proof.
  intros HL0 HL Hb He row.
  assert (Hs : slice x_data b e = row).
  { rewrite slice_nonneg by lia. apply take_ge. unfold row.
    rewrite length_drop. unfold len in He. lia. }
  assert (Hrow : chunk_rows L x_data b e = Ok row).
  { unfold chunk_rows. case_decide; [| lia]. rewrite Hs. reflexivity. }
  assert (Hlen : len row < L).
  { unfold len in *. subst row. rewrite length_drop. lia. }
  split; [exact Hlen |]. split.
  - unfold generate_xy_batches. simpl. rewrite Hrow. reflexivity.
  - intros indices b' e' lab' Hin Hin' Hb' Hbe' He' Hall.
    destruct (xy_loop_is_Ok L x_data indices Hall) as [xy Hxy].
    pose proof (xy_loop_Forall2 _ _ _ _ Hxy) as Hrows.
    apply list_elem_of_lookup_1 in Hin as [i Hi].
    apply list_elem_of_lookup_1 in Hin' as [i' Hi'].
    destruct (Forall2_lookup_r _ _ _ _ _ Hrows Hi) as (r & Hr & Hcr).
    destruct (Forall2_lookup_r _ _ _ _ _ Hrows Hi') as (r' & Hr' & Hcr').
    simpl in Hcr, Hcr'. rewrite Hrow in Hcr. injection Hcr as <-.
    destruct (chunk_rows_inside L x_data b' e' ltac:(lia) Hb' Hbe' He')
      as (r0 & Hr0 & Hlen0 & _).
    rewrite Hcr' in Hr0. injection Hr0 as <-.
    unfold generate_xy_batches. rewrite Hxy. simpl.
    rewrite (np_array_ragged xy.1 row r'); [reflexivity | | |].
    + eapply list_elem_of_lookup_2. exact Hr.
    + eapply list_elem_of_lookup_2. exact Hr'.
    + unfold len in *. lia.
Qed.

Lemma generate_xy_batches_past_end_witness :
  generate_xy_batches 4 [10; 11; 12; 13; 14] [(3, 7, 7)]
  = Ok ([[13; 14]], [7])
  /\ generate_xy_batches 4 [10; 11; 12; 13; 14] [(3, 7, 7); (0, 4, 8)]
     = Err ValueError.
Proof.
  destruct (generate_xy_batches_past_end 4 [10; 11; 12; 13; 14] 3 7 7)
    as (_ & Hone & Htwo); try reflexivity; try lia.
  split; [exact Hone |].
  apply (Htwo [(3, 7, 7); (0, 4, 8)] 0 4 8).
  - apply elem_of_cons. by left.
  - apply elem_of_cons. right. apply elem_of_cons. by left.
  - lia.
  - lia.
  - vm_compute. discriminate.
  - intros c Hc. apply list_elem_of_In in Hc.
    destruct Hc as [<- | [<- | []]]; eexists; vm_compute; reflexivity.
Defined.

(** ** Constructor: the split, the pool and the failures *)

Lemma elem_of_enumerate {A : Type} (l : list A) (i : Z) (a : A) :
  (i, a) ∈ enumerate l <-> 0 <= i /\ l !! Z.to_nat i = Some a.
Proof.
  rewrite list_elem_of_lookup. split.
  - intros [k Hk]. apply enumerate_lookup in Hk as [Hi Ha]. simpl in *.
    subst i. rewrite Nat2Z.id. split; [lia | exact Ha].
  - intros [Hi Ha]. exists (Z.to_nat i). unfold enumerate.
    apply lookup_zip_with_Some. exists i, a. split; [reflexivity |].
    split; [| exact Ha]. apply lookup_seqZ.
    apply lookup_lt_Some in Ha. unfold len. lia.
Qed.

Lemma enumerate_sorted {A : Type} (l : list A) :
  StronglySorted (fun p q : Z * A => p.1 < q.1) (enumerate l).
Proof.
  unfold enumerate, len. generalize 0.
  induction l as [| a l IH]; intros k; [constructor |].
  change (length (a :: l)) with (S (length l)).
  rewrite seqZ_cons by lia.
  replace (Z.pred (Z.of_nat (S (length l)))) with (Z.of_nat (length l))
    by lia.
  change (zip (k :: ?ks) (a :: l)) with ((k, a) :: zip ks l).
  constructor; [apply IH |].
  apply Forall_forall. intros [i b] Hin. apply elem_of_zip_l in Hin.
  apply elem_of_seqZ in Hin. simpl. lia.
Qed.

Lemma StronglySorted_filter {A : Type} (Rel : relation A) (P : A -> Prop)
    `{!forall a, Decision (P a)} (l : list A) :
  StronglySorted Rel l -> StronglySorted Rel (filter P l).
Proof.
  induction 1 as [| a l Hs IH Hall]; [constructor |].
  rewrite filter_cons. case_decide; [| exact IH].
  constructor; [exact IH |].
  apply Forall_forall. intros b Hb. apply list_elem_of_filter in Hb as [_ Hb].
  rewrite Forall_forall in Hall. apply Hall, Hb.
Qed.

(** The recordings selected from the fold column by a decidable test on
    the fold: their indices, in ascending order. *)
Lemma filter_folds (P : Z -> Prop) `{!forall f, Decision (P f)}
    (folds : list Z) :
  let sel := (filter (fun p : Z * Z => P p.2) (enumerate folds)).*1 in
  (forall i, i ∈ sel <->
             exists f, 0 <= i /\ folds !! Z.to_nat i = Some f /\ P f)
  /\ StronglySorted Z.lt sel.
Proof.
  intros sel. split.
  - intros i. unfold sel. rewrite list_elem_of_fmap. split.
    + intros ([i' f] & -> & Hin). apply list_elem_of_filter in Hin as [HP Hin].
      apply elem_of_enumerate in Hin as [Hi Hf]. exists f. auto.
    + intros (f & Hi & Hf & HP). exists (i, f). split; [reflexivity |].
      apply list_elem_of_filter. split; [exact HP |].
      apply elem_of_enumerate. auto.
  - unfold sel.
    apply (StronglySorted_fmap fst (fun p q : Z * Z => p.1 < q.1)).
    + auto.
    + apply StronglySorted_filter, enumerate_sorted.
Qed.

Section Constructor.
Context {R G : Type} `{!FloatOps R} `{!RandomGen G}.

(** The index arrays a successful construction has stored. *)
Lemma init_indices (params : HParams.t) (validate_ : bool) (hdf5 : H5File R)
    (folds : list Z) (e : Engine R G) :
  init params validate_ hdf5 folds = Ok e ->
  train_audio_indices e
  = (if validate_
     then (filter (fun p : Z * Z => p.2 ≠ HParams.holdout_fold params)
             (enumerate folds)).*1
     else seqZ 0 (len (h5_filename hdf5)))
  /\ validation_audio_indices e
     = (if validate_
        then IntArray
               (filter (fun p : Z * Z => p.2 = HParams.holdout_fold params)
                  (enumerate folds)).*1
        else EmptyFloatArray)
  /\ train_audio_indices_len (loaded e) = len (train_audio_indices e)
  /\ validation_audio_indices_len (loaded e)
     = len (index_list (validation_audio_indices e))
  /\ eval_audios_number (loaded e) = HParams.eval_audios_number params
  /\ begin_end_indices (loaded e) = h5_begin_end_ind hdf5
  /\ manually_verified (loaded e) = h5_manually_verified hdf5.
Proof.
  intros H. unfold init, init_from in H. result_inv H. injection H as <-.
  split_and!; reflexivity.
Qed.

(** The fold split: the validation indices are the recordings of the
    holdout fold, the training indices are all the others, both in
    ascending order; together they are the indices of the fold column, and
    the validation part is not empty. *)
Theorem init_fold_split (params : HParams.t) (hdf5 : H5File R)
    (folds : list Z) (e : Engine R G) :
  init params true hdf5 folds = Ok e ->
  let h := HParams.holdout_fold params in
  exists v,
    validation_audio_indices e = IntArray v
    /\ v <> []
    /\ (forall i, i ∈ train_audio_indices e <->
                  exists f, 0 <= i /\ folds !! Z.to_nat i = Some f /\ f <> h)
    /\ (forall i, i ∈ v <->
                  exists f, 0 <= i /\ folds !! Z.to_nat i = Some f /\ f = h)
    /\ StronglySorted Z.lt (train_audio_indices e)
    /\ StronglySorted Z.lt v
    /\ v ++ train_audio_indices e ≡ₚ seqZ 0 (len folds).
Proof.
  intros Hinit h.
  destruct (init_indices _ _ _ _ _ Hinit) as (Ht & Hv & _ & Hvl & _).
  destruct (init_Ok _ _ _ _ _ Hinit)
    as (_ & _ & _ & _ & _ & _ & _ & _ & _ & Hne & _).
  eexists. split; [exact Hv |].
  destruct (filter_folds (fun f => f = h) folds) as [Hvm Hvs].
  destruct (filter_folds (fun f => f <> h) folds) as [Htm Hts].
  rewrite Ht. split_and!.
  - intros Hnil. apply (Hne eq_refl). rewrite Hvl, Hv. simpl.
    exact (f_equal len Hnil).
  - exact Htm.
  - exact Hvm.
  - exact Hts.
  - exact Hvs.
  - rewrite <- fmap_app.
    pose proof (filter_app_complement (fun p : Z * Z => p.2 = h)
                  (enumerate folds)) as Hp.
    etrans; [apply fmap_Permutation, Hp |].
    unfold enumerate. rewrite fst_zip; [reflexivity |].
    rewrite length_seqZ. unfold len. lia.
Qed.

(** Construction fails with [ValueError] when there is no training
    recording: no file at all without a split, or every recording in the
    holdout fold with one ([np.concatenate] is given no array). *)
Theorem init_no_training_data (params : HParams.t) (validate_ : bool)
    (hdf5 : H5File R) (folds : list Z) :
  (validate_ = false /\ h5_filename hdf5 = [])
  \/ (validate_ = true /\ folds <> []
      /\ forall f, f ∈ folds -> f = HParams.holdout_fold params) ->
  init params validate_ hdf5 folds = Err ValueError.
Proof.
  intros Hcase. unfold init, init_from.
  destruct (train_labels_indexed (h5_label hdf5)) as [ys ->].
  unfold mbind at 1, result_bind at 1. cbv beta iota.
  destruct Hcase as [[-> Hnil] | (-> & Hne & Hall)].
  - rewrite Hnil. reflexivity.
  - assert (Ht : filter (fun p : Z * Z => p.2 ≠ HParams.holdout_fold params)
                   (enumerate folds) = []).
    { apply elem_of_nil_inv. intros [i f] Hin.
      apply list_elem_of_filter in Hin as [Hneq Hin].
      apply elem_of_zip_r in Hin. exact (Hneq (Hall f Hin)). }
    rewrite Ht.
    assert (Hv : filter (fun p : Z * Z => p.2 = HParams.holdout_fold params)
                   (enumerate folds) <> []).
    { destruct folds as [| f0 folds']; [contradiction |].
      intros Hnil.
      assert (Hin : (0, f0) ∈ enumerate (f0 :: folds'))
        by (apply elem_of_enumerate; split; [lia | reflexivity]).
      eapply filter_nil_not_elem_of; [exact Hnil | | exact Hin].
      simpl. apply Hall. apply elem_of_cons. by left. }
    simpl. unfold truediv_check. case_decide as Hz; [| reflexivity].
    exfalso. apply Hv. unfold len in Hz. rewrite length_fmap in Hz.
    apply length_zero_iff_nil. lia.
Qed.

End Constructor.

Lemma init_fold_split_witness :
  exists (e : Engine Z Z) v,
    init Toy.params true Toy.train_h5 [0; 1; 0] = Ok e
    /\ validation_audio_indices e = IntArray v
    /\ v ++ train_audio_indices e ≡ₚ seqZ 0 (len [0; 1; 0]).
Proof.
  destruct (init (R := Z) (G := Z) Toy.params true Toy.train_h5 [0; 1; 0])
    as [e | ex] eqn:Hinit; [| vm_compute in Hinit; discriminate].
  destruct (init_fold_split Toy.params Toy.train_h5 [0; 1; 0] e Hinit)
    as (v & Hv & _ & _ & _ & _ & _ & Hp).
  exists e, v. split; [reflexivity |]. split; [exact Hv | exact Hp].
Defined.

Lemma init_no_training_data_witness :
  init (R := Z) (G := Z) Toy.params true Toy.train_h5 [1; 1; 1]
  = Err ValueError.
Proof.
  apply (init_no_training_data Toy.params true Toy.train_h5 [1; 1; 1]).
  right. split; [reflexivity |]. split; [discriminate |].
  intros f Hf. apply list_elem_of_In in Hf.
  destruct Hf as [<- | [<- | [<- | []]]]; reflexivity.
Defined.

Lemma for_each_app_Err {A B : Type} (f : A -> result B) (l1 l2 : list A)
    (a : A) (ex : exn) :
  (forall a', a' ∈ l1 -> is_Ok (f a')) -> f a = Err ex ->
  for_each f (l1 ++ a :: l2) = Err ex.
Proof.
  intros Hok Ha. induction l1 as [| a1 l1 IH]; simpl.
  - rewrite Ha. reflexivity.
  - destruct (Hok a1) as [b ->]; [apply elem_of_cons; by left |]. simpl.
    rewrite IH; [reflexivity |].
    intros a' Ha'. apply Hok. apply elem_of_cons. by right.
Qed.

Lemma index_is_Ok {A : Type} (l : list A) (i : Z) :
  is_Ok (index l i) <-> - len l <= i < len l.
Proof.
  unfold index. case_decide as Hr.
  - split; [intros _; exact Hr | intros _].
    destruct (lookup_lt_is_Some_2 l
                (Z.to_nat (if decide (i < 0) then i + len l else i)))
      as [a Ha].
    { unfold len in *. case_decide; lia. }
    rewrite Ha. eexists. reflexivity.
  - split; [intros [a Ha]; discriminate | intros H; contradiction].
Qed.

Lemma index_Err {A : Type} (l : list A) (i : Z) (ex : exn) :
  index l i = Err ex -> ex = IndexError.
Proof.
  unfold index. case_decide; [| congruence].
  destruct (l !! _); simpl; congruence.
Qed.

(** Indexing an array with [0 .. n-1] when it has fewer than [n] items. *)
Lemma take_indices_short {A : Type} (a : list A) (n : Z) :
  len a < n -> take_indices a (seqZ 0 n) = Err IndexError.
Proof.
  intros Hn. unfold take_indices.
  assert (H0 : 0 <= len a) by (unfold len; lia).
  replace n with (len a + (n - len a)) by lia.
  rewrite seqZ_app by lia.
  rewrite (seqZ_cons (0 + len a)) by lia.
  apply for_each_app_Err.
  - intros i Hi. apply elem_of_seqZ in Hi. apply index_is_Ok. lia.
  - destruct (index a (0 + len a)) as [v | ex] eqn:Hidx.
    + assert (Hok : is_Ok (index a (0 + len a))) by (eexists; exact Hidx).
      apply index_is_Ok in Hok. lia.
    + apply index_Err in Hidx. subst. reflexivity.
Qed.

Section ConstructorBounds.
Context {R G : Type} `{!FloatOps R} `{!RandomGen G}.

(** Without a split the training indices are [0 .. files_number - 1],
    counted on the file names: when the offset table has fewer rows than
    there are file names, construction fails with [IndexError]. *)
Theorem init_short_offsets (params : HParams.t) (hdf5 : H5File R)
    (folds : list Z) :
  len (h5_begin_end_ind hdf5) < len (h5_filename hdf5) ->
  init (G := G) params false hdf5 folds = Err IndexError.
Proof.
  intros Hshort. unfold init, init_from.
  destruct (train_labels_indexed (h5_label hdf5)) as [ys ->].
  unfold mbind at 1, result_bind at 1. cbv beta iota.
  unfold mbind at 1, result_bind at 1. cbv beta iota.
  rewrite take_indices_short by exact Hshort. reflexivity.
Qed.

End ConstructorBounds.

Lemma init_short_offsets_witness :
  init (R := Z) (G := Z) Toy.params false
    {| h5_label := ["dog"; "cat"]%string;
       h5_filename := ["a.wav"; "b.wav"]%string;
       h5_feature := [[1]; [2]; [3]];
       h5_feature_channels := 1;
       h5_manually_verified := [1; 1];
       h5_begin_end_ind := [(0, 3)] |} []
  = Err IndexError.
Proof. apply init_short_offsets. vm_compute. reflexivity. Defined.

(** ** Validation generator: limit, selection and labels *)

Lemma yield_each_length_le {A Y : Type} (body : A -> result Y) (l : list A) :
  (length (yield_each body l).1 <= length l)%nat.
Proof.
  induction l as [| a l IH]; simpl; [lia |].
  destruct (body a); simpl; lia.
Qed.

Lemma yield_each_elem_of {A Y : Type} (body : A -> result Y) (l : list A)
    (v : Y) :
  v ∈ (yield_each body l).1 -> exists a, a ∈ l /\ body a = Ok v.
Proof.
  intros Hv. apply list_elem_of_lookup_1 in Hv as [k Hk].
  apply yield_each_lookup in Hk as (a & Ha & Hb).
  exists a. split; [eapply list_elem_of_lookup_2; exact Ha | exact Hb].
Qed.

Lemma for_each_Err_class {A B : Type} (f : A -> result B) (l : list A)
    (cls : exn) :
  (forall a ex, f a = Err ex -> ex = cls) ->
  (exists a, a ∈ l /\ ~ is_Ok (f a)) ->
  for_each f l = Err cls.
Proof.
  intros Hcls. induction l as [| a l IH]; intros (a' & Hin & Hbad).
  - apply elem_of_nil in Hin. contradiction.
  - simpl. destruct (f a) as [b | ex] eqn:Hfa; simpl.
    + rewrite IH; [reflexivity |].
      apply elem_of_cons in Hin as [-> | Hin].
      * exfalso. apply Hbad. eexists. exact Hfa.
      * exists a'. split; assumption.
    + rewrite (Hcls a ex Hfa). reflexivity.
Qed.

Section ValidationMore.
Context {R G : Type} `{!FloatOps R} `{!RandomGen G}.

Lemma validation_item_loaded (e1 e2 : Engine R G) (aind : Z) :
  loaded e1 = loaded e2 -> validation_item e1 aind = validation_item e2 aind.
Proof. intros H. unfold validation_item. rewrite H. reflexivity. Qed.

(** The loop with its [break] is the plain loop over the first
    [eval_audios_number] items; a negative limit is never met. *)
Lemma validation_loop_limit (e : Engine R G) (l : list Z) (k : Z) :
  let n := eval_audios_number (loaded e) in
  validation_loop e (zip (seqZ k (len l)) l)
  = yield_each (validation_item e)
      (if decide (k <= n) then take (Z.to_nat (n - k)) l else l).
Proof.
  intros n. revert k. induction l as [| a l IH]; intros k.
  - simpl. case_decide; [rewrite take_nil |]; reflexivity.
  - unfold len. change (length (a :: l)) with (S (length l)).
    rewrite seqZ_cons by lia.
    replace (Z.pred (Z.of_nat (S (length l)))) with (len l)
      by (unfold len; lia).
    change (zip (k :: ?ks) (a :: l)) with ((k, a) :: zip ks l).
    cbn [validation_loop]. fold n.
    replace (Z.succ k) with (k + 1) by lia. rewrite IH.
    destruct (decide (k = n)) as [-> | Hne].
    + case_decide; [| lia]. rewrite Z.sub_diag. reflexivity.
    + destruct (decide (k <= n)) as [Hle | Hgt].
      * destruct (decide (k + 1 <= n)); [| lia].
        replace (Z.to_nat (n - k)) with (S (Z.to_nat (n - (k + 1)))) by lia.
        reflexivity.
      * destruct (decide (k + 1 <= n)); [lia |]. reflexivity.
Qed.

(** The recordings kept by the [manually_verified_only] filter. *)
Lemma verified_only_Ok (e : Engine R G) (l : list Z) (a : IndexArray) :
  verified_only e (IntArray l) = Ok a ->
  exists v, a = IntArray v
    /\ v `sublist_of` l
    /\ forall i, i ∈ v <->
         i ∈ l /\ index (manually_verified (loaded e)) i = Ok 1.
Proof.
  unfold verified_only, take_indices. intros H. result_inv H.
  injection H as <-. eexists. split; [reflexivity |].
  rename E into Hf. apply for_each_Forall2 in Hf.
  induction Hf as [| i f l fl Hi Hrest IH]; simpl.
  - split; [constructor |]. intros i. rewrite elem_of_nil. tauto.
  - destruct IH as [Hsub Hmem]. rewrite filter_cons. simpl.
    case_decide as Hf1.
    + subst f. split; [constructor; exact Hsub |].
      intros j. rewrite fmap_cons, !elem_of_cons, Hmem. simpl.
      split; [intros [-> | [? ?]]; auto | intros [[-> | ?] ?]; auto].
    + split; [constructor; exact Hsub |].
      intros j. rewrite elem_of_cons, Hmem.
      split; [intros [? ?]; auto |].
      intros [[-> | ?] Hj]; [| auto].
      rewrite Hi in Hj. injection Hj as ->. contradiction.
Qed.

(** What one pass of the generator iterates over: a list [l'] that is a
    permutation of the selected recordings (the set of the mode, or its
    verified part), under the engine the pass leaves. *)
Lemma validation_generator_trace (e : Engine R G) (mode : string)
    (manually_verified_only shuffle_ : bool) (sel : list Z) :
  let r0 := if decide (mode = "train"%string) then SelfTrain
            else SelfValidation in
  (if manually_verified_only
   then verified_only e (deref e r0) = Ok (IntArray sel)
   else sel = index_list (deref e r0)) ->
  exists l',
    l' ≡ₚ sel
    /\ (shuffle_ = false -> l' = sel)
    /\ (validation_generator e mode manually_verified_only shuffle_).2
       = yield_each (validation_item e)
           (if decide (0 <= eval_audios_number (loaded e))
            then take (Z.to_nat (eval_audios_number (loaded e))) l'
            else l').
Proof.
  intros r0 Hsel.
  assert (Hloop : forall (e1 : Engine R G) l',
            loaded e1 = loaded e ->
            validation_loop e1 (enumerate l')
            = yield_each (validation_item e)
                (if decide (0 <= eval_audios_number (loaded e))
                 then take (Z.to_nat (eval_audios_number (loaded e))) l'
                 else l')).
  { intros e1 l' Hld. unfold enumerate. rewrite validation_loop_limit.
    unfold validation_item. rewrite Hld, Z.sub_0_r. reflexivity. }
  unfold validation_generator. subst r0.
  destruct manually_verified_only.
  - rewrite Hsel. simpl. destruct shuffle_; simpl.
    + eexists. split; [apply shuffle_Permutation |].
      split; [discriminate |]. apply Hloop. reflexivity.
    + exists sel. split; [reflexivity |]. split; [reflexivity |].
      apply Hloop. reflexivity.
  - destruct shuffle_.
    + subst sel. destruct (decide (mode = "train"%string)); simpl.
      * eexists. split; [apply shuffle_Permutation |].
        split; [discriminate |]. apply Hloop. reflexivity.
      * destruct (validation_audio_indices e) as [v |] eqn:Hv; simpl.
        -- eexists. split; [apply shuffle_Permutation |].
           split; [discriminate |]. apply Hloop. reflexivity.
        -- exists []. split; [reflexivity |].
           split; [discriminate |].
           case_decide; [rewrite take_nil |]; reflexivity.
    + exists sel. split; [reflexivity |]. split; [reflexivity |].
      subst sel. simpl. apply Hloop. reflexivity.
Qed.

(** The parts of one yielded value. *)
Lemma validation_item_Ok (e : Engine R G) (aind : Z) v :
  validation_item e aind = Ok v ->
  index (y (loaded e)) aind = Ok v.2
  /\ v.1.2 = replicate (length v.1.1) v.2
  /\ is_Ok (index (begin_end_indices (loaded e)) aind).
Proof.
  unfold validation_item. intros H. result_inv H. injection H as <-. simpl.
  split; [reflexivity |].
  match goal with
  | Hgc : generate_chunks _ _ _ _ = Ok ?cs,
    Hxy : generate_xy_batches _ _ ?cs = Ok ?xy,
    Hn : normalize _ _ _ _ = Ok _ |- _ =>
      apply generate_chunks_labels in Hgc;
      apply generate_xy_batches_labels in Hxy as [Hlab Hrows];
      apply normalize_inv in Hn;
      rewrite Hlab, Hgc, Hn, length_fmap, Hrows
  end.
  split; [reflexivity |]. eexists. reflexivity.
Qed.

(** The number of values one pass yields is bounded by the limit
    [eval_audios_number] (when it is not negative) and by the number of
    selected recordings; a pass that no exception ended has yielded
    [min (eval_audios_number, selected)] values, or all of them under a
    negative limit. *)
Theorem validation_generator_count (e : Engine R G) (mode : string)
    (manually_verified_only shuffle_ : bool) (sel : list Z) :
  let n := eval_audios_number (loaded e) in
  let r0 := if decide (mode = "train"%string) then SelfTrain
            else SelfValidation in
  (if manually_verified_only
   then verified_only e (deref e r0) = Ok (IntArray sel)
   else sel = index_list (deref e r0)) ->
  let tr := (validation_generator e mode manually_verified_only shuffle_).2 in
  (length tr.1 <= length sel)%nat
  /\ (0 <= n -> Z.of_nat (length tr.1) <= n)
  /\ (tr.2 = None ->
      Z.of_nat (length tr.1)
      = if decide (0 <= n) then Z.min n (len sel) else len sel).
Proof.
  intros n r0 Hsel tr.
  destruct (validation_generator_trace e mode manually_verified_only
              shuffle_ sel Hsel) as (l' & Hperm & _ & Htr).
  subst tr. rewrite Htr. fold n.
  pose proof (Permutation_length Hperm) as Hlen.
  set (items := if decide (0 <= n) then take (Z.to_nat n) l' else l').
  pose proof (yield_each_length_le (validation_item e) items) as Hle.
  assert (Hitems : Z.of_nat (length items)
                   = if decide (0 <= n) then Z.min n (len sel) else len sel).
  { subst items. unfold len. case_decide; [rewrite length_take |]; lia. }
  split_and!.
  - subst items. case_decide; [rewrite length_take in Hle |]; lia.
  - intros Hn. case_decide; [lia | contradiction].
  - intros Hnone. rewrite (yield_each_complete _ _ Hnone). exact Hitems.
Qed.

(** Every value a pass yields comes from a recording of the selected set:
    [y] is its label index, [y_batch] repeats [y] once per chunk of
    [x_batch]; under [manually_verified_only] the recording's flag is 1.
    Without shuffling the k-th value comes from the k-th selected
    recording. *)
Theorem validation_generator_yields (e : Engine R G) (mode : string)
    (manually_verified_only shuffle_ : bool) (sel : list Z) :
  let r0 := if decide (mode = "train"%string) then SelfTrain
            else SelfValidation in
  (if manually_verified_only
   then verified_only e (deref e r0) = Ok (IntArray sel)
   else sel = index_list (deref e r0)) ->
  let tr := (validation_generator e mode manually_verified_only shuffle_).2 in
  (forall v, v ∈ tr.1 ->
     exists aind,
       aind ∈ index_list (deref e r0)
       /\ validation_item e aind = Ok v
       /\ index (y (loaded e)) aind = Ok v.2
       /\ v.1.2 = replicate (length v.1.1) v.2
       /\ (manually_verified_only = true ->
           index (manually_verified (loaded e)) aind = Ok 1))
  /\ (shuffle_ = false ->
      forall k v, tr.1 !! k = Some v ->
        exists aind, sel !! k = Some aind /\ validation_item e aind = Ok v).
Proof.
  intros r0 Hsel tr.
  destruct (validation_generator_trace e mode manually_verified_only
              shuffle_ sel Hsel) as (l' & Hperm & Hsame & Htr).
  subst tr. rewrite Htr.
  set (n := eval_audios_number (loaded e)).
  assert (Hselin : forall aind, aind ∈ sel ->
            aind ∈ index_list (deref e r0)
            /\ (manually_verified_only = true ->
                index (manually_verified (loaded e)) aind = Ok 1)).
  { intros aind Hin. destruct manually_verified_only.
    - destruct (deref e r0) as [l |] eqn:Hd; [| discriminate Hsel].
      apply verified_only_Ok in Hsel as (v & [= <-] & _ & Hmem).
      apply Hmem in Hin as [Hin Hflag]. simpl. auto.
    - subst sel. split; [exact Hin | discriminate]. }
  split.
  - intros v Hv. apply yield_each_elem_of in Hv as (aind & Hin & Hit).
    assert (Hin' : aind ∈ sel).
    { rewrite <- Hperm. case_decide; [| exact Hin].
      apply elem_of_take in Hin as (i & Hi & _).
      eapply list_elem_of_lookup_2. exact Hi. }
    destruct (Hselin aind Hin') as [Hmode Hflag].
    destruct (validation_item_Ok e aind v Hit) as (Hy & Hrep & _).
    exists aind. auto 10.
  - intros Hsh k v Hk. rewrite (Hsame Hsh) in Hk.
    apply yield_each_lookup in Hk as (aind & Hl & Hit).
    exists aind. split; [| exact Hit].
    case_decide; [| exact Hl].
    apply lookup_take_Some in Hl as [Hl _]. exact Hl.
Qed.

(** Under [manually_verified_only], a recording index outside the flag
    array ends the pass with [IndexError] before anything is yielded, and
    the engine is left as it was. *)
Theorem validation_generator_flags_out_of_range (e : Engine R G)
    (mode : string) (shuffle_ : bool) (l : list Z) (i : Z) :
  deref e (if decide (mode = "train"%string) then SelfTrain
           else SelfValidation) = IntArray l ->
  i ∈ l ->
  ~ (- len (manually_verified (loaded e)) <= i
     < len (manually_verified (loaded e))) ->
  validation_generator e mode true shuffle_ = (e, ([], Some IndexError)).
Proof.
  intros Hd Hin Hout. unfold validation_generator. rewrite Hd.
  unfold verified_only, take_indices.
  rewrite (for_each_Err_class _ l IndexError).
  - reflexivity.
  - intros a ex. apply index_Err.
  - exists i. split; [exact Hin |]. rewrite index_is_Ok. exact Hout.
Qed.

(** An engine constructed without a split holds no validation recording:
    a pass in validation mode (any mode other than ['train']) over all
    recordings yields nothing and raises nothing. *)
Theorem validation_generator_no_split (params : HParams.t) (hdf5 : H5File R)
    (folds : list Z) (e : Engine R G) (mode : string) (shuffle_ : bool) :
  init params false hdf5 folds = Ok e ->
  mode <> "train"%string ->
  (validation_generator e mode false shuffle_).2 = ([], None).
Proof.
  intros Hinit Hmode.
  destruct (init_indices _ _ _ _ _ Hinit) as (_ & Hv & _).
  destruct (validation_generator_trace e mode false shuffle_ []) as
    (l' & Hperm & _ & ->).
  - case_decide; [contradiction |]. simpl. rewrite Hv. reflexivity.
  - apply Permutation_nil_r in Hperm. subst l'.
    case_decide; [rewrite take_nil |]; reflexivity.
Qed.

End ValidationMore.

Section TrainingMore.
Context {R G : Type} `{!FloatOps R} `{!RandomGen G}.

(** On well-formed data the training stream never stops: for every [n]
    the first [n] batches are yielded without an exception, and each has
    one label per chunk, between 1 and [batch_size] chunks, and exactly
    [L] frames in every chunk. *)
Theorem train_generator_well_formed (params : HParams.t) (validate_ : bool)
    (hdf5 : H5File R) (folds : list Z) (e0 : Engine R G) (n : nat) :
  init params validate_ hdf5 folds = Ok e0 ->
  2 <= HParams.input_frames_number params ->
  1 <= HParams.batch_size params ->
  (forall b e', (b, e') ∈ h5_begin_end_ind hdf5 ->
     0 <= b /\ 1 <= e' - b /\ e' <= len (h5_feature hdf5)) ->
  is_Ok (train_generator n e0).2
  /\ length (train_generator n e0).1 = n
  /\ Forall (batch_shape (HParams.input_frames_number params)
               (HParams.batch_size params))
       (train_generator n e0).1.
Proof. apply init_train_generator_shape. Qed.

Lemma train_batches_app (a b : nat) (e : Engine R G) (st : TrainLocals) :
  train_batches (a + b) e st
  = let r := train_batches a e st in
    let r' := train_batches b r.2.1 r.2.2 in
    (r.1 ++ r'.1, r'.2).
Proof.
  revert e st. induction a as [| a IH]; intros e st.
  - simpl. destruct (train_batches b e st). reflexivity.
  - cbn [Nat.add train_batches].
    destruct (train_select e st) as [[e1 st1] bi]. rewrite IH. reflexivity.
Qed.

(** [epoch_len] against the epoch counter: after [epoch_len - 1] turns of
    the loop the counter is still 1; after [epoch_len] turns it is 2 when
    the batch size divides the size of the pool (the last of these batches
    was already cut from the reshuffled copy) and 1 otherwise. *)
Theorem train_generator_epoch_len_count (e0 : Engine R G) :
  let N := train_chunks_len (loaded e0) in
  let bs := batch_size (loaded e0) in
  1 <= bs -> 1 <= N -> N = len (train_chunks (loaded e0)) ->
  exists e1 st1 q,
    train_generator_start e0 = Ok (e1, st1)
    /\ epoch_len e1 = Some q
    /\ epoch (train_batches (Z.to_nat (q - 1)) e1 st1).2.1 = Some 1
    /\ epoch (train_batches (Z.to_nat q) e1 st1).2.1
       = Some (if decide (N mod bs = 0) then 2 else 1).
Proof.
  intros N bs Hbs HN1 HN.
  unfold train_generator_start, floordiv.
  change (loaded (set_train_rand_generator ?g e0)) with (loaded e0).
  fold bs N. case_decide; [lia |]. cbn [mbind result_bind].
  set (sh := shuffle (train_rand_generator e0) (train_chunks (loaded e0))).
  set (e1 := set_epoch _ _).
  eexists e1, _, (N / bs + 1). split; [reflexivity |].
  split; [reflexivity |].
  pose proof (Z.div_mod N bs ltac:(lia)) as Hdm.
  pose proof (Z.mod_pos_bound N bs ltac:(lia)) as Hm.
  assert (Hq : 0 <= N / bs) by (apply Z.div_pos; lia).
  pose proof (train_batches_inside (Z.to_nat (N / bs)) e1 sh.1 0) as Hin.
  change (loaded e1) with (loaded e0) in Hin. fold bs N in Hin.
  cbv zeta in Hin. change (0 * bs) with 0 in Hin.
  specialize (Hin Hbs ltac:(lia)).
  assert (Hcond : Z.to_nat (N / bs) <> O ->
            (0 + Z.of_nat (Z.to_nat (N / bs)) - 1) * bs < N) by (intros; nia).
  specialize (Hin Hcond).
  replace (N / bs + 1 - 1) with (N / bs) by lia.
  split; [rewrite Hin; reflexivity |].
  replace (Z.to_nat (N / bs + 1)) with (Z.to_nat (N / bs) + 1)%nat by lia.
  rewrite train_batches_app, Hin. cbn [fst snd train_batches].
  replace ((0 + Z.of_nat (Z.to_nat (N / bs))) * bs) with (N / bs * bs) by lia.
  case_decide as Hmod.
  - rewrite train_select_rollover
      by (cbn [batch_begin_ind]; change (loaded e1) with (loaded e0);
          fold N; nia).
    reflexivity.
  - rewrite train_select_inside
      by (cbn [batch_begin_ind]; change (loaded e1) with (loaded e0);
          fold N; nia).
    reflexivity.
Qed.

(** What the turns of the loop leave unchanged. *)
Lemma train_pull_frame (n : nat) (e : Engine R G) (st : TrainLocals)
    (e' : Engine R G) (st' : TrainLocals) :
  (train_pull n e st).2 = Ok (e', st') ->
  loaded e' = loaded e
  /\ validation_rand_generator e' = validation_rand_generator e
  /\ train_audio_indices e' = train_audio_indices e
  /\ validation_audio_indices e' = validation_audio_indices e
  /\ test_data e' = test_data e
  /\ epoch_len e' = epoch_len e
  /\ train_chunks_copy st' ≡ₚ train_chunks_copy st.
Proof.
  revert e st. induction n as [| n IH]; intros e st.
  - simpl. intros [= <- <-]. split_and!; reflexivity.
  - cbn [train_pull]. unfold train_generator_next.
    assert (Hsel : let r := train_select e st in
              loaded r.1.1 = loaded e
              /\ validation_rand_generator r.1.1 = validation_rand_generator e
              /\ train_audio_indices r.1.1 = train_audio_indices e
              /\ validation_audio_indices r.1.1 = validation_audio_indices e
              /\ test_data r.1.1 = test_data e
              /\ epoch_len r.1.1 = epoch_len e
              /\ train_chunks_copy r.1.2 ≡ₚ train_chunks_copy st).
    { unfold train_select. case_decide; simpl; split_and!; try reflexivity.
      apply shuffle_Permutation. }
    destruct (train_select e st) as [[e1 st1] b]. simpl in Hsel.
    destruct Hsel as (H1 & H2 & H3 & H4 & H5 & H6 & H7).
    destruct (generate_xy_batches _ _ b) as [xy | ex]; [| discriminate].
    cbn [mbind result_bind snd].
    destruct (normalize _ _ _ xy.1) as [xb | ex]; [| discriminate].
    cbn [mbind result_bind snd]. intros Hr.
    apply IH in Hr as (I1 & I2 & I3 & I4 & I5 & I6 & I7). simpl in I7.
    split_and!; try congruence. rewrite I7. exact H7.
Qed.

(** The training generator keeps to its own copy: whatever it has
    yielded, the attributes set by the constructor (the pool, the tables,
    the statistics), the two index arrays, the evaluation random generator
    and the test data are as before, and the copy it holds is a
    permutation of the pool. *)
Theorem train_generator_frame (n : nat) (e0 e' : Engine R G)
    (st' : TrainLocals) :
  (train_generator n e0).2 = Ok (e', st') ->
  loaded e' = loaded e0
  /\ validation_rand_generator e' = validation_rand_generator e0
  /\ train_audio_indices e' = train_audio_indices e0
  /\ validation_audio_indices e' = validation_audio_indices e0
  /\ test_data e' = test_data e0
  /\ train_chunks_copy st' ≡ₚ train_chunks (loaded e0).
Proof.
  unfold train_generator, train_generator_start, floordiv.
  case_decide; [discriminate |]. cbn [mbind result_bind].
  intros Hr. apply train_pull_frame in Hr as (I1 & I2 & I3 & I4 & I5 & _ & I7).
  simpl in *. split_and!; try assumption.
  rewrite I7. apply shuffle_Permutation.
Qed.

(** Evaluation and loading the test file do not disturb training: the
    batches the training generator yields after a validation pass, or
    after [read_test_data], are those it would have yielded without. *)
Theorem train_generator_unaffected (n : nat) (e : Engine R G)
    (mode : string) (manually_verified_only shuffle_ : bool)
    (test : H5File R) :
  (train_generator n
     (validation_generator e mode manually_verified_only shuffle_).1).1
  = (train_generator n e).1
  /\ forall e', read_test_data e test = Ok e' ->
       (train_generator n e').1 = (train_generator n e).1.
Proof.
  split.
  - apply train_generator_view, validation_generator_train_view.
  - intros e' Hr. unfold read_test_data in Hr. result_inv Hr.
    injection Hr as <-. apply train_generator_view. reflexivity.
Qed.

End TrainingMore.

(** ** Test data and test generator *)

Lemma for_each_length {A B : Type} (f : A -> result B) (l : list A)
    (bs : list B) :
  for_each f l = Ok bs -> length bs = length l.
Proof.
  intros H. apply for_each_Forall2 in H.
  symmetry. exact (Forall2_length _ _ _ H).
Qed.

Section TestMore.
Context {R G : Type} `{!FloatOps R} `{!RandomGen G}.

(** The test attributes exist only after [read_test_data]: on a newly
    constructed engine, also after validation passes, the test generator
    raises [AttributeError] and yields nothing. *)
Theorem test_generator_before_read (params : HParams.t) (validate_ : bool)
    (hdf5 : H5File R) (folds : list Z) (e : Engine R G) (mode : string)
    (manually_verified_only shuffle_ : bool) :
  init params validate_ hdf5 folds = Ok e ->
  test_generator e = ([], Some AttributeError)
  /\ test_generator
       (validation_generator e mode manually_verified_only shuffle_).1
     = ([], Some AttributeError).
Proof.
  intros Hinit.
  destruct (init_Ok _ _ _ _ _ Hinit)
    as (_ & _ & _ & _ & _ & _ & _ & _ & _ & _ & Htd & _).
  assert (Hv : test_data
                 (validation_generator e mode manually_verified_only
                    shuffle_).1 = test_data e).
  { unfold validation_generator. destruct manually_verified_only; simpl.
    - destruct (verified_only e _); simpl; [| reflexivity].
      destruct shuffle_; reflexivity.
    - destruct shuffle_; [| reflexivity]. case_decide; reflexivity. }
  unfold test_generator. rewrite Hv, Htd. split; reflexivity.
Qed.

(** On well-formed test offsets ([L >= 2], non-empty ranges inside the
    test table) every value of the test generator has at least one chunk
    and every chunk has exactly [L] frames. *)
Theorem test_generator_shapes (e : Engine R G) (t : TestData R) :
  test_data e = Some t ->
  2 <= input_frames_number (loaded e) ->
  (forall b e', (b, e') ∈ begin_end_indices_test t ->
     0 <= b /\ 1 <= e' - b /\ e' <= len (x_test t)) ->
  Forall (fun v : list (list (list R)) * string * Z =>
            (1 <= length v.1.1)%nat
            /\ Forall (fun chunk => len chunk = input_frames_number (loaded e))
                 v.1.1)
    (test_generator e).1.
Proof.
  intros Ht HL Hoff. unfold test_generator. rewrite Ht.
  apply Forall_forall. intros v Hv.
  apply list_elem_of_lookup_1 in Hv as [k Hk].
  apply yield_each_lookup in Hk as ([i fn] & Hen & Hit).
  apply enumerate_lookup in Hen as [Hi _]. simpl in Hi. subst i.
  apply test_item_Ok in Hit
    as (be & cs & xy & Hbe & _ & _ & Hgc & Hxy & Hnorm).
  destruct be as [b e'].
  destruct (Hoff b e') as (Hb & Hlen & He);
    [eapply list_elem_of_lookup_2; exact Hbe |].
  destruct (generate_chunks_inside (input_frames_number (loaded e)) b e'
              (len (x_test t)) tt HL Hb Hlen He) as (cs' & Hcs' & Hne & Hin).
  simpl in Hgc. rewrite Hgc in Hcs'. injection Hcs' as <-.
  assert (HL0 : 0 <= input_frames_number (loaded e)) by lia.
  assert (Hin' : forall b0 e0 l0, (b0, e0, l0) ∈ cs ->
            0 <= b0 /\ 1 <= e0 - b0 /\ e0 <= len (x_test t)).
  { intros b0 e0 l0 H0. destruct (Hin b0 e0 l0 H0) as (? & ? & ? & _). auto. }
  destruct (generate_xy_batches_shape _ _ _ _ HL0 Hin' Hxy) as [Hrows Hall].
  destruct (normalize_shape _ _ _ _ _ _ Hnorm Hall) as [Hnl Hnall].
  split; [| exact Hnall]. rewrite Hnl, Hrows.
  destruct cs; [contradiction | simpl; lia].
Qed.

End TestMore.

(** ** The properties above on the small instance *)

Lemma validation_generator_count_witness :
  exists e : Engine Z Z,
    init Toy.params_eval1 false Toy.train_h5 [] = Ok e
    /\ (0 <= eval_audios_number (loaded e) ->
        Z.of_nat (length (validation_generator e "train" false false).2.1)
        <= eval_audios_number (loaded e)).
Proof.
  destruct (init (R := Z) (G := Z) Toy.params_eval1 false Toy.train_h5 [])
    as [e | ex] eqn:Hinit; [| vm_compute in Hinit; discriminate].
  exists e. split; [reflexivity |].
  apply (validation_generator_count e "train" false false
           (train_audio_indices e)).
  reflexivity.
Defined.

Lemma validation_generator_yields_witness :
  exists e : Engine Z Z,
    init Toy.params false Toy.train_h5 [] = Ok e
    /\ forall v, v ∈ (validation_generator e "train" true false).2.1 ->
         exists aind,
           aind ∈ train_audio_indices e
           /\ validation_item e aind = Ok v
           /\ index (y (loaded e)) aind = Ok v.2
           /\ v.1.2 = replicate (length v.1.1) v.2
           /\ (true = true ->
               index (manually_verified (loaded e)) aind = Ok 1).
Proof.
  destruct (init (R := Z) (G := Z) Toy.params false Toy.train_h5 [])
    as [e | ex] eqn:Hinit; [| vm_compute in Hinit; discriminate].
  exists e. split; [reflexivity |].
  apply (validation_generator_yields e "train" true false [0; 2]).
  vm_compute in Hinit. injection Hinit as <-. vm_compute. reflexivity.
Defined.

Lemma validation_generator_flags_out_of_range_witness :
  exists e : Engine Z Z,
    init Toy.params false Toy.short_flags_h5 [] = Ok e
    /\ validation_generator e "train" true false
       = (e, ([], Some IndexError)).
Proof.
  destruct (init (R := Z) (G := Z) Toy.params false Toy.short_flags_h5 [])
    as [e | ex] eqn:Hinit; [| vm_compute in Hinit; discriminate].
  exists e. split; [reflexivity |].
  destruct (init_indices _ _ _ _ _ Hinit) as (Ht & _ & _ & _ & _ & _ & Hmv).
  apply (validation_generator_flags_out_of_range e "train" false
           (train_audio_indices e) 2).
  - reflexivity.
  - rewrite Ht. vm_compute. apply list_elem_of_In. right. right. left.
    reflexivity.
  - rewrite Hmv. vm_compute. intros [_ H]. discriminate H.
Defined.

Lemma validation_generator_no_split_witness :
  exists e : Engine Z Z,
    init Toy.params false Toy.train_h5 [] = Ok e
    /\ (validation_generator e "validation" false true).2 = ([], None).
Proof.
  destruct (init (R := Z) (G := Z) Toy.params false Toy.train_h5 [])
    as [e | ex] eqn:Hinit; [| vm_compute in Hinit; discriminate].
  exists e. split; [reflexivity |].
  apply (validation_generator_no_split Toy.params Toy.train_h5 [] e
           "validation" true Hinit).
  discriminate.
Defined.

Lemma toy_offsets_inside (b e : Z) :
  (b, e) ∈ h5_begin_end_ind Toy.train_h5 ->
  0 <= b /\ 1 <= e - b /\ e <= len (h5_feature Toy.train_h5).
Proof.
  intros Hin. apply list_elem_of_In in Hin.
  destruct Hin as [Hin | [Hin | [Hin | []]]]; injection Hin as <- <-;
    vm_compute; repeat split; discriminate.
Qed.

Lemma train_generator_well_formed_witness :
  exists e0 : Engine Z Z,
    init Toy.params false Toy.train_h5 [] = Ok e0
    /\ length (train_generator 7 e0).1 = 7%nat
    /\ Forall (batch_shape 4 2) (train_generator 7 e0).1.
Proof.
  destruct (init (R := Z) (G := Z) Toy.params false Toy.train_h5 [])
    as [e0 | ex] eqn:Hinit; [| vm_compute in Hinit; discriminate].
  exists e0. split; [reflexivity |].
  apply (train_generator_well_formed Toy.params false Toy.train_h5 [] e0 7
           Hinit).
  - simpl. lia.
  - simpl. lia.
  - exact toy_offsets_inside.
Defined.

Lemma train_generator_epoch_len_count_witness :
  exists e0 e1 : Engine Z Z,
    init Toy.params false Toy.train_h5 [] = Ok e0
    /\ exists st1 q,
         train_generator_start e0 = Ok (e1, st1)
         /\ epoch_len e1 = Some q
         /\ epoch (train_batches (Z.to_nat (q - 1)) e1 st1).2.1 = Some 1
         /\ epoch (train_batches (Z.to_nat q) e1 st1).2.1 = Some 2.
Proof.
  destruct (init (R := Z) (G := Z) Toy.params false Toy.train_h5 [])
    as [e0 | ex] eqn:Hinit; [| vm_compute in Hinit; discriminate].
  assert (Hbs : batch_size (loaded e0) = 2)
    by (vm_compute in Hinit; injection Hinit as <-; reflexivity).
  assert (HN : train_chunks_len (loaded e0) = 4)
    by (vm_compute in Hinit; injection Hinit as <-; reflexivity).
  destruct (train_generator_epoch_len_count e0)
    as (e1 & st1 & q & Hs & Hq & H1 & H2).
  - rewrite Hbs. lia.
  - rewrite HN. lia.
  - destruct (init_Ok _ _ _ _ _ Hinit)
      as (_ & _ & _ & _ & _ & _ & _ & _ & H & _).
    exact H.
  - exists e0, e1. split; [reflexivity |]. exists st1, q.
    split_and!; try assumption.
    rewrite H2, HN, Hbs. reflexivity.
Defined.

Lemma train_generator_frame_witness :
  exists e0 : Engine Z Z,
    init Toy.params false Toy.train_h5 [] = Ok e0
    /\ exists e' st',
         (train_generator 5 e0).2 = Ok (e', st')
         /\ train_audio_indices e' = train_audio_indices e0
         /\ train_chunks_copy st' ≡ₚ train_chunks (loaded e0).
Proof.
  destruct (init (R := Z) (G := Z) Toy.params false Toy.train_h5 [])
    as [e0 | ex] eqn:Hinit; [| vm_compute in Hinit; discriminate].
  exists e0. split; [reflexivity |].
  destruct (train_generator 5 e0).2 as [[e' st'] | ex] eqn:Hr.
  - exists e', st'. split; [reflexivity |].
    destruct (train_generator_frame 5 e0 e' st' Hr)
      as (_ & _ & Hti & _ & _ & Hp).
    split; [exact Hti | exact Hp].
  - exfalso. vm_compute in Hinit. injection Hinit as <-.
    vm_compute in Hr. discriminate.
Defined.

Lemma train_generator_unaffected_witness :
  exists e e' : Engine Z Z,
    init Toy.params false Toy.train_h5 [] = Ok e
    /\ read_test_data e Toy.test_h5 = Ok e'
    /\ (train_generator 5 e').1 = (train_generator 5 e).1.
Proof.
  destruct (init (R := Z) (G := Z) Toy.params false Toy.train_h5 [])
    as [e | ex] eqn:Hinit; [| vm_compute in Hinit; discriminate].
  destruct (read_test_data e Toy.test_h5) as [e' | ex] eqn:Hread.
  - exists e, e'. split; [reflexivity |]. split; [exact Hread |].
    destruct (train_generator_unaffected 5 e "train" false false Toy.test_h5)
      as [_ Hr].
    apply Hr, Hread.
  - exfalso. vm_compute in Hinit. injection Hinit as <-.
    vm_compute in Hread. discriminate.
Defined.

Lemma test_generator_before_read_witness :
  exists e : Engine Z Z,
    init Toy.params false Toy.train_h5 [] = Ok e
    /\ test_generator e = ([], Some AttributeError).
Proof.
  destruct (init (R := Z) (G := Z) Toy.params false Toy.train_h5 [])
    as [e | ex] eqn:Hinit; [| vm_compute in Hinit; discriminate].
  exists e. split; [reflexivity |].
  apply (test_generator_before_read Toy.params false Toy.train_h5 [] e
           "train" false false Hinit).
Defined.

Lemma test_generator_shapes_witness :
  exists (e0 e : Engine Z Z) (t : TestData Z),
    init Toy.params false Toy.train_h5 [] = Ok e0
    /\ read_test_data e0 Toy.test_h5 = Ok e
    /\ test_data e = Some t
    /\ Forall (fun v : list (list (list Z)) * string * Z =>
                 (1 <= length v.1.1)%nat
                 /\ Forall (fun chunk =>
                              len chunk = input_frames_number (loaded e))
                      v.1.1)
         (test_generator e).1.
Proof.
  destruct (init (R := Z) (G := Z) Toy.params false Toy.train_h5 [])
    as [e0 | ex] eqn:Hinit; [| vm_compute in Hinit; discriminate].
  destruct (read_test_data e0 Toy.test_h5) as [e | ex] eqn:Hread.
  - pose proof Hread as Hr. unfold read_test_data in Hr. result_inv Hr.
    injection Hr as <-.
    eexists e0, _, _. split; [reflexivity |]. split; [exact Hread |].
    split; [reflexivity |].
    eapply test_generator_shapes; [reflexivity | |].
    + change (2 <= input_frames_number (loaded e0)).
      destruct (init_Ok _ _ _ _ _ Hinit) as (_ & _ & _ & _ & -> & _).
      simpl. lia.
    + simpl. intros b e' Hin. apply list_elem_of_In in Hin.
      destruct Hin as [Hin | [Hin | []]]; injection Hin as <- <-;
        vm_compute; repeat split; discriminate.
  - exfalso. vm_compute in Hinit. injection Hinit as <-.
    vm_compute in Hread. discriminate.
Defined.
